(** * Unified transcription (ASR) client: model and verification

    A shallow embedding of the TypeScript sources under
    [aisuite-js/src/asr]: the model identifier parser, the error taxonomy,
    the three provider adapters (OpenAI, Deepgram, Google Cloud) and the
    dispatch client, followed by the properties established about them.

    Conventions of the embedding:
    - a JavaScript value is a [JSValue]; numbers are IEEE binary64 floats
      ([PrimFloat.float]), strings are sequences of code units below 256;
    - a JavaScript object is the list of its own enumerable string-keyed
      properties in enumeration order ([Obj]);
    - a computation that may throw, warn on the console or call a
      collaborator (file system, network, SDK) lives in the monad [M], which
      records the effects in order and ends in a value or in the exception
      thrown;
    - what the JavaScript engine or a collaborator decides (the text of a
      [Number], the answer of the network) is a field of [World]. *)

From Stdlib Require Import ZArith List String Ascii Bool Lia Floats.
From Stdlib Require Import Strings.Byte Numbers.DecimalString.
Set Warnings "-inexact-float,-register-all".
Import ListNotations.
Open Scope string_scope.

(** ** Strings *)

Module Str.

(** The double quote character, as a one-character string. *)
Definition dq : string := String (ascii_of_nat 34) EmptyString.

Definition colon : ascii := ascii_of_nat 58.

(** [s.split(sep)] for a one-character separator. *)
Fixpoint split (sep : ascii) (s : string) : list string :=
  match s with
  | EmptyString => [EmptyString]
  | String c s' =>
      if Ascii.eqb c sep then EmptyString :: split sep s'
      else match split sep s' with
           | [] => [String c EmptyString]
           | h :: t => String c h :: t
           end
  end.

(** Number of occurrences of a character. *)
Fixpoint count (c : ascii) (s : string) : nat :=
  match s with
  | EmptyString => 0
  | String d s' => (if Ascii.eqb d c then 1 else 0) + count c s'
  end.

(** [s.startsWith(p)]. *)
Definition startsWith (p s : string) : bool := String.prefix p s.

(** [s.substring(n)]: the string without its first [n] code units. *)
Fixpoint drop (n : nat) (s : string) : string :=
  match n, s with
  | O, _ => s
  | S _, EmptyString => EmptyString
  | S n', String _ s' => drop n' s'
  end.

(** [s.includes(sub)]. *)
Fixpoint includes (sub s : string) : bool :=
  if String.prefix sub s then true
  else match s with
       | EmptyString => false
       | String _ s' => includes sub s'
       end.

(** [l.join(sep)] on a list of strings. *)
Fixpoint join (sep : string) (l : list string) : string :=
  match l with
  | [] => EmptyString
  | [x] => x
  | x :: rest => x ++ sep ++ join sep rest
  end.

(** [sub] occurs in [s] as a contiguous run of characters. *)
Definition Contains (sub s : string) : Prop :=
  exists before after, s = before ++ sub ++ after.

End Str.

(** ** Values, exceptions, objects *)

Inductive JSValue : Type :=
| JUndefined
| JNull
| JBool (b : bool)
| JNum (x : float)
| JStr (s : string)
| JBuffer (bytes : list byte)         (* a Node.js Buffer *)
| JUint8Array (bytes : list byte)     (* a Uint8Array that is not a Buffer *)
| JArr (elems : list JSValue)
| JObj (fields : list (string * JSValue)).

(** The three fields every [ASRError] carries, and the [name] its
    constructor sets. *)
Record ASRErrorData : Type := mkASRError {
  err_name : string;
  err_message : string;
  err_provider : string;
  err_code : option string
}.

Inductive Exn : Type :=
| ThrowASR (e : ASRErrorData)            (* [instanceof ASRError] *)
| ThrowError (name message : string)     (* any other [Error] instance *)
| ThrowValue (v : JSValue).              (* a thrown value that is no [Error] *)

(** ** The model identifier parser ([core/model-parser.ts]) *)

Record ParsedModel : Type := mkParsed { provider : string; model : string }.

Definition format_message (model : string) : string :=
  "Invalid model format: " ++ Str.dq ++ model ++ Str.dq
  ++ ". Expected format: " ++ Str.dq ++ "provider:model" ++ Str.dq.

Definition required_message (model : string) : string :=
  "Invalid model format: " ++ Str.dq ++ model ++ Str.dq
  ++ ". Both provider and model name are required.".

(** [!s] on a string. *)
Definition str_falsy (s : string) : bool :=
  match s with EmptyString => true | _ => false end.

Definition parseModel (model : string) : Exn + ParsedModel :=
  let parts := Str.split Str.colon model in
  if negb (Nat.eqb (List.length parts) 2) then
    inl (ThrowError "Error" (format_message model))
  else
    match parts with
    | [provider; modelName] =>
        if str_falsy provider || str_falsy modelName then
          inl (ThrowError "Error" (required_message model))
        else inr (mkParsed provider modelName)
    | _ => inl (ThrowError "Error" (format_message model))
    end.

(** ** Objects as ordered property lists *)

Definition Obj (V : Type) : Type := list (string * V).

Module Object.
Section Ops.
Context {V : Type}.

(** [o[k]] restricted to own properties. *)
Fixpoint lookup (k : string) (o : Obj V) : option V :=
  match o with
  | [] => None
  | (k', v) :: rest => if String.eqb k' k then Some v else lookup k rest
  end.

Definition has_key (k : string) (o : Obj V) : bool :=
  match lookup k o with Some _ => true | None => false end.

(** [Object.keys(o)]. *)
Definition keys (o : Obj V) : list string := map fst o.

Definition digit_of (c : ascii) : option N :=
  let n := N_of_ascii c in
  if (N.leb 48 n && N.leb n 57)%bool then Some (n - 48)%N else None.

Fixpoint digits_value (acc : N) (s : string) : option N :=
  match s with
  | EmptyString => Some acc
  | String c s' =>
      match digit_of c with
      | Some d => digits_value (acc * 10 + d)%N s'
      | None => None
      end
  end.

(** A key that is an array index (a canonical decimal numeral below
    2^32 - 1): such keys are enumerated first, in ascending order. *)
Definition array_index (k : string) : option N :=
  match k with
  | EmptyString => None
  | String c rest =>
      if (Ascii.eqb c "0" && negb (str_falsy rest))%bool then None
      else match digits_value 0 k with
           | Some n => if N.ltb n 4294967295 then Some n else None
           | None => None
           end
  end.

Fixpoint replace (k : string) (v : V) (o : Obj V) : Obj V :=
  match o with
  | [] => []
  | (k', v') :: rest =>
      if String.eqb k' k then (k', v) :: rest
      else (k', v') :: replace k v rest
  end.

Fixpoint insert_index (n : N) (k : string) (v : V) (o : Obj V) : Obj V :=
  match o with
  | [] => [(k, v)]
  | (k', v') :: rest =>
      match array_index k' with
      | Some n' =>
          if N.ltb n' n then (k', v') :: insert_index n k v rest
          else (k, v) :: o
      | None => (k, v) :: o
      end
  end.

(** Definition of the own property [k] (what an object literal and a
    spread do): an existing property keeps its place, a new one is
    enumerated last unless its key is an array index. *)
Definition define (k : string) (v : V) (o : Obj V) : Obj V :=
  if has_key k o then replace k v o
  else match array_index k with
       | Some n => insert_index n k v o
       | None => (o ++ [(k, v)])%list
       end.

(** The assignment [o[k] = v] on an object whose prototype is the ordinary
    one. Assigning to [__proto__] reaches the inherited setter and creates
    no own property, unless the object already owns one of that name. When
    the value is an object, that setter also replaces the prototype; an
    [Obj] records own properties only, so the model does not follow what a
    replaced prototype would make a later read inherit or a later
    assignment meet. *)
Definition set (k : string) (v : V) (o : Obj V) : Obj V :=
  if (String.eqb k "__proto__" && negb (has_key k o))%bool then o
  else define k v o.

(** [{...target, ...src}] once [target] has been built. *)
Definition spread (target src : Obj V) : Obj V :=
  fold_left (fun acc kv => define (fst kv) (snd kv) acc) src target.

End Ops.
End Object.

(** ** Effects *)

(** An [AbortSignal.timeout(ms)]. *)
Record AbortSignal : Type := SignalTimeout { timeout_ms : float }.

Record FetchRequest : Type := mkFetch {
  fetch_url : string;
  fetch_method : string;
  fetch_headers : list (string * string);
  fetch_body : list byte;
  fetch_signal : option AbortSignal
}.

Record FetchResponse : Type := mkResponse {
  resp_ok : bool;
  resp_status : N;
  resp_statusText : string;
  resp_json : Exn + JSValue       (* what [response.json()] settles to *)
}.

(** What the OpenAI adapter puts in its SDK request: besides plain values,
    a read stream on a path and a [File] built from bytes. *)
Inductive OAValue : Type :=
| OAStream (path : string)
| OAFile (content : list byte) (name type : string)
| OARaw (v : JSValue).

Inductive TypeErrorKind : Type :=
| TE_ReadProperty (target : JSValue) (prop : string)   (* property of null or undefined *)
| TE_NotAFunction (what : string)                  (* call of a non-callable *)
| TE_ToPrimitive.                                  (* object without primitive value *)

(** What the engine and the collaborators decide. *)
Record World : Type := mkWorld {
  numberToString : float -> string;               (* Number::toString *)
  utf8Decode : list byte -> string;               (* Buffer.prototype.toString() *)
  base64Encode : list byte -> string;             (* buf.toString('base64') *)
  typeErrorMessage : TypeErrorKind -> string;     (* message of an engine TypeError *)
  abortTimeoutCheck : float -> option Exn;        (* argument check of AbortSignal.timeout *)
  readFileSync : string -> Exn + list byte;       (* fs.readFileSync(path) *)
  fetch : FetchRequest -> Exn + FetchResponse;    (* global fetch *)
  openaiCreate : Obj OAValue -> Exn + JSValue     (* client.audio.transcriptions.create *)
}.

Inductive Event : Type :=
| EvWarn (msg : string)                 (* console.warn *)
| EvReadFile (path : string)            (* fs.readFileSync *)
| EvCreateReadStream (path : string)    (* fs.createReadStream *)
| EvFetch (req : FetchRequest)          (* fetch *)
| EvOpenAICreate (req : Obj OAValue).   (* OpenAI SDK call *)

(** A computation: the effects it performed, in order, and how it ended. *)
Definition M (A : Type) : Type := (list Event * (Exn + A))%type.

Definition ret {A} (a : A) : M A := ([], inr a).
Definition throw {A} (e : Exn) : M A := ([], inl e).
Definition emit (ev : Event) : M unit := ([ev], inr tt).
Definition lift {A} (r : Exn + A) : M A := ([], r).

Definition bind {A B} (m : M A) (f : A -> M B) : M B :=
  match m with
  | (evs, inl e) => (evs, inl e)
  | (evs, inr a) => let '(evs', r) := f a in ((evs ++ evs')%list, r)
  end.

(** [try { m } catch (error) { handler error }]. *)
Definition try_catch {A} (m : M A) (handler : Exn -> M A) : M A :=
  match m with
  | (evs, inl e) => let '(evs', r) := handler e in ((evs ++ evs')%list, r)
  | (evs, inr a) => (evs, inr a)
  end.

Declare Scope js_scope.
Delimit Scope js_scope with js.
Notation "x <- m ;; k" := (bind m (fun x => k))
  (at level 61, m at next level, right associativity) : js_scope.
Notation "m ;;; k" := (bind m (fun _ => k))
  (at level 61, right associativity) : js_scope.
Open Scope js_scope.

(** [for (const x of l) body x]. *)
Fixpoint for_each {A} (l : list A) (body : A -> M unit) : M unit :=
  match l with
  | [] => ret tt
  | x :: rest => body x ;;; for_each rest body
  end.

(** A loop that threads an accumulator (a local the body assigns to). *)
Fixpoint fold_m {A S} (l : list A) (body : S -> A -> M S) (s : S) : M S :=
  match l with
  | [] => ret s
  | x :: rest => s' <- body s x ;; fold_m rest body s'
  end.

Definition events {A} (m : M A) : list Event := fst m.
Definition outcome {A} (m : M A) : Exn + A := snd m.

Definition is_remote_call (ev : Event) : bool :=
  match ev with
  | EvFetch _ | EvOpenAICreate _ => true
  | _ => false
  end.

(** No network or SDK call among the effects. *)
Definition no_remote_call {A} (m : M A) : Prop :=
  forallb (fun ev => negb (is_remote_call ev)) (events m) = true.

(** ** Numbers *)

Module Num.

Definition is_nan (x : float) : bool := negb (PrimFloat.eqb x x).

(** [!x] on a number: zero of either sign, or NaN. *)
Definition falsy (x : float) : bool := (PrimFloat.eqb x 0 || is_nan x)%bool.

(** The Number nearest to a natural number (ties to even). *)
Definition of_N (n : N) : float :=
  SF2Prim (binary_normalize prec emax (Z.of_N n) 0 false).

(** The Number nearest to [(-1)^neg * m * 10^e]: the value of a decimal
    literal, rounded once. *)
Definition of_decimal (neg : bool) (m : N) (e : Z) : float :=
  match m with
  | N0 => if neg then PrimFloat.opp 0 else 0%float
  | Npos p =>
      if Z.leb 0 e then
        SF2Prim (binary_normalize prec emax
                   (cond_Zopp neg (Zpos p * 10 ^ e)) 0 false)
      else
        SF2Prim (SFdiv prec emax (S754_finite neg p 0)
                   (S754_finite false (Z.to_pos (10 ^ (- e))) 0))
  end.

(** White space and line terminators among the code units below 256. *)
Definition is_space (c : ascii) : bool :=
  let n := nat_of_ascii c in
  existsb (Nat.eqb n) [9; 10; 11; 12; 13; 32; 160]%nat.

Fixpoint trim_start (s : string) : string :=
  match s with
  | String c s' => if is_space c then trim_start s' else s
  | EmptyString => s
  end.

Fixpoint trim_end (s : string) : string :=
  match s with
  | EmptyString => EmptyString
  | String c s' =>
      let t := trim_end s' in
      if (is_space c && str_falsy t)%bool then EmptyString else String c t
  end.

(** [s.trim()]. *)
Definition trim (s : string) : string := trim_end (trim_start s).

(** The longest run of decimal digits at the head of [s], and the rest. *)
Fixpoint take_digits (s : string) : list N * string :=
  match s with
  | EmptyString => ([], s)
  | String c s' =>
      match Object.digit_of c with
      | Some d => let '(ds, rest) := take_digits s' in (d :: ds, rest)
      | None => ([], s)
      end
  end.

Definition digits_to_N (ds : list N) : N :=
  fold_left (fun acc d => acc * 10 + d)%N ds 0%N.

Definition take_sign (s : string) : bool * string :=
  match s with
  | String c s' =>
      if Ascii.eqb c "-" then (true, s')
      else if Ascii.eqb c "+" then (false, s')
      else (false, s)
  | EmptyString => (false, s)
  end.

(** The exponent part [e[+-]digits] at the head of [s], if complete. *)
Definition take_exponent (s : string) : Z :=
  match s with
  | String c s' =>
      if (Ascii.eqb c "e" || Ascii.eqb c "E")%bool then
        let '(eneg, s1) := take_sign s' in
        match fst (take_digits s1) with
        | [] => 0%Z
        | ds => cond_Zopp eneg (Z.of_N (digits_to_N ds))
        end
      else 0%Z
  | EmptyString => 0%Z
  end.

(** [parseFloat] on a string: leading white space is skipped, the longest
    prefix that is a decimal literal is read, anything else gives NaN. *)
Definition parseFloat (input : string) : float :=
  let '(neg, s) := take_sign (trim_start input) in
  if String.prefix "Infinity" s then
    (if neg then neg_infinity else infinity)
  else
    let '(int_ds, s1) := take_digits s in
    let '(frac_ds, s2) :=
      match s1 with
      | String c r => if Ascii.eqb c "." then take_digits r else ([], s1)
      | EmptyString => ([], s1)
      end in
    match (int_ds ++ frac_ds)%list with
    | [] => nan
    | ds => of_decimal neg (digits_to_N ds)
              (take_exponent s2 - Z.of_nat (List.length frac_ds))
    end.

(** Decimal text of a natural number. *)
Definition N_to_string (n : N) : string :=
  NilEmpty.string_of_uint (N.to_uint n).

End Num.

(** ** Operations of the language on values *)

Module JS.

(** [if (v)]. *)
Definition truthy (v : JSValue) : bool :=
  match v with
  | JUndefined | JNull => false
  | JBool b => b
  | JNum x => negb (Num.falsy x)
  | JStr s => negb (str_falsy s)
  | JBuffer _ | JUint8Array _ | JArr _ | JObj _ => true
  end.

Definition nullish (v : JSValue) : bool :=
  match v with
  | JUndefined | JNull => true
  | _ => false
  end.

(** [a || b]. *)
Definition or_else (a b : JSValue) : JSValue := if truthy a then a else b.

(** [o.name] on an object given by its properties ([undefined] when
    absent). *)
Definition prop (o : Obj JSValue) (name : string) : JSValue :=
  match Object.lookup name o with
  | Some v => v
  | None => JUndefined
  end.

Definition byte_value (b : byte) : JSValue := JNum (Num.of_N (Byte.to_N b)).

Section WithWorld.
Context (W : World).

Definition type_error (k : TypeErrorKind) : Exn :=
  ThrowError "TypeError" (typeErrorMessage W k).

(** [v.name], for a name that no built-in prototype defines (every name
    the adapters read is such a name): own properties of objects, nothing
    on other values, a TypeError on [null] and [undefined]. *)
Definition get (v : JSValue) (name : string) : M JSValue :=
  match v with
  | JUndefined | JNull => throw (type_error (TE_ReadProperty v name))
  | JObj fields => ret (prop fields name)
  | _ => ret JUndefined
  end.

(** [v?.name]. *)
Definition get_opt (v : JSValue) (name : string) : JSValue :=
  match v with
  | JObj fields => prop fields name
  | _ => JUndefined
  end.

(** [v[0]] on a value that is neither [null] nor [undefined]. *)
Definition first_of (v : JSValue) : JSValue :=
  match v with
  | JArr (x :: _) => x
  | JStr (String c _) => JStr (String c EmptyString)
  | JBuffer (b :: _) | JUint8Array (b :: _) => byte_value b
  | JObj fields => prop fields "0"
  | _ => JUndefined
  end.

(** [v[0]]. *)
Definition index0 (v : JSValue) : M JSValue :=
  if nullish v then throw (type_error (TE_ReadProperty v "0"))
  else ret (first_of v).

(** [v?.[0]]. *)
Definition index0_opt (v : JSValue) : JSValue :=
  if nullish v then JUndefined else first_of v.

(** The text of a value, when it has one. An object converts through its
[toString]; an own property of that name holds data, which cannot be
called, and then the object (or the array that holds it) has no text. *)
Fixpoint text_of (v : JSValue) : option string :=
  match v with
  | JUndefined => Some "undefined"
  | JNull => Some "null"
  | JBool b => Some (if b then "true" else "false")
  | JNum x => Some (numberToString W x)
  | JStr s => Some s
  | JBuffer b => Some (utf8Decode W b)
  | JUint8Array b =>
      Some (Str.join "," (map (fun x => Num.N_to_string (Byte.to_N x)) b))
  | JArr elems =>
      let fix each (l : list JSValue) : option (list string) :=
        match l with
        | [] => Some []
        | x :: rest =>
            match (if nullish x then Some EmptyString else text_of x) with
            | None => None
            | Some s =>
                match each rest with
                | None => None
                | Some ss => Some (s :: ss)
                end
            end
        end in
      match each elems with
      | None => None
      | Some ss => Some (Str.join "," ss)
      end
  | JObj fields =>
      if Object.has_key "toString" fields then None
      else Some "[object Object]"
  end.

(** [String(v)]: the conversion that string concatenation, [parseFloat]
and [URLSearchParams] apply. *)
Definition toString (v : JSValue) : Exn + string :=
  match text_of v with
  | Some s => inr s
  | None => inl (type_error TE_ToPrimitive)
  end.

(** [v.toString()]. *)
Definition call_toString (v : JSValue) : M string :=
  match v with
  | JUndefined | JNull => throw (type_error (TE_ReadProperty v "toString"))
  | JObj fields =>
      if Object.has_key "toString" fields
      then throw (type_error (TE_NotAFunction "toString"))
      else ret "[object Object]"
  | _ => lift (toString v)
  end.

(** [v?.toString()]. *)
Definition call_toString_opt (v : JSValue) : M JSValue :=
  if nullish v then ret JUndefined
  else s <- call_toString v ;; ret (JStr s).

(** [parseFloat(v)]. *)
Definition parseFloat (v : JSValue) : M float :=
  s <- lift (toString v) ;; ret (Num.parseFloat s).

(** [v.forEach(x => out.push(f x))]: the elements pushed, in order. Only
    arrays and typed arrays have a [forEach]. *)
Definition collect {A} (v : JSValue) (f : JSValue -> M A) : M (list A) :=
  let run (l : list JSValue) :=
    fold_m l (fun acc x => y <- f x ;; ret (acc ++ [y])%list) [] in
  match v with
  | JArr elems => run elems
  | JBuffer b | JUint8Array b => run (map byte_value b)
  | JUndefined | JNull => throw (type_error (TE_ReadProperty v "forEach"))
  | _ => throw (type_error (TE_NotAFunction "forEach"))
  end.

End WithWorld.
End JS.

(** ** The error taxonomy ([core/errors.ts]) *)

Definition ASRError (message provider : string) (code : option string)
  : ASRErrorData :=
  mkASRError "ASRError" message provider code.

Definition UnsupportedParameterError (parameter provider : string)
  : ASRErrorData :=
  mkASRError "UnsupportedParameterError"
    ("Parameter '" ++ parameter ++ "' is not supported by provider '"
       ++ provider ++ "'")
    provider (Some "UNSUPPORTED_PARAMETER").

Definition ProviderNotConfiguredError (provider : string)
  (availableProviders : list string) : ASRErrorData :=
  mkASRError "ProviderNotConfiguredError"
    ("Provider '" ++ provider ++ "' is not configured. Available providers: "
       ++ Str.join ", " availableProviders)
    provider (Some "PROVIDER_NOT_CONFIGURED").

Definition AudioProcessingError (message provider : string) : ASRErrorData :=
  mkASRError "AudioProcessingError" message provider
    (Some "AUDIO_PROCESSING_ERROR").

(** ** The unified types ([types/common.ts]) *)

Record RequestOptions : Type := mkOptions {
  timeout : option float;
  retries : option float
}.

(** The untyped trees of the backends flow into the result unchanged, so
    its fields hold values of any kind; an absent field is [undefined]. *)
Record Word : Type := mkWord {
  word_text : JSValue;
  word_start : JSValue;
  word_end : JSValue;
  word_confidence : JSValue;
  word_speaker : JSValue
}.

Record Segment : Type := mkSegment {
  seg_text : JSValue;
  seg_start : JSValue;
  seg_end : JSValue;
  seg_speaker : JSValue
}.

Record TranscriptionResult : Type := mkResult {
  text : JSValue;
  language : JSValue;
  confidence : JSValue;
  words : list Word;
  segments : list Segment
}.

(** [catch (error)] of every adapter: an [ASRError] is thrown again, anything
    else is wrapped under the code [API_ERROR]. *)
Definition rewrap {A} (label name : string) (error : Exn) : M A :=
  match error with
  | ThrowASR _ => throw error
  | ThrowError _ message =>
      throw (ThrowASR (ASRError (label ++ message) name (Some "API_ERROR")))
  | ThrowValue _ =>
      throw (ThrowASR (ASRError (label ++ "Unknown error") name
                         (Some "API_ERROR")))
  end.

(** [l.includes(k)] and [set.has(k)] on string lists. *)
Definition mem (k : string) (l : list string) : bool :=
  existsb (String.eqb k) l.

Definition when (b : bool) (m : M unit) : M unit := if b then m else ret tt.

(** ** The OpenAI adapter ([providers/openai]) *)

Module OpenAI.

Definition name : string := "openai".

Definition supported : list string :=
  ["language"; "timestamps"; "temperature"; "prompt"; "response_format"].

Definition unsupported : list string := ["word_confidence"; "speaker_labels"].

Definition warning (key : string) : string :=
  "Parameter '" ++ key ++ "' may not be supported by OpenAI ASR".

Definition validateParams (model : JSValue) (params : Obj JSValue) : M unit :=
  for_each params (fun '(key, value) =>
    when (mem key unsupported)
      (throw (ThrowASR (UnsupportedParameterError key name))) ;;;
    when (negb (mem key supported) && negb (Str.startsWith "openai_" key))
      (emit (EvWarn (warning key)))).

(** One turn of the loop of [translateParams]. *)
Definition translate_entry (translated : Obj JSValue)
  (entry : string * JSValue) : Obj JSValue :=
  let '(key, value) := entry in
  if String.eqb key "language" then
    Object.set "language" value translated
  else if String.eqb key "timestamps" then
    if JS.truthy value
    then Object.set "response_format" (JStr "verbose_json") translated
    else translated
  else if String.eqb key "temperature" then
    Object.set "temperature" value translated
  else if Str.startsWith "openai_" key then
    Object.set (Str.drop 7 key) value translated
  else
    Object.set key value translated.

Definition translateParams (model : JSValue) (params : Obj JSValue)
  : Obj JSValue :=
  fold_left translate_entry params [].

Section WithWorld.
Context (W : World).

Definition word_of (word : JSValue) : M Word :=
  t <- JS.get W word "word" ;;
  s <- JS.get W word "start" ;;
  e <- JS.get W word "end" ;;
  c <- JS.get W word "confidence" ;;
  ret (mkWord t s e c JUndefined).

Definition segment_of (segment : JSValue) : M Segment :=
  t <- JS.get W segment "text" ;;
  s <- JS.get W segment "start" ;;
  e <- JS.get W segment "end" ;;
  ret (mkSegment t s e JUndefined).

Definition adaptResponse (response : JSValue) : M TranscriptionResult :=
  rwords <- JS.get W response "words" ;;
  words <- (if JS.truthy rwords then JS.collect W rwords word_of
            else ret []) ;;
  rsegments <- JS.get W response "segments" ;;
  segments <- (if JS.truthy rsegments then JS.collect W rsegments segment_of
               else ret []) ;;
  text <- JS.get W response "text" ;;
  language <- JS.get W response "language" ;;
  confidence <- JS.get W response "confidence" ;;
  ret (mkResult text (JS.or_else language (JStr "unknown")) confidence
         words segments).

(** The audio object built from [request.file]. *)
Definition audio_of (file : JSValue) : OAValue :=
  match file with
  | JStr path => OAStream path
  | JBuffer b | JUint8Array b => OAFile b "audio.wav" "audio/wav"
  | _ => OARaw file
  end.

(** The statement that builds it. On a path, [fs.createReadStream] returns
    the stream at once; the file is opened later, and a failure to open it
    is reported on the stream, not thrown. *)
Definition audioFile (file : JSValue) : M OAValue :=
  match file with
  | JStr path => emit (EvCreateReadStream path) ;;; ret (audio_of file)
  | _ => ret (audio_of file)
  end.

(** [transcribe] up to the SDK call: the request handed to the SDK. *)
Definition build_request (request : Obj JSValue) : M (Obj OAValue) :=
  validateParams (JS.prop request "model") request ;;;
  let translatedParams :=
    translateParams (JS.prop request "model") request in
  audio <- audioFile (JS.prop request "file") ;;
  ret (Object.spread
         [("file", audio); ("model", OARaw (JS.prop request "model"))]
         (map (fun kv => (fst kv, OARaw (snd kv))) translatedParams)).

(** [transcribe] from the SDK call on. *)
Definition send (openaiRequest : Obj OAValue) : M TranscriptionResult :=
  emit (EvOpenAICreate openaiRequest) ;;;
  response <- lift (openaiCreate W openaiRequest) ;;
  adaptResponse response.

Definition transcribe (request : Obj JSValue)
  (options : option RequestOptions) : M TranscriptionResult :=
  try_catch (openaiRequest <- build_request request ;; send openaiRequest)
    (rewrap "OpenAI ASR error: " name).

End WithWorld.
End OpenAI.

(** ** Query strings ([URLSearchParams]) *)

Module Url.

Definition hex_digit (n : N) : string :=
  String.substring (N.to_nat n) 1 "0123456789ABCDEF".

Definition percent (b : N) : string :=
  "%" ++ hex_digit (b / 16) ++ hex_digit (b mod 16).

(** UTF-8 bytes of a code unit below 256. *)
Definition utf8 (c : ascii) : list N :=
  let n := N_of_ascii c in
  if N.ltb n 128 then [n] else [192 + n / 64; 128 + n mod 64]%N.

(** Bytes the form-urlencoded serializer leaves as they are:
    [*], [-], [.], [_], digits and letters. *)
Definition unreserved (n : N) : bool :=
  (existsb (N.eqb n) [42; 45; 46; 95]%N
   || (N.leb 48 n && N.leb n 57)
   || (N.leb 65 n && N.leb n 90)
   || (N.leb 97 n && N.leb n 122))%bool.

Definition encode_byte (n : N) : string :=
  if N.eqb n 32 then "+"
  else if unreserved n then String (ascii_of_N n) EmptyString
  else percent n.

Fixpoint encode (s : string) : string :=
  match s with
  | EmptyString => EmptyString
  | String c s' => String.concat EmptyString (map encode_byte (utf8 c)) ++ encode s'
  end.

(** [queryParams.toString()]. *)
Definition serialize (pairs : list (string * string)) : string :=
  Str.join "&" (map (fun kv => encode (fst kv) ++ "=" ++ encode (snd kv)) pairs).

End Url.

(** ** The Deepgram adapter ([providers/deepgram]) *)

Module Deepgram.

Definition name : string := "deepgram".

Record DeepgramConfig : Type := mkConfig {
  config_apiKey : string;
  config_baseURL : option string
}.

Record Instance : Type := mkInstance {
  apiKey : string;
  baseURL : string
}.

(** The constructor: [config.baseURL || 'https://api.deepgram.com/v1']. *)
Definition create (config : DeepgramConfig) : Instance :=
  mkInstance (config_apiKey config)
    (match config_baseURL config with
     | Some url => if str_falsy url then "https://api.deepgram.com/v1" else url
     | None => "https://api.deepgram.com/v1"
     end).

Definition supported : list string :=
  ["language"; "timestamps"; "word_confidence"; "speaker_labels";
   "smart_format"; "punctuate"; "diarize"; "utterances"].

Definition warning (key : string) : string :=
  "Parameter '" ++ key ++ "' may not be supported by Deepgram ASR".

Definition validateParams (model : JSValue) (params : Obj JSValue) : M unit :=
  for_each params (fun '(key, value) =>
    when (negb (mem key supported) && negb (Str.startsWith "deepgram_" key))
      (emit (EvWarn (warning key)))).

(** One turn of the loop of [translateParams]. *)
Definition translate_entry (translated : Obj JSValue)
  (entry : string * JSValue) : Obj JSValue :=
  let '(key, value) := entry in
  if String.eqb key "language" then
    Object.set "language" value translated
  else if String.eqb key "timestamps" then
    if JS.truthy value then Object.set "utterances" (JBool true) translated
    else translated
  else if String.eqb key "word_confidence" then
    if JS.truthy value then Object.set "smart_format" (JBool true) translated
    else translated
  else if String.eqb key "speaker_labels" then
    if JS.truthy value then Object.set "diarize" (JBool true) translated
    else translated
  else if Str.startsWith "deepgram_" key then
    Object.set (Str.drop 9 key) value translated
  else
    Object.set key value translated.

Definition translateParams (model : JSValue) (params : Obj JSValue)
  : Obj JSValue :=
  fold_left translate_entry params [].

Section WithWorld.
Context (W : World).

Definition word_of (word : JSValue) : M Word :=
  t <- JS.get W word "word" ;;
  s <- JS.get W word "start" ;;
  e <- JS.get W word "end" ;;
  c <- JS.get W word "confidence" ;;
  sp <- JS.get W word "speaker" ;;
  speaker <- JS.call_toString_opt W sp ;;
  ret (mkWord t s e c speaker).

Definition segment_of (utterance : JSValue) : M Segment :=
  t <- JS.get W utterance "transcript" ;;
  s <- JS.get W utterance "start" ;;
  e <- JS.get W utterance "end" ;;
  sp <- JS.get W utterance "speaker" ;;
  speaker <- JS.call_toString_opt W sp ;;
  ret (mkSegment t s e speaker).

(** [response.results?.channels?.[0]?.alternatives?.[0]]. *)
Definition first_alternative (response : JSValue) : M JSValue :=
  results <- JS.get W response "results" ;;
  ret (JS.index0_opt
         (JS.get_opt (JS.index0_opt (JS.get_opt results "channels"))
            "alternatives")).

Definition adaptResponse (response : JSValue) : M TranscriptionResult :=
  probe <- first_alternative response ;;
  if JS.truthy probe then
    results <- JS.get W response "results" ;;
    channels <- JS.get W results "channels" ;;
    channel <- JS.index0 W channels ;;
    alternatives <- JS.get W channel "alternatives" ;;
    alternative <- JS.index0 W alternatives ;;
    awords <- JS.get W alternative "words" ;;
    words <- (if JS.truthy awords then JS.collect W awords word_of
              else ret []) ;;
    utterances <- JS.get W results "utterances" ;;
    segments <- (if JS.truthy utterances
                 then JS.collect W utterances segment_of
                 else ret []) ;;
    text <- JS.get W alternative "transcript" ;;
    metadata <- JS.get W response "metadata" ;;
    confidence <- JS.get W alternative "confidence" ;;
    ret (mkResult text
           (JS.or_else (JS.get_opt metadata "language") (JStr "unknown"))
           confidence words segments)
  else
    (* Fallback for unexpected response structure *)
    transcript <- JS.get W response "transcript" ;;
    ret (mkResult (JS.or_else transcript (JStr EmptyString))
           (JStr "unknown") JUndefined [] []).

(** The loop that fills [queryParams] from the translated parameters. *)
Definition query_entries (translatedParams : Obj JSValue)
  : M (list (string * string)) :=
  fold_m translatedParams
    (fun acc '(key, value) =>
       if JS.nullish value then ret acc
       else s <- JS.call_toString W value ;; ret (acc ++ [(key, s)])%list)
    [].

(** The bytes sent, from [request.file]. *)
Definition audio_of (file : JSValue) : M (list byte) :=
  match file with
  | JStr path => emit (EvReadFile path) ;;; lift (readFileSync W path)
  | JBuffer b => ret b
  | JUint8Array b => ret b
  | _ => throw (ThrowASR (ASRError "Unsupported audio input type" name
                            (Some "INVALID_INPUT")))
  end.

(** [options?.timeout ? AbortSignal.timeout(options.timeout) : undefined]. *)
Definition signal_of (options : option RequestOptions)
  : M (option AbortSignal) :=
  match options with
  | Some (mkOptions (Some t) _) =>
      if Num.falsy t then ret None
      else match abortTimeoutCheck W t with
           | Some e => throw e
           | None => ret (Some (SignalTimeout t))
           end
  | _ => ret None
  end.

(** The query parameters: the model, then every translated parameter
    that is neither [undefined] nor [null]. *)
Definition query_of (request : Obj JSValue) : M (list (string * string)) :=
  let translatedParams :=
    translateParams (JS.prop request "model") request in
  model <- lift (JS.toString W (JS.prop request "model")) ;;
  rest <- query_entries translatedParams ;;
  ret (("model", model) :: rest)%list.

(** [transcribe] up to the network call: the arguments of [fetch]. *)
Definition prepare (self : Instance) (request : Obj JSValue)
  (options : option RequestOptions) : M FetchRequest :=
  validateParams (JS.prop request "model") request ;;;
  queryParams <- query_of request ;;
  audioData <- audio_of (JS.prop request "file") ;;
  let url := baseURL self ++ "/listen?" ++ Url.serialize queryParams in
  signal <- signal_of options ;;
  ret (mkFetch url "POST"
         [("Authorization", "Token " ++ apiKey self);
          ("Content-Type", "audio/wav")]
         audioData signal).

(** [transcribe] from the network call on. *)
Definition send (init : FetchRequest) : M TranscriptionResult :=
  emit (EvFetch init) ;;;
  response <- lift (fetch W init) ;;
  when (negb (resp_ok response))
    (throw (ThrowASR (ASRError
       ("Deepgram API error: " ++ Num.N_to_string (resp_status response)
          ++ " " ++ resp_statusText response)
       name (Some "API_ERROR")))) ;;;
  result <- lift (resp_json response) ;;
  adaptResponse result.

Definition transcribe (self : Instance) (request : Obj JSValue)
  (options : option RequestOptions) : M TranscriptionResult :=
  try_catch (init <- prepare self request options ;; send init)
    (rewrap "Deepgram ASR error: " name).

End WithWorld.
End Deepgram.

(** ** The Google Cloud adapter ([providers/google]) *)

Module Google.

Definition name : string := "google".

Definition supported : list string :=
  ["language"; "timestamps"; "word_confidence"; "speaker_labels";
   "enable_word_time_offsets"; "enable_word_confidence";
   "enable_speaker_diarization"; "diarization_speaker_count";
   "enable_automatic_punctuation"].

Definition warning (key : string) : string :=
  "Parameter '" ++ key ++ "' may not be supported by Google Cloud ASR".

Definition validateParams (model : JSValue) (params : Obj JSValue) : M unit :=
  for_each params (fun '(key, value) =>
    when (negb (mem key supported) && negb (Str.startsWith "google_" key))
      (emit (EvWarn (warning key)))).

(** One turn of the loop of [translateParams]. *)
Definition translate_entry (translated : Obj JSValue)
  (entry : string * JSValue) : Obj JSValue :=
  let '(key, value) := entry in
  if String.eqb key "language" then
    Object.set "languageCode" value translated
  else if String.eqb key "timestamps" then
    if JS.truthy value
    then Object.set "enableWordTimeOffsets" (JBool true) translated
    else translated
  else if String.eqb key "word_confidence" then
    if JS.truthy value
    then Object.set "enableWordConfidence" (JBool true) translated
    else translated
  else if String.eqb key "speaker_labels" then
    if JS.truthy value then
      let translated1 :=
        Object.set "enableSpeakerDiarization" (JBool true) translated in
      Object.set "diarizationSpeakerCount"
        (JS.or_else (JS.prop translated1 "diarizationSpeakerCount")
           (JNum 2))
        translated1
    else translated
  else if Str.startsWith "google_" key then
    Object.set (Str.drop 7 key) value translated
  else
    Object.set key value translated.

Definition translateParams (model : JSValue) (params : Obj JSValue)
  : Obj JSValue :=
  fold_left translate_entry params [].

(** The canned response [transcribe] builds instead of calling the
    service. *)
Definition mock_word (w start_s end_s : string) : JSValue :=
  JObj [("word", JStr w);
        ("startTime", JObj [("seconds", JStr start_s); ("nanos", JNum 0)]);
        ("endTime", JObj [("seconds", JStr end_s); ("nanos", JNum 0)]);
        ("confidence", JNum 0.95)].

Definition mockResponse : JSValue :=
  JObj [("results", JArr [JObj [("alternatives", JArr [JObj [
    ("transcript", JStr "Mock transcription from Google Cloud Speech-to-Text");
    ("confidence", JNum 0.95);
    ("words", JArr [mock_word "Mock" "0" "1";
                    mock_word "transcription" "1" "2"])]])]])].

Section WithWorld.
Context (W : World).

(** [parseFloat(t?.seconds || '0') + (parseFloat(t?.nanos || '0') / 1e9)]. *)
Definition offset_of (t : JSValue) : M JSValue :=
  seconds <- JS.parseFloat W (JS.or_else (JS.get_opt t "seconds") (JStr "0")) ;;
  nanos <- JS.parseFloat W (JS.or_else (JS.get_opt t "nanos") (JStr "0")) ;;
  ret (JNum (seconds + nanos / 1e9)).

Definition word_of (word : JSValue) : M Word :=
  t <- JS.get W word "word" ;;
  startTime <- JS.get W word "startTime" ;;
  s <- offset_of startTime ;;
  endTime <- JS.get W word "endTime" ;;
  e <- offset_of endTime ;;
  c <- JS.get W word "confidence" ;;
  tag <- JS.get W word "speakerTag" ;;
  speaker <- JS.call_toString_opt W tag ;;
  ret (mkWord t s e c speaker).

(** What the loop over [response.results] accumulates. *)
Record Acc : Type := mkAcc {
  fullTranscript : string;
  acc_words : list Word;
  acc_segments : list Segment
}.

(** The body of the loop over [response.results]. *)
Definition visit_result (acc : Acc) (result : JSValue) : M Acc :=
  alternatives <- JS.get W result "alternatives" ;;
  if (JS.truthy alternatives && JS.truthy (JS.first_of alternatives))%bool
  then
    let alternative := JS.first_of alternatives in
    transcript <- JS.get W alternative "transcript" ;;
    piece <- lift (JS.toString W transcript) ;;
    awords <- JS.get W alternative "words" ;;
    ws <- (if JS.truthy awords then JS.collect W awords word_of
           else ret []) ;;
    resultEndTime <- JS.get W result "resultEndTime" ;;
    s <- offset_of resultEndTime ;;
    e <- offset_of resultEndTime ;;
    ret (mkAcc (fullTranscript acc ++ (piece ++ " "))
           (acc_words acc ++ ws)%list
           (acc_segments acc ++ [mkSegment transcript s e JUndefined])%list)
  else ret acc.

Definition adaptResponse (response : JSValue) : M TranscriptionResult :=
  results <- JS.get W response "results" ;;
  acc <- (if JS.truthy results then
            match results with
            | JArr elems => fold_m elems visit_result (mkAcc EmptyString [] [])
            | JBuffer b | JUint8Array b =>
                fold_m (map JS.byte_value b) visit_result
                  (mkAcc EmptyString [] [])
            | _ => throw (JS.type_error W (TE_NotAFunction "forEach"))
            end
          else ret (mkAcc EmptyString [] [])) ;;
  let first := JS.index0_opt results in
  ret (mkResult (JStr (Num.trim (fullTranscript acc)))
         (JS.or_else (JS.get_opt first "languageCode") (JStr "unknown"))
         (JS.get_opt (JS.index0_opt (JS.get_opt first "alternatives"))
            "confidence")
         (acc_words acc) (acc_segments acc)).

(** The bytes read from [request.file]. *)
Definition audio_of (file : JSValue) : M (list byte) :=
  match file with
  | JStr path => emit (EvReadFile path) ;;; lift (readFileSync W path)
  | JBuffer b => ret b
  | JUint8Array b => ret b
  | _ => throw (ThrowASR (ASRError "Unsupported audio input type" name
                            (Some "INVALID_INPUT")))
  end.

(** The [config] and [audio] parts of the request body, which is built
    and never sent. *)
Definition requestBody (request translatedParams : Obj JSValue)
  (audioData : list byte) : Obj JSValue * string :=
  (Object.spread
     [("encoding", JStr "LINEAR16");
      ("sampleRateHertz", JNum 16000);
      ("languageCode", JStr "en-US");
      ("model", JS.prop request "model")]
     translatedParams,
   base64Encode W audioData).

Definition transcribe (request : Obj JSValue)
  (options : option RequestOptions) : M TranscriptionResult :=
  try_catch
    (validateParams (JS.prop request "model") request ;;;
     let translatedParams :=
       translateParams (JS.prop request "model") request in
     audioData <- audio_of (JS.prop request "file") ;;
     let body := requestBody request translatedParams audioData in
     adaptResponse mockResponse)
    (rewrap "Google Cloud ASR error: " name).

End WithWorld.
End Google.

(** ** The dispatch client ([client.ts]) *)

Module Client.

Record OpenAIASRConfig : Type := mkOpenAIConfig {
  openai_apiKey : string;
  openai_baseURL : option string;
  openai_organization : option string
}.

Record GoogleCloudConfig : Type := mkGoogleConfig {
  projectId : string;
  region : option string;
  keyFilename : option string;
  credentials : JSValue
}.

Record ASRProviderConfigs : Type := mkConfigs {
  openai : option OpenAIASRConfig;
  deepgram : option Deepgram.DeepgramConfig;
  google : option GoogleCloudConfig
}.

(** The three implementations of [BaseASRProvider]. *)
Inductive Provider : Type :=
| OpenAIASRProvider (config : OpenAIASRConfig)
| DeepgramASRProvider (self : Deepgram.Instance)
| GoogleCloudASRProvider (config : GoogleCloudConfig).

Definition provider_name (p : Provider) : string :=
  match p with
  | OpenAIASRProvider _ => OpenAI.name
  | DeepgramASRProvider _ => Deepgram.name
  | GoogleCloudASRProvider _ => Google.name
  end.

(** [map.set(k, v)] on a [Map]: keys stay in insertion order. *)
Definition map_set {V} (k : string) (v : V) (m : list (string * V))
  : list (string * V) :=
  if Object.has_key k m then Object.replace k v m else (m ++ [(k, v)])%list.

Record ASRClient : Type := mkClient { providers : list (string * Provider) }.

Definition initializeProviders (config : ASRProviderConfigs)
  : list (string * Provider) :=
  let providers := [] in
  let providers :=
    match openai config with
    | Some c => map_set "openai" (OpenAIASRProvider c) providers
    | None => providers
    end in
  let providers :=
    match deepgram config with
    | Some c =>
        map_set "deepgram" (DeepgramASRProvider (Deepgram.create c)) providers
    | None => providers
    end in
  match google config with
  | Some c => map_set "google" (GoogleCloudASRProvider c) providers
  | None => providers
  end.

(** [new ASRClient(config)]. *)
Definition new (config : ASRProviderConfigs) : ASRClient :=
  mkClient (initializeProviders config).

Definition listProviders (self : ASRClient) : list string :=
  Object.keys (providers self).

Definition isProviderConfigured (self : ASRClient) (provider : string) : bool :=
  Object.has_key provider (providers self).

Section WithWorld.
Context (W : World).

Definition provider_transcribe (p : Provider) (request : Obj JSValue)
  (options : option RequestOptions) : M TranscriptionResult :=
  match p with
  | OpenAIASRProvider _ => OpenAI.transcribe W request options
  | DeepgramASRProvider self => Deepgram.transcribe W self request options
  | GoogleCloudASRProvider _ => Google.transcribe W request options
  end.

(** [parseModel(request.model)]: only a string has a [split]. *)
Definition parse_request_model (model : JSValue) : M ParsedModel :=
  match model with
  | JStr s => lift (parseModel s)
  | JUndefined | JNull =>
      throw (JS.type_error W (TE_ReadProperty model "split"))
  | _ => throw (JS.type_error W (TE_NotAFunction "split"))
  end.

(** [client.audio.transcriptions.create(request, options)]. *)
Definition create (self : ASRClient) (request : Obj JSValue)
  (options : option RequestOptions) : M TranscriptionResult :=
  parsed <- parse_request_model (JS.prop request "model") ;;
  match Object.lookup (provider parsed) (providers self) with
  | None =>
      throw (ThrowASR (ProviderNotConfiguredError (provider parsed)
                         (Object.keys (providers self))))
  | Some providerInstance =>
      let requestWithParsedModel :=
        Object.define "model" (JStr (model parsed))
          (Object.spread [] request) in
      provider_transcribe providerInstance requestWithParsedModel options
  end.

End WithWorld.
End Client.

(** ** The request adapters ([providers/*/adapters.ts])

    Each adapter module also exports an [adaptRequest], which maps a unified
    request to the request of the backend in one step. *)

(** [const { n1, ..., nk, ...rest } = o]: the own properties of [o] whose
    key is none of the names, copied in order into a new object. *)
Definition rest_of {V : Type} (names : list string) (o : Obj V) : Obj V :=
  Object.spread [] (filter (fun kv => negb (mem (fst kv) names)) o).

Module OpenAIAdapters.

Definition adaptRequest (request : Obj JSValue) : Obj JSValue :=
  let file := JS.prop request "file" in
  let model := JS.prop request "model" in
  let language := JS.prop request "language" in
  let timestamps := JS.prop request "timestamps" in
  let temperature := JS.prop request "temperature" in
  let otherParams :=
    rest_of ["file"; "model"; "language"; "timestamps"; "temperature"]
      request in
  let openaiRequest :=
    Object.spread
      [("file", file); ("model", model); ("language", language);
       ("temperature", temperature)]
      otherParams in
  if JS.truthy timestamps
  then Object.set "response_format" (JStr "verbose_json") openaiRequest
  else openaiRequest.

End OpenAIAdapters.

Module DeepgramAdapters.

Definition adaptRequest (request : Obj JSValue) : Obj JSValue :=
  let language := JS.prop request "language" in
  let timestamps := JS.prop request "timestamps" in
  let word_confidence := JS.prop request "word_confidence" in
  let speaker_labels := JS.prop request "speaker_labels" in
  let otherParams :=
    rest_of ["language"; "timestamps"; "word_confidence"; "speaker_labels"]
      request in
  let deepgramRequest := Object.spread [] otherParams in
  let deepgramRequest :=
    if JS.truthy language
    then Object.set "language" language deepgramRequest
    else deepgramRequest in
  let deepgramRequest :=
    if JS.truthy timestamps
    then Object.set "utterances" (JBool true) deepgramRequest
    else deepgramRequest in
  let deepgramRequest :=
    if JS.truthy word_confidence
    then Object.set "smart_format" (JBool true) deepgramRequest
    else deepgramRequest in
  if JS.truthy speaker_labels
  then Object.set "diarize" (JBool true) deepgramRequest
  else deepgramRequest.

End DeepgramAdapters.

Module GoogleAdapters.

(** The [config] of the request [adaptRequest] returns. *)
Definition config_of (request : Obj JSValue) : Obj JSValue :=
  let language := JS.prop request "language" in
  let timestamps := JS.prop request "timestamps" in
  let word_confidence := JS.prop request "word_confidence" in
  let speaker_labels := JS.prop request "speaker_labels" in
  let otherParams :=
    rest_of ["language"; "timestamps"; "word_confidence"; "speaker_labels"]
      request in
  let config :=
    Object.spread
      [("encoding", JStr "LINEAR16");
       ("sampleRateHertz", JNum 16000);
       ("languageCode", JS.or_else language (JStr "en-US"))]
      otherParams in
  let config :=
    if JS.truthy timestamps
    then Object.set "enableWordTimeOffsets" (JBool true) config
    else config in
  let config :=
    if JS.truthy word_confidence
    then Object.set "enableWordConfidence" (JBool true) config
    else config in
  if JS.truthy speaker_labels
  then Object.set "diarizationSpeakerCount" (JNum 2)
         (Object.set "enableSpeakerDiarization" (JBool true) config)
  else config.

Definition adaptRequest (request : Obj JSValue) : JSValue :=
  JObj [("config", JObj (config_of request));
        ("audio", JObj [("content", JNull)])].

End GoogleAdapters.

(** ** A concrete world

    An engine with V8's wording of TypeErrors, to run the adapters on
    concrete requests. Its [Number] printer is exact on NaN, the infinities
    and the integers of magnitude below 2^53, and its decoder is exact on
    ASCII bytes; the examples below print and decode nothing else. *)

Module Sample.

Definition integer_text (x : float) : string :=
  match Prim2SF x with
  | S754_zero _ => "0"
  | S754_infinity s => if s then "-Infinity" else "Infinity"
  | S754_nan => "NaN"
  | S754_finite s m e =>
      let magnitude :=
        if Z.leb 0 e then Z.to_N (Zpos m * 2 ^ e)
        else Z.to_N (Zpos m / 2 ^ (- e)) in
      (if s then "-" else EmptyString) ++ Num.N_to_string magnitude
  end.

Definition ascii_text (b : list byte) : string := string_of_list_byte b.

Definition b64_char (n : N) : string :=
  String.substring (N.to_nat n) 1
    "ABCDEFGHIJKLMNOPQRSTUVWXYZabcdefghijklmnopqrstuvwxyz0123456789+/".

Fixpoint b64 (fuel : nat) (l : list N) : string :=
  match fuel, l with
  | S f, a :: b :: c :: rest =>
      b64_char (a / 4) ++ b64_char ((a mod 4) * 16 + b / 16)
      ++ b64_char ((b mod 16) * 4 + c / 64) ++ b64_char (c mod 64)
      ++ b64 f rest
  | _, [a; b] =>
      b64_char (a / 4) ++ b64_char ((a mod 4) * 16 + b / 16)
      ++ b64_char ((b mod 16) * 4) ++ "="
  | _, [a] => b64_char (a / 4) ++ b64_char ((a mod 4) * 16) ++ "=="
  | _, _ => EmptyString
  end.

Definition base64 (b : list byte) : string :=
  b64 (List.length b) (map Byte.to_N b).

Definition v8_message (k : TypeErrorKind) : string :=
  match k with
  | TE_ReadProperty JNull p =>
      "Cannot read properties of null (reading '" ++ p ++ "')"
  | TE_ReadProperty _ p =>
      "Cannot read properties of undefined (reading '" ++ p ++ "')"
  | TE_NotAFunction what => what ++ " is not a function"
  | TE_ToPrimitive => "Cannot convert object to primitive value"
  end.

(** Delays a timer accepts: finite and not negative. *)
Definition timeout_check (t : float) : option Exn :=
  if (PrimFloat.leb 0 t && PrimFloat.ltb t infinity)%bool then None
  else Some (ThrowError "RangeError" "The value of delay is out of range.").

Definition world (disk : string -> Exn + list byte)
  (network : FetchRequest -> Exn + FetchResponse)
  (sdk : Obj OAValue -> Exn + JSValue) : World :=
  mkWorld integer_text ascii_text base64 v8_message timeout_check
    disk network sdk.

(** A disk without files. *)
Definition no_file (path : string) : Exn + list byte :=
  inl (ThrowError "Error"
         ("ENOENT: no such file or directory, open '" ++ path ++ "'")).

(** A network that cannot be reached. *)
Definition offline (req : FetchRequest) : Exn + FetchResponse :=
  inl (ThrowError "TypeError" "fetch failed").

(** A service that answers every request with the same JSON body. *)
Definition answers (body : JSValue) (req : FetchRequest)
  : Exn + FetchResponse :=
  inr (mkResponse true 200 "OK" (inr body)).

Definition sdk_answers (body : JSValue) (req : Obj OAValue) : Exn + JSValue :=
  inr body.

Definition sdk_down (req : Obj OAValue) : Exn + JSValue :=
  inl (ThrowError "Error" "Connection error.").

(** No disk, no network, no SDK. *)
Definition isolated : World := world no_file offline sdk_down.

Definition audio : list byte := [x52; x49; x46; x46]%byte.

(** An SDK that answers [{text: 'hi'}], without disk or network. *)
Definition sdk_only : World :=
  world no_file offline (sdk_answers (JObj [("text", JStr "hi")])).

(** A service that answers every request with [{}]. *)
Definition empty_answer : World := world no_file (answers (JObj [])) sdk_down.

(** A request whose file is the object [{invalid: 'object'}]. *)
Definition invalid_file_request : Obj JSValue :=
  [("model", JStr "nova-2");
   ("file", JObj [("invalid", JStr "object")]);
   ("language", JStr "en-US")].

(** A request that carries a buffer. *)
Definition buffer_request : Obj JSValue :=
  [("model", JStr "nova-2"); ("file", JBuffer audio)].

(** The same for the OpenAI adapter. *)
Definition whisper_request : Obj JSValue :=
  [("model", JStr "whisper-1"); ("file", JBuffer audio)].

Definition deepgram : Deepgram.Instance :=
  Deepgram.create (Deepgram.mkConfig "k" None).

(** A Deepgram response with one channel, one alternative and the given
    word entries. *)
Definition deepgram_body (transcript : string) (entries : list JSValue)
  : JSValue :=
  JObj [("results",
         JObj [("channels",
                JArr [JObj [("alternatives",
                             JArr [JObj [("transcript", JStr transcript);
                                         ("words", JArr entries)]])]])])].

Definition hello_world : JSValue :=
  deepgram_body "hello world"
    [JObj [("word", JStr "hello"); ("start", JNum 0); ("end", JNum 0.5);
           ("speaker", JNum 0)];
     JObj [("word", JStr "world"); ("start", JNum 0.5); ("end", JNum 1)]].

(** A response whose only word ends before it starts. *)
Definition reversed : JSValue :=
  deepgram_body "hi"
    [JObj [("word", JStr "hi"); ("start", JNum 2); ("end", JNum 1)]].

(** A request that carries a buffer and, after it, a prefixed [file]. *)
Definition override_request : Obj JSValue :=
  [("model", JStr "whisper-1"); ("file", JBuffer audio);
   ("openai_file", JStr "other.wav")].

End Sample.

(** * Vocabulary of the properties

    The predicates and the values in which the properties below are
    stated. *)

Module Terms.

(** ** Requests *)

Definition colon_free (s : string) : Prop := Str.count Str.colon s = 0.

(** What a request must not hold for the key [t] to come out of the
    translation untouched: the key itself and its prefixed form. *)
Definition absent (prefix t : string) (params : Obj JSValue) : Prop :=
  forall k v, In (k, v) params -> k <> t /\ k <> prefix ++ t.

(** The option [timestamps] is off: absent, or bound to a falsy value. *)
Definition timestamps_off (params : Obj JSValue) : Prop :=
  forall v, In ("timestamps", v) params -> JS.truthy v = false.

(** The keys [file] and [model] are handled by the last branch of each
    loop: written under their own name, and by no other key than their
    prefixed form. *)
Definition passes_through (t : string) : Prop := t = "file" \/ t = "model".

(** The request carries no key that the translation would rename to
    [file] or [model]. *)
Definition no_prefixed (prefix : string) (request : Obj JSValue) : Prop :=
  forall k, In k (Object.keys request) ->
            k <> prefix ++ "file" /\ k <> prefix ++ "model".

(** The values of the SDK request are those of the translated parameters,
    as they are. *)
Definition raw (translated : Obj JSValue) : Obj OAValue :=
  map (fun kv => (fst kv, OARaw (snd kv))) translated.

(** Every value of an object satisfies [Q]. *)
Definition all_values {V : Type} (Q : V -> Prop) (o : Obj V) : Prop :=
  Forall (fun kv => Q (snd kv)) o.

(** The keys of the configured providers, in the order in which the
    constructor registers them. *)
Definition registration_order (config : Client.ASRProviderConfigs)
  : list string :=
  (match Client.openai config with Some _ => ["openai"] | None => [] end
   ++ match Client.deepgram config with Some _ => ["deepgram"] | None => [] end
   ++ match Client.google config with Some _ => ["google"] | None => [] end)%list.

(** ** Audio *)

(** A file value in one of the three accepted representations: a path, a
    buffer, a byte array. *)
Definition recognized (file : JSValue) : bool :=
  match file with
  | JStr _ | JBuffer _ | JUint8Array _ => true
  | _ => false
  end.

(** A file value from which the adapter gets bytes: a buffer, a byte array,
    or a path that the file system reads. *)
Definition readable (W : World) (file : JSValue) : Prop :=
  match file with
  | JBuffer _ | JUint8Array _ => True
  | JStr path => exists content, readFileSync W path = inr content
  | _ => False
  end.

(** The error of the Deepgram and Google adapters on any other file. *)
Definition invalid_input (name : string) : Exn :=
  ThrowASR (mkASRError "ASRError" "Unsupported audio input type" name
              (Some "INVALID_INPUT")).

(** ** Responses *)

(** What [adaptResponse] makes of the canned response of the Google
    adapter. *)
Definition mock_result : TranscriptionResult :=
  mkResult (JStr "Mock transcription from Google Cloud Speech-to-Text")
    (JStr "unknown") (JNum 0.95)
    [mkWord (JStr "Mock") (JNum 0) (JNum 1) (JNum 0.95) JUndefined;
     mkWord (JStr "transcription") (JNum 1) (JNum 2) (JNum 0.95) JUndefined]
    [mkSegment (JStr "Mock transcription from Google Cloud Speech-to-Text")
       (JNum 0) (JNum 0) JUndefined].

(** [response.results?.channels?.[0]?.alternatives?.[0]], as a value. *)
Definition deepgram_probe (response : JSValue) : JSValue :=
  JS.index0_opt
    (JS.get_opt (JS.index0_opt (JS.get_opt (JS.get_opt response "results")
                                  "channels"))
       "alternatives").

(** The result the Deepgram adapter falls back to. *)
Definition deepgram_fallback (response : JSValue) : TranscriptionResult :=
  mkResult (JS.or_else (JS.get_opt response "transcript") (JStr EmptyString))
    (JStr "unknown") JUndefined [] [].

(** The result the OpenAI adapter makes of a response without words and
    segments. *)
Definition openai_plain_result (response : JSValue) : TranscriptionResult :=
  mkResult (JS.get_opt response "text")
    (JS.or_else (JS.get_opt response "language") (JStr "unknown"))
    (JS.get_opt response "confidence") [] [].

(** The entries [forEach] visits: the elements of an array or of a typed
    array; nothing for any other value. *)
Definition entries_of (v : JSValue) : list JSValue :=
  match v with
  | JArr l => l
  | JBuffer b | JUint8Array b => map JS.byte_value b
  | _ => []
  end.

(** The word entries of a response of the Deepgram service: those of the
    first alternative of the first channel. *)
Definition deepgram_entries (response : JSValue) : list JSValue :=
  entries_of (JS.get_opt (deepgram_probe response) "words").

(** The word entries of a response of the OpenAI service. *)
Definition openai_entries (response : JSValue) : list JSValue :=
  entries_of (JS.get_opt response "words").

(** A list of a response is usable when it is absent (falsy) or an array of
    usable entries. *)
Definition list_ok (ok : JSValue -> Prop) (v : JSValue) : Prop :=
  JS.truthy v = false \/ exists l, v = JArr l /\ Forall ok l.

Definition defined (entry : JSValue) : Prop := JS.nullish entry = false.

(** The word and the segment the OpenAI adapter makes of an entry. *)
Definition openai_word (entry : JSValue) : Word :=
  mkWord (JS.get_opt entry "word") (JS.get_opt entry "start")
    (JS.get_opt entry "end") (JS.get_opt entry "confidence") JUndefined.

Definition openai_segment (entry : JSValue) : Segment :=
  mkSegment (JS.get_opt entry "text") (JS.get_opt entry "start")
    (JS.get_opt entry "end") JUndefined.

(** The first alternative of a result of the Google service. *)
Definition google_alternative (result : JSValue) : JSValue :=
  JS.first_of (JS.get_opt result "alternatives").

(** [result.alternatives && result.alternatives[0]], as a condition. *)
Definition google_has_alternative (result : JSValue) : bool :=
  (JS.truthy (JS.get_opt result "alternatives")
   && JS.truthy (google_alternative result))%bool.

(** The word entries of a result: those of its first alternative. *)
Definition google_result_entries (result : JSValue) : list JSValue :=
  if google_has_alternative result
  then entries_of (JS.get_opt (google_alternative result) "words")
  else [].

(** The word entries of a response: those of its results, in order. *)
Definition google_entries (response : JSValue) : list JSValue :=
  flat_map google_result_entries (entries_of (JS.get_opt response "results")).

(** ** What depends on the engine *)

Section WithWorld.
Context (W : World).

(** A computation without effect whose failures, if any, are TypeErrors of
    the engine. *)
Definition engine_only {A} (m : M A) : Prop :=
  events m = []
  /\ forall e, outcome m = inl e -> exists k, e = JS.type_error W k.

(** A value has a text. *)
Definition printable (v : JSValue) : Prop := JS.text_of W v <> None.

(** Every value of the request has a text. *)
Definition printable_request (request : Obj JSValue) : Prop :=
  all_values printable request.

(** [v?.toString()], as a value, for a [v] that has a text. *)
Definition speaker_of (v : JSValue) : JSValue :=
  if JS.nullish v then JUndefined
  else match JS.text_of W v with
       | Some s => JStr s
       | None => JUndefined
       end.

Definition speaker_ok (v : JSValue) : Prop :=
  JS.nullish v = false -> printable v.

(** An entry is usable when it is neither [null] nor [undefined] and its
    speaker, if any, has a text. *)
Definition entry_ok (speaker_key : string) (entry : JSValue) : Prop :=
  JS.nullish entry = false /\ speaker_ok (JS.get_opt entry speaker_key).

(** The word and the segment the Deepgram adapter makes of an entry. *)
Definition deepgram_word (entry : JSValue) : Word :=
  mkWord (JS.get_opt entry "word") (JS.get_opt entry "start")
    (JS.get_opt entry "end") (JS.get_opt entry "confidence")
    (speaker_of (JS.get_opt entry "speaker")).

Definition deepgram_segment (entry : JSValue) : Segment :=
  mkSegment (JS.get_opt entry "transcript") (JS.get_opt entry "start")
    (JS.get_opt entry "end") (speaker_of (JS.get_opt entry "speaker")).

(** [parseFloat(t?.seconds || '0') + parseFloat(t?.nanos || '0') / 1e9],
    when both fields have a text. *)
Definition google_offset (t : JSValue) : option float :=
  match JS.text_of W (JS.or_else (JS.get_opt t "seconds") (JStr "0")),
        JS.text_of W (JS.or_else (JS.get_opt t "nanos") (JStr "0")) with
  | Some seconds, Some nanos =>
      Some (Num.parseFloat seconds + Num.parseFloat nanos / 1e9)%float
  | _, _ => None
  end.

Definition offset_value (t : JSValue) : float :=
  match google_offset t with
  | Some x => x
  | None => nan
  end.

Definition time_ok (t : JSValue) : Prop := google_offset t <> None.

(** The word the Google adapter makes of an entry. *)
Definition google_word (entry : JSValue) : Word :=
  mkWord (JS.get_opt entry "word")
    (JNum (offset_value (JS.get_opt entry "startTime")))
    (JNum (offset_value (JS.get_opt entry "endTime")))
    (JS.get_opt entry "confidence")
    (speaker_of (JS.get_opt entry "speakerTag")).

Definition google_entry_ok (entry : JSValue) : Prop :=
  JS.nullish entry = false
  /\ time_ok (JS.get_opt entry "startTime")
  /\ time_ok (JS.get_opt entry "endTime")
  /\ speaker_ok (JS.get_opt entry "speakerTag").

(** A result is usable when it is neither [null] nor [undefined] and, if it
    has a first alternative, the transcript of that alternative has a text,
    its words are usable and its end time has a text. *)
Definition google_result_ok (result : JSValue) : Prop :=
  JS.nullish result = false
  /\ (google_has_alternative result = true ->
      printable (JS.get_opt (google_alternative result) "transcript")
      /\ list_ok google_entry_ok
           (JS.get_opt (google_alternative result) "words")
      /\ time_ok (JS.get_opt result "resultEndTime")).

End WithWorld.
End Terms.

Import Terms.

(** ** Further concrete values *)

Module Cases.

(** A Deepgram response with a transcript and two utterances, the first of
    them with a speaker. *)
Definition two_utterances : JSValue :=
  JObj [("results",
         JObj [("channels",
                JArr [JObj [("alternatives",
                             JArr [JObj [("transcript", JStr "hi there")]])]]);
               ("utterances",
                JArr [JObj [("transcript", JStr "hi"); ("start", JNum 0);
                            ("end", JNum 1); ("speaker", JNum 1)];
                      JObj [("transcript", JStr "there"); ("start", JNum 1);
                            ("end", JNum 2)]])])].

(** A Deepgram response with an utterance and no channel. *)
Definition utterance_without_channel : JSValue :=
  JObj [("results",
         JObj [("utterances",
                JArr [JObj [("transcript", JStr "hi"); ("start", JNum 0);
                            ("end", JNum 1)]])])].

(** A Google response with three results, the second of them without
    alternative. *)
Definition three_results : JSValue :=
  JObj [("results",
         JArr [JObj [("alternatives", JArr [JObj [("transcript", JStr "good")]]);
                     ("resultEndTime", JObj [("seconds", JStr "1")]);
                     ("languageCode", JStr "en-us")];
               JObj [("alternatives", JArr [])];
               JObj [("alternatives",
                      JArr [JObj [("transcript", JStr "morning")]])]])].

(** A service that answers every request with the two words of
    [Sample.hello_world]. *)
Definition hello_service : World :=
  Sample.world Sample.no_file (Sample.answers Sample.hello_world)
    Sample.sdk_down.

(** An SDK whose answer lists [null] among its words. *)
Definition null_word_sdk : World :=
  Sample.world Sample.no_file Sample.offline
    (Sample.sdk_answers (JObj [("words", JArr [JNull])])).

End Cases.

Module Notions.

(** A key [validateParams] warns about: neither in the supported set nor
    behind the prefix of the adapter. *)
Definition unknown (supported : list string) (prefix key : string) : bool :=
  negb (mem key supported) && negb (Str.startsWith prefix key).

(** The warnings about the unknown keys among [keys], in order. *)
Definition warnings (warning : string -> string) (supported : list string)
  (prefix : string) (keys : list string) : list Event :=
  map (fun k => EvWarn (warning k)) (filter (unknown supported prefix) keys).

(** The parameters the loop of the OpenAI adapter gets through: those
    enumerated before the first unsupported key. *)
Fixpoint visited (params : Obj JSValue) : Obj JSValue :=
  match params with
  | [] => []
  | (key, value) :: rest =>
      if mem key OpenAI.unsupported then [] else (key, value) :: visited rest
  end.

(** The first unsupported key, if any. *)
Definition first_refused (params : Obj JSValue) : option string :=
  find (fun key => mem key OpenAI.unsupported) (Object.keys params).


(** The pairs the Deepgram adapter appends to its query for the translated
    parameters: one per parameter that is neither [null] nor [undefined],
    in order, with the text of its value. *)
Definition query_pairs (W : World) (translated : Obj JSValue)
  : list (string * string) :=
  flat_map
    (fun kv =>
       if JS.nullish (snd kv) then []
       else match JS.text_of W (snd kv) with
            | Some s => [(fst kv, s)]
            | None => []
            end)
    translated.

(** The abort signal the Deepgram adapter derives from the options. *)
Definition expected_signal (options : option RequestOptions)
  : option AbortSignal :=
  match options with
  | Some (mkOptions (Some t) _) =>
      if Num.falsy t then None else Some (SignalTimeout t)
  | _ => None
  end.

(** At most one remote call among the effects, and no effect after it. *)
Definition single_call (evs : list Event) : Prop :=
  exists quiet,
    forallb (fun ev => negb (is_remote_call ev)) quiet = true
    /\ (evs = quiet
        \/ exists ev, is_remote_call ev = true /\ evs = (quiet ++ [ev])%list).

(** A speaker label as the unified types declare it: a string, or
    absent. *)
Definition speaker_label (v : JSValue) : Prop :=
  v = JUndefined \/ exists s, v = JStr s.

Definition is_number (v : JSValue) : Prop := exists x, v = JNum x.

(** A word of the Google adapter: its times are numbers. *)
Definition timed_word (w : Word) : Prop :=
  speaker_label (word_speaker w)
  /\ is_number (word_start w) /\ is_number (word_end w).

(** A segment of the Google adapter: it starts and ends at the same
    number, and has no speaker. *)
Definition instant (s : Segment) : Prop :=
  is_number (seg_start s) /\ seg_end s = seg_start s
  /\ seg_speaker s = JUndefined.

(** The results of a Google response that have a first alternative. *)
Definition heard (response : JSValue) : list JSValue :=
  filter google_has_alternative (entries_of (JS.get_opt response "results")).

(** The text of a value that has one. *)
Definition text_value (W : World) (v : JSValue) : string :=
  match JS.text_of W v with
  | Some s => s
  | None => EmptyString
  end.

(** What a result adds to the transcript: the transcript of its first
    alternative and a space. *)
Definition google_piece (W : World) (result : JSValue) : string :=
  text_value W (JS.get_opt (google_alternative result) "transcript") ++ " ".

(** The segment the Google adapter makes of a result. *)
Definition google_segment (W : World) (result : JSValue) : Segment :=
  mkSegment (JS.get_opt (google_alternative result) "transcript")
    (JNum (offset_value W (JS.get_opt result "resultEndTime")))
    (JNum (offset_value W (JS.get_opt result "resultEndTime")))
    JUndefined.


Definition deepgram_reserved : list string :=
  ["timestamps"; "word_confidence"; "speaker_labels"; "utterances";
   "smart_format"; "diarize"; "__proto__"].


End Notions.
Import Notions.

(** * Properties *)

(** ** Strings *)

Module StrFacts.

Lemma append_assoc (a b c : string) : (a ++ b) ++ c = a ++ (b ++ c).
Proof. induction a; simpl; congruence. Qed.

Lemma prefix_append (p rest : string) : String.prefix p (p ++ rest) = true.
Proof.
  induction p as [|c p IH]; simpl.
  - destruct rest; reflexivity.
  - destruct (ascii_dec c c); [assumption | congruence].
Qed.

Lemma includes_unfold (sub s : string) :
  Str.includes sub s
  = if String.prefix sub s then true
    else match s with
         | EmptyString => false
         | String _ s' => Str.includes sub s'
         end.
Proof. destruct s; reflexivity. Qed.

Lemma includes_complete (sub s : string) :
  Str.Contains sub s -> Str.includes sub s = true.
Proof.
  intros (before & after & ->).
  induction before as [|c before IH].
  - rewrite includes_unfold. simpl. rewrite prefix_append. reflexivity.
  - rewrite includes_unfold.
    destruct (String.prefix sub (String c before ++ sub ++ after));
      [reflexivity | exact IH].
Qed.

Lemma split_without (c : ascii) (s : string) :
  Str.count c s = 0 -> Str.split c s = [s].
Proof.
  induction s as [|d s IH]; simpl; intros H; [reflexivity|].
  destruct (Ascii.eqb d c); [discriminate|].
  rewrite (IH H). reflexivity.
Qed.

Lemma split_at (c : ascii) (p m : string) :
  Str.count c p = 0 ->
  Str.split c (p ++ String c m) = p :: Str.split c m.
Proof.
  induction p as [|d p IH]; simpl; intros H.
  - rewrite Ascii.eqb_refl. reflexivity.
  - destruct (Ascii.eqb d c); [discriminate|].
    rewrite (IH H). reflexivity.
Qed.

Lemma split_length (c : ascii) (s : string) :
  List.length (Str.split c s) = S (Str.count c s).
Proof.
  induction s as [|d s IH]; simpl; [reflexivity|].
  destruct (Ascii.eqb d c); simpl.
  - rewrite IH. reflexivity.
  - destruct (Str.split c s) eqn:E; simpl in *; [discriminate | exact IH].
Qed.

(** A string with one separator is two separator-free segments around
    it. *)
Lemma one_separator (c : ascii) (s : string) :
  Str.count c s = 1 ->
  exists p m, s = p ++ String c m /\ Str.count c p = 0 /\ Str.count c m = 0.
Proof.
  induction s as [|d s IH]; simpl; intros H; [discriminate|].
  destruct (Ascii.eqb d c) eqn:E.
  - apply Ascii.eqb_eq in E. subst d.
    exists EmptyString, s. repeat split. simpl in H. lia.
  - destruct (IH H) as (p & m & -> & Hp & Hm).
    exists (String d p), m. simpl. rewrite E. repeat split; assumption.
Qed.

End StrFacts.

(** ** The model identifier parser *)

Module ParserFacts.

Lemma parse_valid (p m : string) :
  p <> EmptyString -> m <> EmptyString -> colon_free p -> colon_free m ->
  parseModel (p ++ ":" ++ m) = inr (mkParsed p m).
Proof.
  intros Hp Hm Cp Cm. unfold parseModel.
  change (p ++ ":" ++ m) with (p ++ String Str.colon m).
  rewrite (StrFacts.split_at _ _ _ Cp), (StrFacts.split_without _ _ Cm).
  simpl. destruct p; [congruence|]. destruct m; [congruence|]. reflexivity.
Qed.

Lemma parse_wrong_count (s : string) :
  Str.count Str.colon s <> 1 ->
  parseModel s = inl (ThrowError "Error" (format_message s)).
Proof.
  intros H. unfold parseModel.
  destruct (Nat.eqb (List.length (Str.split Str.colon s)) 2) eqn:E.
  - apply Nat.eqb_eq in E. rewrite StrFacts.split_length in E. lia.
  - reflexivity.
Qed.

Lemma parse_empty_segment (p m : string) :
  colon_free p -> colon_free m -> p = EmptyString \/ m = EmptyString ->
  parseModel (p ++ ":" ++ m)
  = inl (ThrowError "Error" (required_message (p ++ ":" ++ m))).
Proof.
  intros Cp Cm H. unfold parseModel.
  change (p ++ ":" ++ m) with (p ++ String Str.colon m).
  rewrite (StrFacts.split_at _ _ _ Cp), (StrFacts.split_without _ _ Cm).
  simpl. destruct H as [-> | ->]; [reflexivity|].
  destruct p; reflexivity.
Qed.

Lemma format_message_contains (s : string) :
  Str.Contains s (format_message s)
  /\ Str.Contains "provider:model" (format_message s).
Proof.
  split.
  - exists ("Invalid model format: " ++ Str.dq),
      (Str.dq ++ ". Expected format: " ++ Str.dq ++ "provider:model" ++ Str.dq).
    unfold format_message. rewrite !StrFacts.append_assoc. reflexivity.
  - exists ("Invalid model format: " ++ Str.dq ++ s ++ Str.dq
             ++ ". Expected format: " ++ Str.dq), Str.dq.
    unfold format_message. rewrite !StrFacts.append_assoc. reflexivity.
Qed.

Lemma required_message_contains (s : string) :
  Str.Contains s (required_message s)
  /\ Str.Contains "Both provider and model name are required."
       (required_message s).
Proof.
  split.
  - exists ("Invalid model format: " ++ Str.dq),
      (Str.dq ++ ". Both provider and model name are required.").
    unfold required_message. rewrite !StrFacts.append_assoc. reflexivity.
  - exists ("Invalid model format: " ++ Str.dq ++ s ++ Str.dq ++ ". "),
      EmptyString.
    unfold required_message. rewrite !StrFacts.append_assoc. simpl.
    reflexivity.
Qed.

End ParserFacts.

(** C2, as the code has it. An identifier made of a non-empty provider, one
    colon and a non-empty model, neither holding a colon, parses to that
    provider and that model. An identifier whose number of colons is not one
    is refused with a message that quotes the identifier and says
    [Expected format: "provider:model"]. An identifier with one colon and an
    empty provider or an empty model is refused with a message that quotes
    the identifier and says [Both provider and model name are required.]
    Every identifier with one colon is of that form, so the three cases
    cover every identifier. *)
Theorem parseModel_contract :
  (forall p m : string,
      p <> EmptyString -> m <> EmptyString ->
      Terms.colon_free p -> Terms.colon_free m ->
      parseModel (p ++ ":" ++ m) = inr (mkParsed p m))
  /\ (forall s : string,
         Str.count Str.colon s <> 1 ->
         parseModel s = inl (ThrowError "Error" (format_message s))
         /\ Str.Contains s (format_message s)
         /\ Str.Contains "provider:model" (format_message s))
  /\ (forall p m : string,
         Terms.colon_free p -> Terms.colon_free m ->
         p = EmptyString \/ m = EmptyString ->
         parseModel (p ++ ":" ++ m)
         = inl (ThrowError "Error" (required_message (p ++ ":" ++ m)))
         /\ Str.Contains (p ++ ":" ++ m) (required_message (p ++ ":" ++ m))
         /\ Str.Contains "Both provider and model name are required."
              (required_message (p ++ ":" ++ m)))
  /\ (forall s : string,
         Str.count Str.colon s = 1 ->
         exists p m,
           s = p ++ ":" ++ m
           /\ Terms.colon_free p /\ Terms.colon_free m).
Proof.
  split; [| split; [| split]].
  - exact ParserFacts.parse_valid.
  - intros s H. split; [exact (ParserFacts.parse_wrong_count s H)|].
    exact (ParserFacts.format_message_contains s).
  - intros p m Cp Cm H.
    split; [exact (ParserFacts.parse_empty_segment p m Cp Cm H)|].
    exact (ParserFacts.required_message_contains (p ++ ":" ++ m)).
  - exact (StrFacts.one_separator Str.colon).
Qed.

(** The three cases of [parseModel_contract] on the identifiers of the test
    suite. *)
Lemma parseModel_contract_witness :
  parseModel "openai:whisper-1" = inr (mkParsed "openai" "whisper-1")
  /\ parseModel "openai:whisper:1"
     = inl (ThrowError "Error" (format_message "openai:whisper:1"))
  /\ parseModel "openai:"
     = inl (ThrowError "Error" (required_message "openai:")).
Proof.
  split; [| split].
  - apply (proj1 parseModel_contract "openai" "whisper-1");
      [discriminate | discriminate | reflexivity | reflexivity].
  - apply (proj1 (proj2 parseModel_contract) "openai:whisper:1").
    vm_compute. discriminate.
  - apply (proj1 (proj2 (proj2 parseModel_contract)) "openai" EmptyString);
      [reflexivity | reflexivity | right; reflexivity].
Defined.

(** C2 fails as stated: for an empty provider segment the message does not
    name the ["provider:model"] shape. *)
Lemma parseModel_empty_provider_message :
  parseModel ":whisper-1"
  = inl (ThrowError "Error" (required_message ":whisper-1"))
  /\ ~ Str.Contains "provider:model" (required_message ":whisper-1").
Proof.
  split; [reflexivity|].
  intros H. apply StrFacts.includes_complete in H.
  vm_compute in H. discriminate.
Qed.

(** ** Computations *)

Module MFacts.

Lemma bind_ret {A B} (a : A) (f : A -> M B) : bind (ret a) f = f a.
Proof. unfold bind, ret. destruct (f a). reflexivity. Qed.

Lemma bind_lift_ok {A B} (a : A) (f : A -> M B) : bind (lift (inr a)) f = f a.
Proof. exact (bind_ret a f). Qed.

Lemma bind_throw {A B} (e : Exn) (f : A -> M B) : bind (throw e) f = throw e.
Proof. reflexivity. Qed.

Lemma bind_emit {B} (ev : Event) (k : M B) :
  bind (emit ev) (fun _ => k) = (ev :: fst k, snd k).
Proof. unfold bind, emit. destruct k. reflexivity. Qed.

Lemma outcome_bind_ok {A B} (m : M A) (f : A -> M B) a :
  outcome m = inr a -> outcome (bind m f) = outcome (f a).
Proof.
  destruct m as [evs r]. simpl. intros ->. simpl. destruct (f a). reflexivity.
Qed.

Lemma outcome_bind_fail {A B} (m : M A) (f : A -> M B) e :
  outcome m = inl e -> outcome (bind m f) = inl e.
Proof. destruct m as [evs r]. simpl. intros ->. reflexivity. Qed.

Lemma events_bind_ok {A B} (m : M A) (f : A -> M B) a :
  outcome m = inr a -> events (bind m f) = (events m ++ events (f a))%list.
Proof.
  destruct m as [evs r]. simpl. intros ->. simpl. destruct (f a). reflexivity.
Qed.

Lemma events_bind_fail {A B} (m : M A) (f : A -> M B) e :
  outcome m = inl e -> events (bind m f) = events m.
Proof. destruct m as [evs r]. simpl. intros ->. reflexivity. Qed.

Lemma try_rewrap_events {A} (m : M A) (label name : string) :
  events (try_catch m (rewrap label name)) = events m.
Proof.
  destruct m as [evs [e|a]]; simpl; [|reflexivity].
  destruct e; simpl; apply app_nil_r.
Qed.

Lemma try_rewrap_ok {A} (m : M A) (label name : string) a :
  outcome m = inr a -> outcome (try_catch m (rewrap label name)) = inr a.
Proof. destruct m as [evs r]. simpl. intros ->. reflexivity. Qed.

Lemma try_rewrap_asr {A} (m : M A) (label name : string) e :
  outcome m = inl (ThrowASR e) ->
  outcome (try_catch m (rewrap label name)) = inl (ThrowASR e).
Proof. destruct m as [evs r]. simpl. intros ->. reflexivity. Qed.

Lemma try_rewrap_error {A} (m : M A) (label name : string) kind message :
  outcome m = inl (ThrowError kind message) ->
  outcome (try_catch m (rewrap label name))
  = inl (ThrowASR (ASRError (label ++ message) name (Some "API_ERROR"))).
Proof. destruct m as [evs r]. simpl. intros ->. reflexivity. Qed.

End MFacts.

(** ** Objects *)

Module ObjectFacts.
Section Facts.
Context {V : Type}.
Implicit Types (o : Obj V) (k : string) (v : V).

Lemma lookup_app k o1 o2 :
  Object.lookup k (o1 ++ o2)%list
  = match Object.lookup k o1 with
    | Some v => Some v
    | None => Object.lookup k o2
    end.
Proof.
  induction o1 as [|[k' v'] o1 IH]; simpl; [reflexivity|].
  destruct (String.eqb k' k); [reflexivity | exact IH].
Qed.

Lemma lookup_replace_same k v o :
  Object.has_key k o = true -> Object.lookup k (Object.replace k v o) = Some v.
Proof.
  unfold Object.has_key.
  induction o as [|[k' v'] o IH]; simpl; [discriminate|].
  destruct (String.eqb k' k) eqn:E; simpl; rewrite E; [reflexivity | exact IH].
Qed.

Lemma lookup_replace_other k k' v o :
  k' <> k -> Object.lookup k' (Object.replace k v o) = Object.lookup k' o.
Proof.
  intros N. induction o as [|[k0 v0] o IH]; simpl; [reflexivity|].
  destruct (String.eqb k0 k) eqn:E; simpl.
  - apply String.eqb_eq in E. subst k0.
    apply String.eqb_neq in N. rewrite String.eqb_sym in N. rewrite N.
    reflexivity.
  - rewrite IH. reflexivity.
Qed.

Lemma lookup_insert_same n k v o :
  Object.lookup k o = None -> Object.lookup k (Object.insert_index n k v o) = Some v.
Proof.
  induction o as [|[k0 v0] o IH]; simpl; intros H.
  - rewrite String.eqb_refl. reflexivity.
  - destruct (String.eqb k0 k) eqn:E; [discriminate|].
    destruct (Object.array_index k0) as [n'|]; simpl.
    + destruct (N.ltb n' n); simpl.
      * rewrite E. exact (IH H).
      * rewrite String.eqb_refl. reflexivity.
    + rewrite String.eqb_refl. reflexivity.
Qed.

Lemma lookup_insert_other n k k' v o :
  k' <> k -> Object.lookup k' (Object.insert_index n k v o) = Object.lookup k' o.
Proof.
  intros N. apply String.eqb_neq in N. rewrite String.eqb_sym in N.
  induction o as [|[k0 v0] o IH]; simpl.
  - rewrite N. reflexivity.
  - destruct (Object.array_index k0) as [n'|]; simpl.
    + destruct (N.ltb n' n); simpl.
      * rewrite IH. reflexivity.
      * rewrite N. reflexivity.
    + rewrite N. reflexivity.
Qed.

Lemma lookup_define_same k v o : Object.lookup k (Object.define k v o) = Some v.
Proof.
  unfold Object.define. destruct (Object.has_key k o) eqn:H.
  - exact (lookup_replace_same k v o H).
  - assert (L : Object.lookup k o = None).
    { unfold Object.has_key in H. destruct (Object.lookup k o); congruence. }
    destruct (Object.array_index k).
    + exact (lookup_insert_same _ k v o L).
    + rewrite lookup_app, L. simpl. rewrite String.eqb_refl. reflexivity.
Qed.

Lemma lookup_define_other k k' v o :
  k' <> k -> Object.lookup k' (Object.define k v o) = Object.lookup k' o.
Proof.
  intros N. unfold Object.define. destruct (Object.has_key k o).
  - exact (lookup_replace_other k k' v o N).
  - destruct (Object.array_index k).
    + exact (lookup_insert_other _ k k' v o N).
    + rewrite lookup_app. destruct (Object.lookup k' o); [reflexivity|].
      simpl. apply String.eqb_neq in N. rewrite String.eqb_sym in N.
      rewrite N. reflexivity.
Qed.

Lemma lookup_set_other k k' v o :
  k' <> k -> Object.lookup k' (Object.set k v o) = Object.lookup k' o.
Proof.
  intros N. unfold Object.set.
  destruct (String.eqb k "__proto__" && negb (Object.has_key k o))%bool;
    [reflexivity | exact (lookup_define_other k k' v o N)].
Qed.

Lemma lookup_set_same k v o :
  k <> "__proto__" -> Object.lookup k (Object.set k v o) = Some v.
Proof.
  intros N. unfold Object.set. apply String.eqb_neq in N. rewrite N. simpl.
  exact (lookup_define_same k v o).
Qed.

End Facts.

(** A key that starts with a prefix is the prefix followed by the rest. *)
Lemma startsWith_drop (p k : string) :
  Str.startsWith p k = true -> k = p ++ Str.drop (String.length p) k.
Proof.
  unfold Str.startsWith. revert k.
  induction p as [|c p IH]; intros k H; simpl.
  - destruct k; reflexivity.
  - destruct k as [|d k]; simpl in H; [discriminate|].
    destruct (ascii_dec c d) as [->|]; [|discriminate].
    simpl. f_equal. exact (IH k H).
Qed.

End ObjectFacts.

(** ** Parameter translation *)

Module TranslateFacts.

Section Loops.
Context {V U : Type}.

(** A key the loop leaves untouched at every turn keeps its binding. *)
Lemma fold_keeps (step : Obj U -> string * V -> Obj U)
  (t : string) (params : Obj V) :
  (forall entry translated,
      In entry params ->
      Object.lookup t (step translated entry) = Object.lookup t translated) ->
  forall init,
    Object.lookup t (fold_left step params init) = Object.lookup t init.
Proof.
  induction params as [|entry params IH]; intros H init; simpl; [reflexivity|].
  rewrite IH.
  - apply H. left. reflexivity.
  - intros e tr He. apply H. right. exact He.
Qed.

(** A key written at one turn and left untouched afterwards keeps what that
    turn wrote. *)
Lemma fold_sets (step : Obj U -> string * V -> Obj U)
  (t : string) (v : V) (u : U) (params : Obj V) :
  NoDup (Object.keys params) ->
  In (t, v) params ->
  (forall translated, Object.lookup t (step translated (t, v)) = Some u) ->
  (forall entry translated,
      In entry params -> fst entry <> t ->
      Object.lookup t (step translated entry) = Object.lookup t translated) ->
  forall init, Object.lookup t (fold_left step params init) = Some u.
Proof.
  intros ND Hin Hset Hkeep init.
  destruct (in_split _ _ Hin) as (pre & post & ->).
  rewrite fold_left_app. simpl.
  rewrite fold_keeps; [apply Hset|].
  intros entry tr He. apply Hkeep.
  - apply in_or_app. right. right. exact He.
  - intros <-. unfold Object.keys in ND. rewrite map_app in ND. simpl in ND.
    apply NoDup_remove_2 in ND. apply ND. apply in_or_app. right.
    apply in_map. exact He.
Qed.

End Loops.

Ltac by_cases :=
  repeat match goal with
    | |- context [String.eqb ?a ?b] =>
        let E := fresh "E" in
        destruct (String.eqb a b) eqn:E;
        [apply String.eqb_eq in E; subst | apply String.eqb_neq in E]
    | |- context [Str.startsWith ?p ?k] =>
        let E := fresh "P" in
        destruct (Str.startsWith p k) eqn:E;
        [apply ObjectFacts.startsWith_drop in E; simpl String.length in E |]
    end.

Ltac untouched :=
  first [ reflexivity
        | apply ObjectFacts.lookup_set_other; first [discriminate | congruence] ].

(** The turn of a prefixed key writes the key without its prefix. *)
Ltac prefixed N :=
  apply ObjectFacts.lookup_set_other;
  let C := fresh "C" in
  intros C;
  match goal with
  | P : ?k = _ ++ Str.drop _ ?k |- _ => rewrite <- C in P; exact (N P)
  end.

Lemma openai_keeps_flag translated key value :
  (key = "timestamps" -> JS.truthy value = false) ->
  key <> "response_format" -> key <> "openai_response_format" ->
  Object.lookup "response_format" (OpenAI.translate_entry translated (key, value))
  = Object.lookup "response_format" translated.
Proof.
  intros Off N1 N2. unfold OpenAI.translate_entry. by_cases; try untouched.
  - rewrite Off; reflexivity.
  - prefixed N2.
Qed.

Lemma deepgram_keeps_flag translated key value :
  (key = "timestamps" -> JS.truthy value = false) ->
  key <> "utterances" -> key <> "deepgram_utterances" ->
  Object.lookup "utterances" (Deepgram.translate_entry translated (key, value))
  = Object.lookup "utterances" translated.
Proof.
  intros Off N1 N2. unfold Deepgram.translate_entry. by_cases; try untouched.
  - rewrite Off; reflexivity.
  - destruct (JS.truthy value); untouched.
  - destruct (JS.truthy value); untouched.
  - prefixed N2.
Qed.

Lemma google_keeps_flag translated key value :
  (key = "timestamps" -> JS.truthy value = false) ->
  key <> "enableWordTimeOffsets" -> key <> "google_enableWordTimeOffsets" ->
  Object.lookup "enableWordTimeOffsets"
    (Google.translate_entry translated (key, value))
  = Object.lookup "enableWordTimeOffsets" translated.
Proof.
  intros Off N1 N2. unfold Google.translate_entry. by_cases; try untouched.
  - rewrite Off; reflexivity.
  - destruct (JS.truthy value); untouched.
  - destruct (JS.truthy value); [|reflexivity].
    rewrite !ObjectFacts.lookup_set_other by discriminate. reflexivity.
  - prefixed N2.
Qed.

Lemma openai_keeps_plain t translated key value :
  passes_through t -> key <> t -> key <> "openai_" ++ t ->
  Object.lookup t (OpenAI.translate_entry translated (key, value))
  = Object.lookup t translated.
Proof.
  intros [-> | ->] N1 N2; unfold OpenAI.translate_entry; by_cases;
    try untouched; try (destruct (JS.truthy value); untouched); prefixed N2.
Qed.

Lemma openai_sets_plain t translated value :
  passes_through t ->
  Object.lookup t (OpenAI.translate_entry translated (t, value)) = Some value.
Proof.
  intros [-> | ->]; simpl; apply ObjectFacts.lookup_set_same; discriminate.
Qed.

Lemma deepgram_keeps_plain t translated key value :
  passes_through t -> key <> t -> key <> "deepgram_" ++ t ->
  Object.lookup t (Deepgram.translate_entry translated (key, value))
  = Object.lookup t translated.
Proof.
  intros [-> | ->] N1 N2; unfold Deepgram.translate_entry; by_cases;
    try untouched; try (destruct (JS.truthy value); untouched); prefixed N2.
Qed.

Lemma deepgram_sets_plain t translated value :
  passes_through t ->
  Object.lookup t (Deepgram.translate_entry translated (t, value)) = Some value.
Proof.
  intros [-> | ->]; simpl; apply ObjectFacts.lookup_set_same; discriminate.
Qed.

Lemma google_keeps_plain t translated key value :
  passes_through t -> key <> t -> key <> "google_" ++ t ->
  Object.lookup t (Google.translate_entry translated (key, value))
  = Object.lookup t translated.
Proof.
  intros [-> | ->] N1 N2; unfold Google.translate_entry; by_cases;
    try untouched; try (destruct (JS.truthy value); untouched);
    try (destruct (JS.truthy value); [|reflexivity];
         rewrite !ObjectFacts.lookup_set_other by discriminate; reflexivity);
    prefixed N2.
Qed.

Lemma google_sets_plain t translated value :
  passes_through t ->
  Object.lookup t (Google.translate_entry translated (t, value)) = Some value.
Proof.
  intros [-> | ->]; simpl; apply ObjectFacts.lookup_set_same; discriminate.
Qed.

End TranslateFacts.

(** C6. With [timestamps] false or absent, and the caller not passing the
    native flag itself (under its own name or with the adapter's prefix),
    the translated parameters of each adapter do not contain the flag that
    enables timestamps: [response_format] for OpenAI, [utterances] for
    Deepgram, [enableWordTimeOffsets] for Google. On the Deepgram adapter,
    [translateParams("nova-2", {timestamps: true, word_confidence: true,
    speaker_labels: true})] is exactly
    [{utterances: true, smart_format: true, diarize: true}]. *)
Theorem translateParams_timestamps_off :
  (forall model params,
      Terms.timestamps_off params ->
      Terms.absent "openai_" "response_format" params ->
      Object.lookup "response_format" (OpenAI.translateParams model params)
      = None)
  /\ (forall model params,
         Terms.timestamps_off params ->
         Terms.absent "deepgram_" "utterances" params ->
         Object.lookup "utterances" (Deepgram.translateParams model params)
         = None)
  /\ (forall model params,
         Terms.timestamps_off params ->
         Terms.absent "google_" "enableWordTimeOffsets" params ->
         Object.lookup "enableWordTimeOffsets"
           (Google.translateParams model params)
         = None)
  /\ Deepgram.translateParams (JStr "nova-2")
       [("timestamps", JBool true); ("word_confidence", JBool true);
        ("speaker_labels", JBool true)]
     = [("utterances", JBool true); ("smart_format", JBool true);
        ("diarize", JBool true)].
Proof.
  repeat split.
  - intros model params Off Abs. unfold OpenAI.translateParams.
    rewrite TranslateFacts.fold_keeps; [reflexivity|].
    intros [key value] tr He. destruct (Abs key value He) as [N1 N2].
    apply TranslateFacts.openai_keeps_flag; try assumption.
    intros ->. exact (Off value He).
  - intros model params Off Abs. unfold Deepgram.translateParams.
    rewrite TranslateFacts.fold_keeps; [reflexivity|].
    intros [key value] tr He. destruct (Abs key value He) as [N1 N2].
    apply TranslateFacts.deepgram_keeps_flag; try assumption.
    intros ->. exact (Off value He).
  - intros model params Off Abs. unfold Google.translateParams.
    rewrite TranslateFacts.fold_keeps; [reflexivity|].
    intros [key value] tr He. destruct (Abs key value He) as [N1 N2].
    apply TranslateFacts.google_keeps_flag; try assumption.
    intros ->. exact (Off value He).
Qed.

(** [translateParams_timestamps_off] on [{timestamps: false}], the request
    of the test suites, for the three adapters. *)
Lemma translateParams_timestamps_off_witness :
  Object.lookup "response_format"
    (OpenAI.translateParams (JStr "whisper-1") [("timestamps", JBool false)])
  = None
  /\ Object.lookup "utterances"
       (Deepgram.translateParams (JStr "nova-2") [("timestamps", JBool false)])
     = None
  /\ Object.lookup "enableWordTimeOffsets"
       (Google.translateParams (JStr "latest_long")
          [("timestamps", JBool false)])
     = None.
Proof.
  assert (Off : Terms.timestamps_off [("timestamps", JBool false)]).
  { intros v [H | []]. injection H as <-. reflexivity. }
  assert (Abs : forall prefix flag,
             flag <> "timestamps" -> prefix ++ flag <> "timestamps" ->
             Terms.absent prefix flag [("timestamps", JBool false)]).
  { intros prefix flag N1 N2 k v [H | []]. injection H as <- <-.
    split; congruence. }
  destruct translateParams_timestamps_off as (A & B & C & _).
  split; [| split].
  - apply A; [exact Off | apply Abs; discriminate].
  - apply B; [exact Off | apply Abs; discriminate].
  - apply C; [exact Off | apply Abs; discriminate].
Defined.

(** C6 fails as stated: without [timestamps], a native flag the caller
    passes itself reaches the translated parameters. The parameters
    [{deepgram_punctuate: true, deepgram_utterances: false}] of the test
    suite translate to an object that contains [utterances]; so do
    [{timestamps: false, response_format: 'json'}] for [response_format]
    on the OpenAI adapter and [{google_enableWordTimeOffsets: true}] for
    [enableWordTimeOffsets] on the Google adapter. *)
Lemma passed_flag_is_kept :
  (Object.has_key "timestamps"
     [("deepgram_punctuate", JBool true); ("deepgram_utterances", JBool false)]
   = false
   /\ Object.lookup "utterances"
        (Deepgram.translateParams (JStr "nova-2")
           [("deepgram_punctuate", JBool true);
            ("deepgram_utterances", JBool false)])
      = Some (JBool false))
  /\ Object.lookup "response_format"
       (OpenAI.translateParams (JStr "whisper-1")
          [("timestamps", JBool false); ("response_format", JStr "json")])
     = Some (JStr "json")
  /\ (Object.has_key "timestamps"
        [("google_enableWordTimeOffsets", JBool true)]
      = false
      /\ Object.lookup "enableWordTimeOffsets"
           (Google.translateParams (JStr "latest_long")
              [("google_enableWordTimeOffsets", JBool true)])
         = Some (JBool true)).
Proof. repeat split. Qed.

(** ** Parameter validation *)

Module ValidateFacts.

Lemma for_each_passes {A} (l : list A) (body : A -> M unit) :
  (forall x, In x l -> outcome (body x) = inr tt) ->
  outcome (for_each l body) = inr tt.
Proof.
  induction l as [|x l IH]; intros H; simpl; [reflexivity|].
  rewrite (MFacts.outcome_bind_ok _ _ tt) by (apply H; left; reflexivity).
  apply IH. intros y Hy. apply H. right. exact Hy.
Qed.

Lemma for_each_stops {A} (pre post : list A) (x : A) (body : A -> M unit) e :
  (forall y, In y pre -> outcome (body y) = inr tt) ->
  outcome (body x) = inl e ->
  outcome (for_each (pre ++ x :: post)%list body) = inl e.
Proof.
  induction pre as [|y pre IH]; intros H Hx; simpl.
  - apply MFacts.outcome_bind_fail. exact Hx.
  - rewrite (MFacts.outcome_bind_ok _ _ tt) by (apply H; left; reflexivity).
    apply IH; [|exact Hx]. intros z Hz. apply H. right. exact Hz.
Qed.

Lemma for_each_quiet {A} (l : list A) (body : A -> M unit) :
  (forall x, no_remote_call (body x)) -> no_remote_call (for_each l body).
Proof.
  intros H. induction l as [|x l IH]; [reflexivity|].
  simpl. specialize (H x). unfold no_remote_call, events in *.
  destruct (body x) as [evs [e|[]]]; simpl in *; [exact H|].
  destruct (for_each l body) as [evs' r]. simpl in *.
  rewrite forallb_app, H, IH. reflexivity.
Qed.

Lemma when_warn_passes (b : bool) (msg : string) :
  outcome (when b (emit (EvWarn msg))) = inr tt.
Proof. destruct b; reflexivity. Qed.

Lemma when_warn_quiet (b : bool) (msg : string) :
  no_remote_call (when b (emit (EvWarn msg))).
Proof. destruct b; reflexivity. Qed.

(** The validation of the Deepgram adapter only warns. *)
Lemma deepgram_passes model params :
  outcome (Deepgram.validateParams model params) = inr tt.
Proof.
  apply for_each_passes. intros [key value] _. apply when_warn_passes.
Qed.

Lemma deepgram_quiet model params :
  no_remote_call (Deepgram.validateParams model params).
Proof. apply for_each_quiet. intros [key value]. apply when_warn_quiet. Qed.

(** The validation of the Google adapter only warns. *)
Lemma google_passes model params :
  outcome (Google.validateParams model params) = inr tt.
Proof.
  apply for_each_passes. intros [key value] _. apply when_warn_passes.
Qed.

Lemma google_quiet model params :
  no_remote_call (Google.validateParams model params).
Proof. apply for_each_quiet. intros [key value]. apply when_warn_quiet. Qed.

Lemma openai_quiet model params :
  no_remote_call (OpenAI.validateParams model params).
Proof.
  apply for_each_quiet. intros [key value].
  destruct (mem key OpenAI.unsupported); [reflexivity|].
  unfold when at 1. rewrite MFacts.bind_ret. apply when_warn_quiet.
Qed.

(** One turn of the OpenAI loop on a key outside the unsupported list. *)
Lemma openai_turn_passes key :
  mem key OpenAI.unsupported = false ->
  outcome
    (when (mem key OpenAI.unsupported)
       (throw (ThrowASR (UnsupportedParameterError key OpenAI.name))) ;;;
     when (negb (mem key OpenAI.supported)
           && negb (Str.startsWith "openai_" key))
       (emit (EvWarn (OpenAI.warning key))))
  = inr tt.
Proof.
  intros ->. unfold when at 1. rewrite MFacts.bind_ret. apply when_warn_passes.
Qed.

Lemma openai_passes model params :
  (forall k, In k (Object.keys params) -> mem k OpenAI.unsupported = false) ->
  outcome (OpenAI.validateParams model params) = inr tt.
Proof.
  intros H. apply for_each_passes. intros [key value] Hin.
  apply openai_turn_passes. apply H.
  exact (in_map fst _ _ Hin).
Qed.

Lemma openai_rejects model pre key value post :
  (forall k, In k (Object.keys pre) -> mem k OpenAI.unsupported = false) ->
  mem key OpenAI.unsupported = true ->
  outcome (OpenAI.validateParams model (pre ++ (key, value) :: post)%list)
  = inl (ThrowASR (UnsupportedParameterError key OpenAI.name)).
Proof.
  intros H Hk. unfold OpenAI.validateParams.
  apply for_each_stops.
  - intros [k v] Hin. apply openai_turn_passes. apply H.
    exact (in_map fst _ _ Hin).
  - rewrite Hk. reflexivity.
Qed.

(** The first unsupported key of a request that has one. *)
Lemma first_unsupported (params : Obj JSValue) :
  (exists k, In k (Object.keys params) /\ mem k OpenAI.unsupported = true) ->
  exists pre key value post,
    params = (pre ++ (key, value) :: post)%list
    /\ (forall k, In k (Object.keys pre) -> mem k OpenAI.unsupported = false)
    /\ mem key OpenAI.unsupported = true.
Proof.
  induction params as [|[k0 v0] params IH]; intros (k & Hin & Hk).
  - destruct Hin.
  - destruct (mem k0 OpenAI.unsupported) eqn:E.
    + exists [], k0, v0, params. repeat split; [intros ? []| exact E].
    + destruct IH as (pre & key & value & post & -> & Hpre & Hkey).
      { simpl in Hin. destruct Hin as [-> | Hin]; [congruence|]. eauto. }
      exists ((k0, v0) :: pre), key, value, post. repeat split; [|exact Hkey].
      intros k' [<- | Hk']; [exact E | exact (Hpre k' Hk')].
Qed.

Lemma unsupported_iff key :
  mem key OpenAI.unsupported = true
  <-> key = "word_confidence" \/ key = "speaker_labels".
Proof.
  unfold mem, OpenAI.unsupported. simpl. rewrite !orb_true_iff, !String.eqb_eq.
  intuition discriminate.
Qed.

End ValidateFacts.

(** C1, as the code has it, for the OpenAI adapter. [validateParams] throws
    an [UnsupportedParameterError] exactly when [word_confidence] or
    [speaker_labels] is among the keys of the parameters, whatever the value
    bound to it; the error carries the first of these keys in the order of
    enumeration and the provider [openai]. It does not throw when both keys
    are absent. *)
Theorem openai_validateParams_contract :
  forall (model : JSValue) (params : Obj JSValue),
    ((forall k, In k (Object.keys params) ->
                k <> "word_confidence" /\ k <> "speaker_labels") ->
     outcome (OpenAI.validateParams model params) = inr tt)
    /\ ((exists k, In k (Object.keys params)
                   /\ (k = "word_confidence" \/ k = "speaker_labels")) ->
        exists key,
          In key (Object.keys params)
          /\ (key = "word_confidence" \/ key = "speaker_labels")
          /\ outcome (OpenAI.validateParams model params)
             = inl (ThrowASR (UnsupportedParameterError key "openai")))
    /\ (forall before key value after,
           params = (before ++ (key, value) :: after)%list ->
           (forall k, In k (Object.keys before) ->
                      k <> "word_confidence" /\ k <> "speaker_labels") ->
           key = "word_confidence" \/ key = "speaker_labels" ->
           outcome (OpenAI.validateParams model params)
           = inl (ThrowASR (UnsupportedParameterError key "openai"))).
Proof.
  intros model params.
  assert (Clean : forall l : Obj JSValue,
             (forall k, In k (Object.keys l) ->
                        k <> "word_confidence" /\ k <> "speaker_labels") ->
             forall k, In k (Object.keys l) -> mem k OpenAI.unsupported = false).
  { intros l H k Hk. destruct (mem k OpenAI.unsupported) eqn:E; [|reflexivity].
    apply ValidateFacts.unsupported_iff in E. destruct (H k Hk). tauto. }
  split; [|split].
  - intros H. apply ValidateFacts.openai_passes. exact (Clean params H).
  - intros (k & Hin & Hk).
    destruct (ValidateFacts.first_unsupported params)
      as (pre & key & value & post & -> & Hpre & Hkey).
    { exists k. split; [exact Hin|]. apply ValidateFacts.unsupported_iff.
      exact Hk. }
    exists key. split; [|split].
    + unfold Object.keys. rewrite map_app. apply in_or_app. right. left.
      reflexivity.
    + apply ValidateFacts.unsupported_iff. exact Hkey.
    + exact (ValidateFacts.openai_rejects model pre key value post Hpre Hkey).
  - intros before key value after -> Hb Hk.
    apply ValidateFacts.openai_rejects; [exact (Clean before Hb)|].
    apply ValidateFacts.unsupported_iff. exact Hk.
Qed.

(** [openai_validateParams_contract] on the parameters of the test suite:
    accepted without the two keys, refused with [speaker_labels]. *)
Lemma openai_validateParams_contract_witness :
  outcome (OpenAI.validateParams (JStr "whisper-1")
             [("language", JStr "en-US"); ("timestamps", JBool true);
              ("temperature", JNum 0.5)])
  = inr tt
  /\ exists key,
       In key (Object.keys [("speaker_labels", JBool true)])
       /\ (key = "word_confidence" \/ key = "speaker_labels")
       /\ outcome (OpenAI.validateParams (JStr "whisper-1")
                     [("speaker_labels", JBool true)])
          = inl (ThrowASR (UnsupportedParameterError key "openai")).
Proof.
  split.
  - apply (proj1 (openai_validateParams_contract (JStr "whisper-1")
                    [("language", JStr "en-US"); ("timestamps", JBool true);
                     ("temperature", JNum 0.5)])).
    intros k [<- | [<- | [<- | []]]]; split; discriminate.
  - apply (proj1 (proj2 (openai_validateParams_contract (JStr "whisper-1")
                           [("speaker_labels", JBool true)]))).
    exists "speaker_labels". split; [left; reflexivity | right; reflexivity].
Defined.

(** C1 fails as stated: with [word_confidence] bound to [false], and no
    other option, the OpenAI adapter throws. *)
Lemma openai_validateParams_rejects_false :
  JS.truthy (JBool false) = false
  /\ outcome (OpenAI.validateParams (JStr "whisper-1")
                [("word_confidence", JBool false)])
     = inl (ThrowASR
              (mkASRError "UnsupportedParameterError"
                 "Parameter 'word_confidence' is not supported by provider 'openai'"
                 "openai" (Some "UNSUPPORTED_PARAMETER"))).
Proof. split; reflexivity. Qed.

(** The Deepgram and Google adapters warn about [temperature] and do not
    throw. *)
Lemma temperature_only_warned :
  Deepgram.validateParams (JStr "nova-2") [("temperature", JNum 0.5)]
  = ([EvWarn "Parameter 'temperature' may not be supported by Deepgram ASR"],
     inr tt)
  /\ Google.validateParams (JStr "latest_long") [("temperature", JNum 0.5)]
     = ([EvWarn "Parameter 'temperature' may not be supported by Google Cloud ASR"],
        inr tt).
Proof. split; reflexivity. Qed.

(** ** The dispatch client *)

Module ClientFacts.

Lemma listProviders_new (config : Client.ASRProviderConfigs) :
  Client.listProviders (Client.new config) = registration_order config.
Proof.
  destruct config as [[o|] [d|] [g|]]; reflexivity.
Qed.

Lemma not_configured (self : Client.ASRClient) (p : string) :
  Client.isProviderConfigured self p = false ->
  Object.lookup p (Client.providers self) = None.
Proof.
  unfold Client.isProviderConfigured, Object.has_key.
  destruct (Object.lookup p (Client.providers self)); [discriminate|reflexivity].
Qed.

End ClientFacts.

(** C3. When the model of a request parses to a provider key for which the
    client has no adapter, [create] fails, before any other effect, with a
    [ProviderNotConfiguredError] that carries that key, the code
    [PROVIDER_NOT_CONFIGURED] and a message listing the configured keys, in
    the order of registration, separated by commas. *)
Theorem create_provider_not_configured :
  forall (W : World) (config : Client.ASRProviderConfigs)
         (request : Obj JSValue) (options : option RequestOptions)
         (identifier p m : string),
    JS.prop request "model" = JStr identifier ->
    parseModel identifier = inr (mkParsed p m) ->
    Client.isProviderConfigured (Client.new config) p = false ->
    Client.create W (Client.new config) request options
    = ([], inl (ThrowASR
                  (mkASRError "ProviderNotConfiguredError"
                     ("Provider '" ++ p
                        ++ "' is not configured. Available providers: "
                        ++ Str.join ", " (Terms.registration_order config))
                     p (Some "PROVIDER_NOT_CONFIGURED")))).
Proof.
  intros W config request options identifier p m Hmodel Hparse Hno.
  unfold Client.create. rewrite Hmodel. simpl Client.parse_request_model.
  rewrite Hparse. rewrite MFacts.bind_lift_ok.
  simpl provider. rewrite (ClientFacts.not_configured _ _ Hno).
  unfold throw, ProviderNotConfiguredError.
  change (Object.keys (Client.providers (Client.new config)))
    with (Client.listProviders (Client.new config)).
  rewrite ClientFacts.listProviders_new. reflexivity.
Qed.

(** [create_provider_not_configured] on the scenario of the specification:
    only [deepgram] is configured and the model is ["openai:whisper-1"]. *)
Lemma create_provider_not_configured_witness :
  Client.create Sample.isolated
    (Client.new (Client.mkConfigs None (Some (Deepgram.mkConfig "k" None)) None))
    [("model", JStr "openai:whisper-1"); ("file", JBuffer Sample.audio)] None
  = ([], inl (ThrowASR
                (mkASRError "ProviderNotConfiguredError"
                   "Provider 'openai' is not configured. Available providers: deepgram"
                   "openai" (Some "PROVIDER_NOT_CONFIGURED")))).
Proof.
  exact (create_provider_not_configured Sample.isolated
           (Client.mkConfigs None (Some (Deepgram.mkConfig "k" None)) None)
           [("model", JStr "openai:whisper-1"); ("file", JBuffer Sample.audio)]
           None "openai:whisper-1" "openai" "whisper-1"
           eq_refl eq_refl eq_refl).
Defined.

(** ** Computations without remote call *)

Module Quiet.

Lemma of_bind {A B} (m : M A) (f : A -> M B) :
  no_remote_call m ->
  (forall a, outcome m = inr a -> no_remote_call (f a)) ->
  no_remote_call (bind m f).
Proof.
  unfold no_remote_call, events, outcome.
  destruct m as [evs [e|a]]; simpl; intros Hm Hf; [exact Hm|].
  specialize (Hf a eq_refl). destruct (f a) as [evs' r]. simpl in *.
  rewrite forallb_app, Hm, Hf. reflexivity.
Qed.

Lemma of_failure {A B} (m : M A) (f : A -> M B) e :
  no_remote_call m -> outcome m = inl e -> no_remote_call (bind m f).
Proof.
  intros Hm He. apply of_bind; [exact Hm|]. intros a Ha. congruence.
Qed.

Lemma of_try {A} (m : M A) (label name : string) :
  no_remote_call m -> no_remote_call (try_catch m (rewrap label name)).
Proof.
  unfold no_remote_call. rewrite MFacts.try_rewrap_events. exact (fun H => H).
Qed.

Lemma of_pure {A} (m : M A) : events m = [] -> no_remote_call m.
Proof. unfold no_remote_call. intros ->. reflexivity. Qed.

End Quiet.

(** ** The Google adapter *)

Module GoogleFacts.

Lemma adapt_mock (W : World) :
  Google.adaptResponse W Google.mockResponse = ([], inr mock_result).
Proof. vm_compute. reflexivity. Qed.

Lemma audio_readable (W : World) (file : JSValue) :
  readable W file ->
  exists content, outcome (Google.audio_of W file) = inr content.
Proof.
  destruct file; simpl; try contradiction; eauto.
Qed.

Lemma audio_quiet (W : World) (file : JSValue) :
  no_remote_call (Google.audio_of W file).
Proof.
  destruct file; reflexivity.
Qed.

Lemma google_audio_unrecognized (W : World) (file : JSValue) :
  recognized file = false ->
  Google.audio_of W file
  = throw (ThrowASR (ASRError "Unsupported audio input type" "google"
                       (Some "INVALID_INPUT"))).
Proof. destruct file; simpl; try discriminate; reflexivity. Qed.

Lemma transcribe_quiet (W : World) request options :
  no_remote_call (Google.transcribe W request options).
Proof.
  apply Quiet.of_try. apply Quiet.of_bind; [apply ValidateFacts.google_quiet|].
  intros _ _. apply Quiet.of_bind; [apply audio_quiet|].
  intros content _. cbv zeta. rewrite adapt_mock. reflexivity.
Qed.

End GoogleFacts.

(** C10, as the code has it. For every request whose file is a byte buffer,
    a byte array, or a path that the file system reads, and for every
    option, [transcribe] of the Google adapter calls no remote service and
    returns the same result: the text ["Mock transcription from Google
    Cloud Speech-to-Text"], the confidence 0.95 and two words, from second
    0 to 1 and from second 1 to 2. *)
Theorem google_transcribe_fixed_result :
  forall (W : World) (request : Obj JSValue) (options : option RequestOptions),
    Terms.readable W (JS.prop request "file") ->
    outcome (Google.transcribe W request options)
    = inr (mkResult
             (JStr "Mock transcription from Google Cloud Speech-to-Text")
             (JStr "unknown") (JNum 0.95)
             [mkWord (JStr "Mock") (JNum 0) (JNum 1) (JNum 0.95) JUndefined;
              mkWord (JStr "transcription") (JNum 1) (JNum 2) (JNum 0.95)
                JUndefined]
             [mkSegment
                (JStr "Mock transcription from Google Cloud Speech-to-Text")
                (JNum 0) (JNum 0) JUndefined])
    /\ no_remote_call (Google.transcribe W request options).
Proof.
  intros W request options Hfile. split; [|apply GoogleFacts.transcribe_quiet].
  unfold Google.transcribe. apply MFacts.try_rewrap_ok.
  rewrite (MFacts.outcome_bind_ok _ _ tt) by apply ValidateFacts.google_passes.
  destruct (GoogleFacts.audio_readable W _ Hfile) as (content & Hc).
  rewrite (MFacts.outcome_bind_ok _ _ content Hc).
  cbv zeta. rewrite GoogleFacts.adapt_mock. reflexivity.
Qed.

(** [google_transcribe_fixed_result] on a request that carries a buffer,
    a language and the three feature flags. *)
Lemma google_transcribe_fixed_result_witness :
  outcome (Google.transcribe Sample.isolated
             [("model", JStr "latest_long"); ("file", JBuffer Sample.audio);
              ("language", JStr "fr-FR"); ("timestamps", JBool true);
              ("word_confidence", JBool true); ("speaker_labels", JBool true)]
             (Some (mkOptions (Some 1000%float) None)))
  = inr Terms.mock_result.
Proof.
  apply (proj1 (google_transcribe_fixed_result Sample.isolated
                  [("model", JStr "latest_long"); ("file", JBuffer Sample.audio);
                   ("language", JStr "fr-FR"); ("timestamps", JBool true);
                   ("word_confidence", JBool true);
                   ("speaker_labels", JBool true)]
                  (Some (mkOptions (Some 1000%float) None)) I)).
Defined.

(** C10 fails as stated: a path is a recognized representation and
    validation passes, yet on a disk without the file the call fails. *)
Lemma google_transcribe_unreadable_path :
  recognized (JStr "/nonexistent/audio.wav") = true
  /\ outcome (Google.validateParams (JStr "latest_long")
                [("model", JStr "latest_long");
                 ("file", JStr "/nonexistent/audio.wav")])
     = inr tt
  /\ outcome (Google.transcribe Sample.isolated
                [("model", JStr "latest_long");
                 ("file", JStr "/nonexistent/audio.wav")] None)
     = inl (ThrowASR
              (mkASRError "ASRError"
                 "Google Cloud ASR error: ENOENT: no such file or directory, open '/nonexistent/audio.wav'"
                 "google" (Some "API_ERROR"))).
Proof. repeat split. Qed.

(** ** Conversions to text *)

Module TextFacts.
Section WithWorld.
Context (W : World).
Local Abbreviation engine_only := (Terms.engine_only W) (only parsing).
Local Abbreviation printable := (Terms.printable W) (only parsing).

Lemma engine_only_ret {A} (a : A) : engine_only (ret a).
Proof. split; [reflexivity | discriminate]. Qed.

Lemma engine_only_bind {A B} (m : M A) (f : A -> M B) :
  engine_only m -> (forall a, engine_only (f a)) -> engine_only (bind m f).
Proof.
  destruct m as [evs [e|a]]; intros [Hev Hfail] Hf; simpl in *; subst evs.
  - split; [reflexivity|]. intros e0 H. injection H as <-.
    exact (Hfail e eq_refl).
  - specialize (Hf a). destruct (f a) as [evs' r]. exact Hf.
Qed.

Lemma engine_only_toString (v : JSValue) : engine_only (lift (JS.toString W v)).
Proof.
  unfold JS.toString. destruct (JS.text_of W v); split; try reflexivity.
  - discriminate.
  - intros e H. injection H as <-. eauto.
Qed.

Lemma engine_only_call_toString (v : JSValue) :
  engine_only (JS.call_toString W v).
Proof.
  destruct v as [| | b | x | s | b | b | l | fields];
    try apply engine_only_toString;
    try (split; [reflexivity | intros e H; injection H as <-; eauto]).
  unfold JS.call_toString. destruct (Object.has_key "toString" fields).
  - split; [reflexivity | intros e H; injection H as <-; eauto].
  - apply engine_only_ret.
Qed.

Lemma engine_only_fold {A S} (l : list A) (body : S -> A -> M S) :
  (forall s x, engine_only (body s x)) ->
  forall s, engine_only (fold_m l body s).
Proof.
  intros H. induction l as [|x l IH]; intros s; simpl.
  - apply engine_only_ret.
  - apply engine_only_bind; [apply H | exact IH].
Qed.

Lemma printable_toString (v : JSValue) :
  printable v -> exists s, JS.toString W v = inr s.
Proof.
  unfold printable, JS.toString. destruct (JS.text_of W v); [eauto | congruence].
Qed.

Lemma printable_call_toString (v : JSValue) :
  printable v -> JS.nullish v = false ->
  exists s, JS.call_toString W v = ret s.
Proof.
  intros P N. destruct v as [| | b | x | s | b | b | l | fields];
    try discriminate;
    try (destruct (printable_toString _ P) as (t & H); exists t;
         unfold JS.call_toString; rewrite H; reflexivity).
  unfold printable in P. simpl in P. unfold JS.call_toString.
  destruct (Object.has_key "toString" fields); [congruence | eauto].
Qed.

End WithWorld.
End TextFacts.

(** ** Properties of every value of an object *)

Module ValuesFacts.
Section Facts.
Context {V : Type} (Q : V -> Prop).
Local Abbreviation all_values := (Terms.all_values Q) (only parsing).

Lemma of_replace k v o :
  Q v -> all_values o -> all_values (Object.replace k v o).
Proof.
  intros Hv. induction 1 as [|[k0 v0] o H0 Ho IH]; simpl; [constructor|].
  destruct (String.eqb k0 k); constructor; assumption.
Qed.

Lemma of_insert n k v o :
  Q v -> all_values o -> all_values (Object.insert_index n k v o).
Proof.
  intros Hv. induction 1 as [|[k0 v0] o H0 Ho IH]; simpl.
  - repeat constructor. exact Hv.
  - destruct (Object.array_index k0) as [n'|];
      [destruct (N.ltb n' n)|]; repeat constructor; assumption.
Qed.

Lemma of_define k v o :
  Q v -> all_values o -> all_values (Object.define k v o).
Proof.
  intros Hv Ho. unfold Object.define. destruct (Object.has_key k o).
  - apply of_replace; assumption.
  - destruct (Object.array_index k).
    + apply of_insert; assumption.
    + apply Forall_app. split; [exact Ho | repeat constructor; exact Hv].
Qed.

Lemma of_set k v o : Q v -> all_values o -> all_values (Object.set k v o).
Proof.
  intros Hv Ho. unfold Object.set.
  destruct (String.eqb k "__proto__" && negb (Object.has_key k o))%bool;
    [exact Ho | apply of_define; assumption].
Qed.

Lemma of_lookup k o v : all_values o -> Object.lookup k o = Some v -> Q v.
Proof.
  induction 1 as [|[k0 v0] o H0 Ho IH]; simpl; [discriminate|].
  destruct (String.eqb k0 k); [|exact IH].
  intros H. injection H as <-. exact H0.
Qed.

End Facts.
End ValuesFacts.

(** ** The Deepgram adapter *)

Module DeepgramFacts.
Section WithWorld.
Context (W : World).
Local Abbreviation printable_request := (Terms.printable_request W) (only parsing).

Lemma translate_entry_printable translated entry :
  Terms.printable W (snd entry) ->
  Terms.all_values (Terms.printable W) translated ->
  Terms.all_values (Terms.printable W)
    (Deepgram.translate_entry translated entry).
Proof.
  destruct entry as [key value]. simpl. intros Hv Ht.
  assert (Htrue : Terms.printable W (JBool true)) by discriminate.
  unfold Deepgram.translate_entry.
  repeat match goal with
    | |- context [if ?c then _ else _] => destruct c
    end;
    first [assumption | apply ValuesFacts.of_set; assumption].
Qed.

Lemma translate_printable model request :
  printable_request request ->
  Terms.all_values (Terms.printable W)
    (Deepgram.translateParams model request).
Proof.
  unfold Deepgram.translateParams, printable_request.
  assert (G : forall params init,
             Terms.all_values (Terms.printable W) params ->
             Terms.all_values (Terms.printable W) init ->
             Terms.all_values (Terms.printable W)
               (fold_left Deepgram.translate_entry params init)).
  { induction params as [|entry params IH]; intros init Hp Hi; simpl;
      [exact Hi|].
    inversion Hp; subst. apply IH; [assumption|].
    apply translate_entry_printable; assumption. }
  intros H. apply G; [exact H | constructor].
Qed.

Lemma query_entries_engine_only translated :
  Terms.engine_only W (Deepgram.query_entries W translated).
Proof.
  apply TextFacts.engine_only_fold. intros acc [key value].
  destruct (JS.nullish value); [apply TextFacts.engine_only_ret|].
  apply TextFacts.engine_only_bind;
    [apply TextFacts.engine_only_call_toString|].
  intros s. apply TextFacts.engine_only_ret.
Qed.

Lemma query_of_engine_only request :
  Terms.engine_only W (Deepgram.query_of W request).
Proof.
  unfold Deepgram.query_of. cbv zeta.
  apply TextFacts.engine_only_bind; [apply TextFacts.engine_only_toString|].
  intros model. apply TextFacts.engine_only_bind;
    [apply query_entries_engine_only|].
  intros rest. apply TextFacts.engine_only_ret.
Qed.

Lemma query_entries_total translated :
  Terms.all_values (Terms.printable W) translated ->
  exists q, Deepgram.query_entries W translated = ret q.
Proof.
  unfold Deepgram.query_entries.
  assert (G : forall acc,
             Terms.all_values (Terms.printable W) translated ->
             exists q,
               fold_m translated
                 (fun acc '(key, value) =>
                    if JS.nullish value then ret acc
                    else s <- JS.call_toString W value ;;
                         ret (acc ++ [(key, s)])%list)
                 acc
               = ret q).
  { induction translated as [|[key value] translated IH]; intros acc H; simpl.
    - eauto.
    - inversion H as [|? ? Hv Ht]; subst. simpl in Hv.
      destruct (JS.nullish value) eqn:N.
      + rewrite MFacts.bind_ret. apply IH. exact Ht.
      + destruct (TextFacts.printable_call_toString W value Hv N) as (s & ->).
        rewrite !MFacts.bind_ret. apply IH. exact Ht. }
  apply G.
Qed.

Lemma prop_printable request name :
  printable_request request -> Terms.printable W (JS.prop request name).
Proof.
  intros H. unfold JS.prop.
  destruct (Object.lookup name request) eqn:E; [|discriminate].
  exact (ValuesFacts.of_lookup _ _ _ _ H E).
Qed.

Lemma query_of_total request :
  printable_request request -> exists q, Deepgram.query_of W request = ret q.
Proof.
  intros H. unfold Deepgram.query_of. cbv zeta.
  destruct (TextFacts.printable_toString W _ (prop_printable request "model" H))
    as (model & ->).
  rewrite MFacts.bind_lift_ok.
  destruct (query_entries_total _ (translate_printable (JS.prop request "model") request H))
    as (rest & ->).
  rewrite MFacts.bind_ret. eauto.
Qed.

Lemma deepgram_audio_unrecognized (file : JSValue) :
  recognized file = false ->
  Deepgram.audio_of W file
  = throw (ThrowASR (ASRError "Unsupported audio input type" "deepgram"
                       (Some "INVALID_INPUT"))).
Proof. destruct file; simpl; try discriminate; reflexivity. Qed.

End WithWorld.
End DeepgramFacts.

Module StreamFacts.

Lemma stream_outcome (file : JSValue) :
  outcome (OpenAI.audioFile file) = inr (OpenAI.audio_of file).
Proof. destruct file; reflexivity. Qed.

Lemma stream_quiet (file : JSValue) : no_remote_call (OpenAI.audioFile file).
Proof. destruct file; reflexivity. Qed.

(** What [build_request] hands over once validation has passed. *)
Lemma built (request : Obj JSValue) :
  outcome (OpenAI.validateParams (JS.prop request "model") request) = inr tt ->
  outcome (OpenAI.build_request request)
  = inr (Object.spread
           [("file", OpenAI.audio_of (JS.prop request "file"));
            ("model", OARaw (JS.prop request "model"))]
           (map (fun kv => (fst kv, OARaw (snd kv)))
              (OpenAI.translateParams (JS.prop request "model") request))).
Proof.
  intros V. unfold OpenAI.build_request. cbv zeta.
  rewrite (MFacts.outcome_bind_ok _ _ tt V).
  rewrite (MFacts.outcome_bind_ok _ _ _ (stream_outcome _)). reflexivity.
Qed.

(** On a path the stream is created after validation, before the SDK is
    called. *)
Lemma path_opens_stream :
  events (OpenAI.build_request
            [("model", JStr "whisper-1"); ("file", JStr "audio.wav")])
  = [EvWarn "Parameter 'model' may not be supported by OpenAI ASR";
     EvWarn "Parameter 'file' may not be supported by OpenAI ASR";
     EvCreateReadStream "audio.wav"].
Proof. reflexivity. Qed.

End StreamFacts.

Module AudioFacts.
Section WithWorld.
Context (W : World).

(** The Google adapter refuses an unrecognized file after validation. *)
Lemma google_refuses request options :
  recognized (JS.prop request "file") = false ->
  outcome (Google.transcribe W request options) = inl (invalid_input "google").
Proof.
  intros H. unfold Google.transcribe. apply MFacts.try_rewrap_asr.
  rewrite (MFacts.outcome_bind_ok _ _ tt) by apply ValidateFacts.google_passes.
  rewrite (GoogleFacts.google_audio_unrecognized W _ H). reflexivity.
Qed.

(** The Deepgram adapter, on an unrecognized file, stops before the network
    call: at the file if the query parameters have a text, at the first
    parameter without text otherwise. *)
Lemma deepgram_prepare_stops self request options :
  recognized (JS.prop request "file") = false ->
  no_remote_call (Deepgram.prepare W self request options)
  /\ (((exists q, outcome (Deepgram.query_of W request) = inr q)
       /\ outcome (Deepgram.prepare W self request options)
          = inl (invalid_input "deepgram"))
      \/ (exists k,
             outcome (Deepgram.query_of W request) = inl (JS.type_error W k)
             /\ outcome (Deepgram.prepare W self request options)
                = inl (JS.type_error W k))).
Proof.
  intros H. unfold Deepgram.prepare.
  destruct (DeepgramFacts.query_of_engine_only W request) as [Hev Hfail].
  split.
  - apply Quiet.of_bind; [apply ValidateFacts.deepgram_quiet|]. intros _ _.
    apply Quiet.of_bind; [apply Quiet.of_pure; exact Hev|]. intros q _.
    rewrite (DeepgramFacts.deepgram_audio_unrecognized W _ H). reflexivity.
  - rewrite (MFacts.outcome_bind_ok _ _ tt)
      by apply ValidateFacts.deepgram_passes.
    destruct (outcome (Deepgram.query_of W request)) as [e|q] eqn:E.
    + right. destruct (Hfail e eq_refl) as (k & ->). exists k.
      split; [reflexivity|]. apply MFacts.outcome_bind_fail. exact E.
    + left. split; [eauto|].
      rewrite (MFacts.outcome_bind_ok _ _ q E).
      rewrite (DeepgramFacts.deepgram_audio_unrecognized W _ H). reflexivity.
Qed.

(** Once validation has passed, the OpenAI adapter calls the SDK. *)
Lemma openai_calls_sdk request options :
  (forall k, In k (Object.keys request) ->
             k <> "word_confidence" /\ k <> "speaker_labels") ->
  exists sent,
    outcome (OpenAI.build_request request) = inr sent
    /\ In (EvOpenAICreate sent) (events (OpenAI.transcribe W request options)).
Proof.
  intros H.
  assert (V : outcome (OpenAI.validateParams (JS.prop request "model") request)
              = inr tt).
  { apply ValidateFacts.openai_passes. intros k Hk.
    destruct (mem k OpenAI.unsupported) eqn:E; [|reflexivity].
    apply ValidateFacts.unsupported_iff in E. destruct (H k Hk). tauto. }
  eexists. split.
  - exact (StreamFacts.built request V).
  - unfold OpenAI.transcribe. fold (events (A:=TranscriptionResult)).
    rewrite MFacts.try_rewrap_events.
    erewrite MFacts.events_bind_ok.
    2:{ exact (StreamFacts.built request V). }
    apply in_or_app. right. unfold OpenAI.send. rewrite MFacts.bind_emit.
    left. reflexivity.
Qed.

End WithWorld.
End AudioFacts.

(** C4, as the code has it. When the file of a request is neither a path,
    nor a buffer, nor a byte array: the Google adapter fails, without remote
    call, with an [ASRError] of code [INVALID_INPUT] and message
    [Unsupported audio input type]; so does the Deepgram adapter when every
    value of the request has a text, and otherwise it still fails without
    remote call with an [ASRError] of code [INVALID_INPUT] or [API_ERROR]. *)
Theorem unrecognized_file_handling :
  forall (W : World) (request : Obj JSValue) (options : option RequestOptions),
    recognized (JS.prop request "file") = false ->
    (outcome (Google.transcribe W request options)
     = inl (ThrowASR (mkASRError "ASRError" "Unsupported audio input type"
                        "google" (Some "INVALID_INPUT")))
     /\ no_remote_call (Google.transcribe W request options))
    /\ (forall self : Deepgram.Instance,
           no_remote_call (Deepgram.transcribe W self request options)
           /\ (Terms.printable_request W request ->
               outcome (Deepgram.transcribe W self request options)
               = inl (ThrowASR
                        (mkASRError "ASRError" "Unsupported audio input type"
                           "deepgram" (Some "INVALID_INPUT"))))
           /\ exists e,
               outcome (Deepgram.transcribe W self request options)
               = inl (ThrowASR e)
               /\ err_provider e = "deepgram"
               /\ (err_code e = Some "INVALID_INPUT"
                   \/ err_code e = Some "API_ERROR")).
Proof.
  intros W request options H. split.
  - split; [exact (AudioFacts.google_refuses W request options H)|].
    apply GoogleFacts.transcribe_quiet.
  - intros self.
    destruct (AudioFacts.deepgram_prepare_stops W self request options H)
      as [Hq Hcases].
    assert (Hfail : exists x,
               outcome (Deepgram.prepare W self request options) = inl x).
    { destruct Hcases as [[_ E] | (k & _ & E)]; eauto. }
    split; [|split].
    + apply Quiet.of_try. destruct Hfail as (x & Hx).
      exact (Quiet.of_failure _ _ x Hq Hx).
    + intros Hp. unfold Deepgram.transcribe. apply MFacts.try_rewrap_asr.
      apply MFacts.outcome_bind_fail.
      destruct Hcases as [[_ E] | (k & Hk & _)]; [exact E|].
      destruct (DeepgramFacts.query_of_total W request Hp) as (q & Hq').
      rewrite Hq' in Hk. discriminate.
    + unfold Deepgram.transcribe.
      destruct Hcases as [[_ E] | (k & _ & E)].
      * exists (mkASRError "ASRError" "Unsupported audio input type"
                  "deepgram" (Some "INVALID_INPUT")).
        split; [|split; [reflexivity | left; reflexivity]].
        apply MFacts.try_rewrap_asr. apply MFacts.outcome_bind_fail. exact E.
      * exists (ASRError ("Deepgram ASR error: " ++ typeErrorMessage W k)
                  "deepgram" (Some "API_ERROR")).
        split; [|split; [reflexivity | right; reflexivity]].
        apply (MFacts.try_rewrap_error _ _ _ "TypeError").
        apply MFacts.outcome_bind_fail. exact E.
Qed.

(** [unrecognized_file_handling] on the invalid object of the error
    handling example, [{invalid: 'object'}]. *)
Lemma unrecognized_file_handling_witness :
  outcome (Google.transcribe Sample.sdk_only Sample.invalid_file_request None)
  = inl (ThrowASR (mkASRError "ASRError" "Unsupported audio input type"
                     "google" (Some "INVALID_INPUT")))
  /\ outcome (Deepgram.transcribe Sample.sdk_only Sample.deepgram
                Sample.invalid_file_request None)
     = inl (ThrowASR (mkASRError "ASRError" "Unsupported audio input type"
                        "deepgram" (Some "INVALID_INPUT"))).
Proof.
  destruct (unrecognized_file_handling Sample.sdk_only
              Sample.invalid_file_request None eq_refl)
    as ((G & _) & D).
  split; [exact G|].
  apply (D Sample.deepgram). repeat constructor; discriminate.
Defined.

(** On the same request the OpenAI adapter refuses nothing: validation
    passes and the SDK is called. *)
Lemma openai_forwards_invalid_file :
  exists sent,
    In (EvOpenAICreate sent)
      (events (OpenAI.transcribe Sample.sdk_only
                 Sample.invalid_file_request None))
    /\ Object.lookup "file" sent
       = Some (OARaw (JObj [("invalid", JStr "object")])).
Proof. eexists. split; [right; right; left; reflexivity | reflexivity]. Qed.

(** C4 fails as stated: on a [null] file the Deepgram adapter fails with a
    plain [ASRError] of code [INVALID_INPUT], not with an
    [AudioProcessingError] of code [AUDIO_PROCESSING_ERROR]. *)
Lemma unrecognized_file_code_is_invalid_input :
  recognized JNull = false
  /\ outcome (Deepgram.transcribe Sample.isolated Sample.deepgram
                [("model", JStr "nova-2"); ("file", JNull)] None)
     = inl (ThrowASR (mkASRError "ASRError" "Unsupported audio input type"
                        "deepgram" (Some "INVALID_INPUT")))
  /\ mkASRError "ASRError" "Unsupported audio input type" "deepgram"
       (Some "INVALID_INPUT")
     <> AudioProcessingError "Unsupported audio input type" "deepgram".
Proof. repeat split. discriminate. Qed.

(** ** Responses of the remote services *)

Module ResponseFacts.
Section WithWorld.
Context (W : World).

Lemma get_defined (v : JSValue) (name : string) :
  JS.nullish v = false -> JS.get W v name = ret (JS.get_opt v name).
Proof. destruct v; simpl; try discriminate; reflexivity. Qed.

Lemma get_nullish (v : JSValue) (name : string) :
  JS.nullish v = true ->
  JS.get W v name = throw (JS.type_error W (TE_ReadProperty v name)).
Proof. destruct v; simpl; try discriminate; reflexivity. Qed.

Lemma deepgram_adapt_nullish (response : JSValue) :
  JS.nullish response = true ->
  Deepgram.adaptResponse W response
  = throw (JS.type_error W (TE_ReadProperty response "results")).
Proof.
  intros H. unfold Deepgram.adaptResponse, Deepgram.first_alternative.
  rewrite (get_nullish _ _ H). reflexivity.
Qed.

Lemma deepgram_adapt_fallback (response : JSValue) :
  JS.nullish response = false ->
  JS.truthy (deepgram_probe response) = false ->
  Deepgram.adaptResponse W response = ret (deepgram_fallback response).
Proof.
  intros H P. unfold Deepgram.adaptResponse, Deepgram.first_alternative.
  rewrite (get_defined _ _ H), !MFacts.bind_ret.
  fold (deepgram_probe response). rewrite P.
  rewrite (get_defined _ _ H), MFacts.bind_ret. reflexivity.
Qed.

(** The four ways the network stage of the Deepgram adapter ends. *)
Lemma deepgram_send_cases (init : FetchRequest) :
  match fetch W init with
  | inl e => outcome (Deepgram.send W init) = inl e
  | inr response =>
      if resp_ok response then
        match resp_json response with
        | inl e => outcome (Deepgram.send W init) = inl e
        | inr body =>
            outcome (Deepgram.send W init)
            = outcome (Deepgram.adaptResponse W body)
        end
      else
        outcome (Deepgram.send W init)
        = inl (ThrowASR
                 (ASRError
                    ("Deepgram API error: "
                       ++ Num.N_to_string (resp_status response) ++ " "
                       ++ resp_statusText response)
                    "deepgram" (Some "API_ERROR")))
  end.
Proof.
  unfold Deepgram.send.
  rewrite (MFacts.outcome_bind_ok _ _ tt) by reflexivity.
  destruct (fetch W init) as [e|response]; [reflexivity|].
  rewrite MFacts.bind_lift_ok.
  destruct (resp_ok response); simpl negb; unfold when; [|reflexivity].
  rewrite MFacts.bind_ret.
  destruct (resp_json response) as [e|body]; [reflexivity|].
  rewrite MFacts.bind_lift_ok. reflexivity.
Qed.

Lemma deepgram_transcribe_sends self request options evs init :
  Deepgram.prepare W self request options = (evs, inr init) ->
  outcome (Deepgram.transcribe W self request options)
  = outcome (try_catch (Deepgram.send W init)
               (rewrap "Deepgram ASR error: " "deepgram")).
Proof.
  intros H. unfold Deepgram.transcribe. rewrite H.
  unfold bind, try_catch, outcome.
  destruct (Deepgram.send W init) as [evs' [e|a]]; simpl.
  - destruct (rewrap _ _ e) as [evs2 r]. reflexivity.
  - reflexivity.
Qed.

Lemma openai_adapt_nullish (response : JSValue) :
  JS.nullish response = true ->
  OpenAI.adaptResponse W response
  = throw (JS.type_error W (TE_ReadProperty response "words")).
Proof.
  intros H. unfold OpenAI.adaptResponse.
  rewrite (get_nullish _ _ H). reflexivity.
Qed.

Lemma openai_adapt_plain (response : JSValue) :
  JS.nullish response = false ->
  JS.truthy (JS.get_opt response "words") = false ->
  JS.truthy (JS.get_opt response "segments") = false ->
  OpenAI.adaptResponse W response = ret (openai_plain_result response).
Proof.
  intros H Hw Hs. unfold OpenAI.adaptResponse.
  rewrite !(get_defined _ _ H), !MFacts.bind_ret, Hw, MFacts.bind_ret.
  rewrite MFacts.bind_ret, Hs, !MFacts.bind_ret. reflexivity.
Qed.

Lemma openai_send_cases (sent : Obj OAValue) :
  match openaiCreate W sent with
  | inl e => outcome (OpenAI.send W sent) = inl e
  | inr body =>
      outcome (OpenAI.send W sent) = outcome (OpenAI.adaptResponse W body)
  end.
Proof.
  unfold OpenAI.send.
  rewrite (MFacts.outcome_bind_ok _ _ tt) by reflexivity.
  destruct (openaiCreate W sent) as [e|body]; [reflexivity|].
  rewrite MFacts.bind_lift_ok. reflexivity.
Qed.

Lemma openai_transcribe_sends request options evs sent :
  OpenAI.build_request request = (evs, inr sent) ->
  outcome (OpenAI.transcribe W request options)
  = outcome (try_catch (OpenAI.send W sent)
               (rewrap "OpenAI ASR error: " "openai")).
Proof.
  intros H. unfold OpenAI.transcribe. rewrite H.
  unfold bind, try_catch, outcome.
  destruct (OpenAI.send W sent) as [evs' [e|a]]; simpl.
  - destruct (rewrap _ _ e) as [evs2 r]. reflexivity.
  - reflexivity.
Qed.

End WithWorld.
End ResponseFacts.

(** ** What [adaptResponse] can do *)

Module PureFacts.
Section WithWorld.
Context (W : World).
Local Abbreviation engine_only := (Terms.engine_only W) (only parsing).

Lemma of_throw {A} (k : TypeErrorKind) :
  engine_only (throw (A:=A) (JS.type_error W k)).
Proof. split; [reflexivity|]. intros e H. injection H as <-. eauto. Qed.

Lemma of_get (v : JSValue) (name : string) : engine_only (JS.get W v name).
Proof.
  destruct v; simpl; first [apply of_throw | apply TextFacts.engine_only_ret].
Qed.

Lemma of_index0 (v : JSValue) : engine_only (JS.index0 W v).
Proof.
  unfold JS.index0. destruct (JS.nullish v);
    [apply of_throw | apply TextFacts.engine_only_ret].
Qed.

Lemma of_call_toString_opt (v : JSValue) :
  engine_only (JS.call_toString_opt W v).
Proof.
  unfold JS.call_toString_opt. destruct (JS.nullish v);
    [apply TextFacts.engine_only_ret|].
  apply TextFacts.engine_only_bind;
    [apply TextFacts.engine_only_call_toString|].
  intros s. apply TextFacts.engine_only_ret.
Qed.

Lemma of_parseFloat (v : JSValue) : engine_only (JS.parseFloat W v).
Proof.
  unfold JS.parseFloat. apply TextFacts.engine_only_bind;
    [apply TextFacts.engine_only_toString|].
  intros s. apply TextFacts.engine_only_ret.
Qed.

Lemma of_collect {A} (v : JSValue) (f : JSValue -> M A) :
  (forall x, engine_only (f x)) -> engine_only (JS.collect W v f).
Proof.
  intros H.
  assert (R : forall l,
             engine_only
               (fold_m l (fun acc x => y <- f x ;; ret (acc ++ [y])%list) [])).
  { intros l. apply TextFacts.engine_only_fold. intros acc x.
    apply TextFacts.engine_only_bind; [apply H|].
    intros y. apply TextFacts.engine_only_ret. }
  destruct v; simpl; first [apply of_throw | apply R].
Qed.

Lemma of_if {A} (b : bool) (m1 m2 : M A) :
  engine_only m1 -> engine_only m2 -> engine_only (if b then m1 else m2).
Proof. destruct b; auto. Qed.

Ltac pure_steps :=
  repeat first
    [ apply TextFacts.engine_only_ret
    | apply of_get
    | apply of_index0
    | apply of_call_toString_opt
    | apply of_parseFloat
    | apply TextFacts.engine_only_toString
    | apply of_throw
    | apply of_if
    | (apply TextFacts.engine_only_bind; [|intro]) ].

Lemma openai_word_pure (word : JSValue) : engine_only (OpenAI.word_of W word).
Proof. unfold OpenAI.word_of. pure_steps. Qed.

Lemma openai_segment_pure (segment : JSValue) :
  engine_only (OpenAI.segment_of W segment).
Proof. unfold OpenAI.segment_of. pure_steps. Qed.

Lemma openai_adapt_pure (response : JSValue) :
  engine_only (OpenAI.adaptResponse W response).
Proof.
  unfold OpenAI.adaptResponse. pure_steps.
  - apply of_collect. exact openai_word_pure.
  - apply of_collect. exact openai_segment_pure.
Qed.

Lemma deepgram_word_pure (word : JSValue) :
  engine_only (Deepgram.word_of W word).
Proof. unfold Deepgram.word_of. pure_steps. Qed.

Lemma deepgram_segment_pure (utterance : JSValue) :
  engine_only (Deepgram.segment_of W utterance).
Proof. unfold Deepgram.segment_of. pure_steps. Qed.

Lemma deepgram_adapt_pure (response : JSValue) :
  engine_only (Deepgram.adaptResponse W response).
Proof.
  unfold Deepgram.adaptResponse, Deepgram.first_alternative. pure_steps.
  - apply of_collect. exact deepgram_word_pure.
  - apply of_collect. exact deepgram_segment_pure.
Qed.

Lemma google_offset_pure (t : JSValue) : engine_only (Google.offset_of W t).
Proof. unfold Google.offset_of. pure_steps. Qed.

Lemma google_word_pure (word : JSValue) : engine_only (Google.word_of W word).
Proof.
  unfold Google.word_of.
  repeat first
    [ apply TextFacts.engine_only_ret
    | apply of_get
    | apply google_offset_pure
    | apply of_call_toString_opt
    | (apply TextFacts.engine_only_bind; [|intro]) ].
Qed.

Lemma google_visit_pure (acc : Google.Acc) (result : JSValue) :
  engine_only (Google.visit_result W acc result).
Proof.
  unfold Google.visit_result.
  repeat first
    [ apply TextFacts.engine_only_ret
    | apply of_get
    | apply google_offset_pure
    | apply TextFacts.engine_only_toString
    | apply of_if
    | (apply of_collect; exact google_word_pure)
    | (apply TextFacts.engine_only_bind; [|intro]) ].
Qed.

Lemma google_adapt_pure (response : JSValue) :
  engine_only (Google.adaptResponse W response).
Proof.
  unfold Google.adaptResponse.
  apply TextFacts.engine_only_bind; [apply of_get|]. intros results.
  apply TextFacts.engine_only_bind; [|intro; apply TextFacts.engine_only_ret].
  apply of_if; [|apply TextFacts.engine_only_ret].
  destruct results;
    first [ apply of_throw
          | apply TextFacts.engine_only_fold; intros; apply google_visit_pure ].
Qed.

End WithWorld.
End PureFacts.

(** ** Bodies of the remote services *)

Module BodyFacts.
Section WithWorld.
Context (W : World).

(** How [transcribe] ends once the body has been adapted. *)
Lemma wrapped {A} (m : M A) (label name : string) :
  Terms.engine_only W m ->
  (forall r, outcome m = inr r ->
             outcome (try_catch m (rewrap label name)) = inr r)
  /\ (forall e, outcome m = inl e ->
                exists k,
                  e = JS.type_error W k
                  /\ outcome (try_catch m (rewrap label name))
                     = inl (ThrowASR
                              (ASRError (label ++ typeErrorMessage W k) name
                                 (Some "API_ERROR")))).
Proof.
  intros [_ Hfail]. split.
  - intros r Hr. exact (MFacts.try_rewrap_ok _ _ _ _ Hr).
  - intros e He. destruct (Hfail e He) as (k & ->). exists k.
    split; [reflexivity|].
    exact (MFacts.try_rewrap_error _ _ _ "TypeError" _ He).
Qed.

Lemma same_outcome {A} (m1 m2 : M A) (label name : string) :
  outcome m1 = outcome m2 ->
  outcome (try_catch m1 (rewrap label name))
  = outcome (try_catch m2 (rewrap label name)).
Proof.
  destruct m1 as [e1 r1], m2 as [e2 r2]. simpl. intros ->.
  destruct r2 as [x|a]; simpl; [|reflexivity].
  destruct x; reflexivity.
Qed.

End WithWorld.
End BodyFacts.

(** C5, as the code has it. Once an adapter has reached its remote call: a
    call that fails with an [Error], a status that is not OK (Deepgram), a
    body that cannot be read, and a body that is [null] or [undefined] each
    make [transcribe] fail with an [ASRError] of code [API_ERROR] whose
    message ends with the message of the failure. Any other body is handed
    to [adaptResponse], which checks no shape. When [adaptResponse] throws
    on it, which it only does with a TypeError of the engine (as on a list
    of words that holds [null]), [transcribe] fails with an [ASRError] of
    code [API_ERROR] whose message ends with the message of that TypeError;
    when [adaptResponse] returns, [transcribe] returns that result as it
    is. In particular, on a body that is neither [null] nor [undefined],
    the Deepgram adapter returns its fallback result (the [transcript] of
    the body or the empty text, language [unknown], no confidence, no
    words, no segments) when the body has no first alternative of a first
    channel, and the OpenAI adapter returns the [text], [language] (or
    [unknown]) and [confidence] of the body, whatever they are, with no
    words and no segments, when the [words] and the [segments] of the body
    are falsy. *)
Theorem remote_response_handling :
  forall W : World,
    (forall self request options evs init,
        Deepgram.prepare W self request options = (evs, inr init) ->
        (forall kind message,
            fetch W init = inl (ThrowError kind message) ->
            outcome (Deepgram.transcribe W self request options)
            = inl (ThrowASR (ASRError ("Deepgram ASR error: " ++ message)
                               "deepgram" (Some "API_ERROR"))))
        /\ (forall response,
               fetch W init = inr response -> resp_ok response = false ->
               outcome (Deepgram.transcribe W self request options)
               = inl (ThrowASR
                        (ASRError
                           ("Deepgram API error: "
                              ++ Num.N_to_string (resp_status response) ++ " "
                              ++ resp_statusText response)
                           "deepgram" (Some "API_ERROR"))))
        /\ (forall response kind message,
               fetch W init = inr response -> resp_ok response = true ->
               resp_json response = inl (ThrowError kind message) ->
               outcome (Deepgram.transcribe W self request options)
               = inl (ThrowASR (ASRError ("Deepgram ASR error: " ++ message)
                                  "deepgram" (Some "API_ERROR"))))
        /\ (forall response body,
               fetch W init = inr response -> resp_ok response = true ->
               resp_json response = inr body ->
               (JS.nullish body = true ->
                outcome (Deepgram.transcribe W self request options)
                = inl (ThrowASR
                         (ASRError
                            ("Deepgram ASR error: "
                               ++ typeErrorMessage W
                                    (TE_ReadProperty body "results"))
                            "deepgram" (Some "API_ERROR"))))
               /\ (forall e,
                      outcome (Deepgram.adaptResponse W body) = inl e ->
                      exists k,
                        e = JS.type_error W k
                        /\ outcome (Deepgram.transcribe W self request options)
                           = inl (ThrowASR
                                    (ASRError
                                       ("Deepgram ASR error: "
                                          ++ typeErrorMessage W k)
                                       "deepgram" (Some "API_ERROR"))))
               /\ (forall r,
                      outcome (Deepgram.adaptResponse W body) = inr r ->
                      outcome (Deepgram.transcribe W self request options)
                      = inr r)
               /\ (JS.nullish body = false ->
                   JS.truthy (Terms.deepgram_probe body) = false ->
                   outcome (Deepgram.transcribe W self request options)
                   = inr (Terms.deepgram_fallback body))))
    /\ (forall request options evs sent,
           OpenAI.build_request request = (evs, inr sent) ->
           (forall kind message,
               openaiCreate W sent = inl (ThrowError kind message) ->
               outcome (OpenAI.transcribe W request options)
               = inl (ThrowASR (ASRError ("OpenAI ASR error: " ++ message)
                                  "openai" (Some "API_ERROR"))))
           /\ (forall body,
                  openaiCreate W sent = inr body ->
                  (JS.nullish body = true ->
                   outcome (OpenAI.transcribe W request options)
                   = inl (ThrowASR
                            (ASRError
                               ("OpenAI ASR error: "
                                  ++ typeErrorMessage W
                                       (TE_ReadProperty body "words"))
                               "openai" (Some "API_ERROR"))))
                  /\ (forall e,
                         outcome (OpenAI.adaptResponse W body) = inl e ->
                         exists k,
                           e = JS.type_error W k
                           /\ outcome (OpenAI.transcribe W request options)
                              = inl (ThrowASR
                                       (ASRError
                                          ("OpenAI ASR error: "
                                             ++ typeErrorMessage W k)
                                          "openai" (Some "API_ERROR"))))
                  /\ (forall r,
                         outcome (OpenAI.adaptResponse W body) = inr r ->
                         outcome (OpenAI.transcribe W request options)
                         = inr r)
                  /\ (JS.nullish body = false ->
                      JS.truthy (JS.get_opt body "words") = false ->
                      JS.truthy (JS.get_opt body "segments") = false ->
                      outcome (OpenAI.transcribe W request options)
                      = inr (Terms.openai_plain_result body)))).
Proof.
  intros W. split.
  - intros self request options evs init Hprep.
    rewrite (ResponseFacts.deepgram_transcribe_sends W _ _ _ _ _ Hprep).
    pose proof (ResponseFacts.deepgram_send_cases W init) as Hsend.
    split; [|split; [|split]].
    + intros kind message Hf. rewrite Hf in Hsend.
      exact (MFacts.try_rewrap_error _ _ _ kind message Hsend).
    + intros response Hf Hok. rewrite Hf, Hok in Hsend.
      exact (MFacts.try_rewrap_asr _ _ _ _ Hsend).
    + intros response kind message Hf Hok Hj. rewrite Hf, Hok, Hj in Hsend.
      exact (MFacts.try_rewrap_error _ _ _ kind message Hsend).
    + intros response body Hf Hok Hj. rewrite Hf, Hok, Hj in Hsend.
      pose proof (BodyFacts.wrapped W _ "Deepgram ASR error: " "deepgram"
                    (PureFacts.deepgram_adapt_pure W body)) as [Hres Herr].
      rewrite (BodyFacts.same_outcome _ _ _ _ Hsend).
      split; [|split; [exact Herr | split; [exact Hres|]]].
      * intros Hnull. apply (MFacts.try_rewrap_error _ _ _ "TypeError").
        rewrite (ResponseFacts.deepgram_adapt_nullish W _ Hnull). reflexivity.
      * intros Hdef Hprobe. apply Hres.
        rewrite (ResponseFacts.deepgram_adapt_fallback W _ Hdef Hprobe).
        reflexivity.
  - intros request options evs sent Hbuild.
    rewrite (ResponseFacts.openai_transcribe_sends W _ _ _ _ Hbuild).
    pose proof (ResponseFacts.openai_send_cases W sent) as Hsend.
    split.
    + intros kind message Hf. rewrite Hf in Hsend.
      exact (MFacts.try_rewrap_error _ _ _ kind message Hsend).
    + intros body Hf. rewrite Hf in Hsend.
      pose proof (BodyFacts.wrapped W _ "OpenAI ASR error: " "openai"
                    (PureFacts.openai_adapt_pure W body)) as [Hres Herr].
      rewrite (BodyFacts.same_outcome _ _ _ _ Hsend).
      split; [|split; [exact Herr | split; [exact Hres|]]].
      * intros Hnull. apply (MFacts.try_rewrap_error _ _ _ "TypeError").
        rewrite (ResponseFacts.openai_adapt_nullish W _ Hnull). reflexivity.
      * intros Hdef Hw Hs. apply Hres.
        rewrite (ResponseFacts.openai_adapt_plain W _ Hdef Hw Hs).
        reflexivity.
Qed.

(** [remote_response_handling] on a request that carries a buffer: with the
    network down the Deepgram adapter reports the failure of [fetch]; with
    a service that answers [{}] it returns the fallback result; and with an
    SDK that answers a list of words holding [null], the OpenAI adapter
    reports the TypeError of reading a property of [null]. *)
Lemma remote_response_handling_witness :
  outcome (Deepgram.transcribe Sample.isolated Sample.deepgram
             Sample.buffer_request None)
  = inl (ThrowASR (ASRError "Deepgram ASR error: fetch failed" "deepgram"
                     (Some "API_ERROR")))
  /\ outcome (Deepgram.transcribe Sample.empty_answer Sample.deepgram
                Sample.buffer_request None)
     = inr (Terms.deepgram_fallback (JObj []))
  /\ (exists k,
         outcome (OpenAI.transcribe Cases.null_word_sdk Sample.whisper_request
                    None)
         = inl (ThrowASR
                  (ASRError ("OpenAI ASR error: " ++ Sample.v8_message k)
                     "openai" (Some "API_ERROR")))).
Proof.
  split; [|split].
  - refine (proj1 (proj1 (remote_response_handling Sample.isolated)
                     Sample.deepgram Sample.buffer_request None _ _ eq_refl)
              "TypeError" "fetch failed" eq_refl).
  - refine (proj2 (proj2 (proj2 (proj2 (proj2 (proj2
              (proj1 (remote_response_handling Sample.empty_answer)
                 Sample.deepgram Sample.buffer_request None _ _ eq_refl)))
              _ (JObj []) eq_refl eq_refl eq_refl))) eq_refl eq_refl).
  - destruct (proj1 (proj2 (proj2
                (proj2 (remote_response_handling Cases.null_word_sdk)
                   Sample.whisper_request None _ _ eq_refl)
                _ eq_refl))
                _ eq_refl) as (k & _ & H).
    exists k. exact H.
Defined.

(** C5 fails as stated: a service that answers [{}], which is not a
    transcription, makes the Deepgram adapter return a result with an empty
    text, no words and no segments, and no error. *)
Lemma unexpected_body_gives_empty_result :
  outcome (Deepgram.transcribe Sample.empty_answer Sample.deepgram
             Sample.buffer_request None)
  = inr (mkResult (JStr EmptyString) (JStr "unknown") JUndefined [] []).
Proof. reflexivity. Qed.

(** C8 on the OpenAI adapter: [transcribe] does not read its options. With
    any options, a timeout among them, it is the computation it is without
    options; with a timeout of one second, the SDK receives the request and
    nothing derived from the timeout. *)
Theorem openai_transcribe_ignores_options :
  (forall (W : World) (request : Obj JSValue)
          (options : option RequestOptions),
      OpenAI.transcribe W request options = OpenAI.transcribe W request None)
  /\ events (OpenAI.transcribe Sample.sdk_only Sample.whisper_request
               (Some (mkOptions (Some 1000%float) None)))
     = [EvWarn "Parameter 'model' may not be supported by OpenAI ASR";
        EvWarn "Parameter 'file' may not be supported by OpenAI ASR";
        EvOpenAICreate
          [("file", OARaw (JBuffer Sample.audio));
           ("model", OARaw (JStr "whisper-1"))]].
Proof. split; reflexivity. Qed.

(** The Deepgram adapter, for comparison, attaches the abort signal of a
    timeout that is not zero. *)
Lemma deepgram_attaches_timeout :
  events (Deepgram.transcribe Sample.empty_answer Sample.deepgram
            Sample.buffer_request (Some (mkOptions (Some 1000%float) None)))
  = [EvWarn "Parameter 'model' may not be supported by Deepgram ASR";
     EvWarn "Parameter 'file' may not be supported by Deepgram ASR";
     EvFetch
       (mkFetch
          "https://api.deepgram.com/v1/listen?model=nova-2&model=nova-2&file=RIFF"
          "POST"
          [("Authorization", "Token k"); ("Content-Type", "audio/wav")]
          Sample.audio (Some (SignalTimeout 1000)))].
Proof. reflexivity. Qed.

(** ** Keys of objects *)

Module KeysFacts.
Section Facts.
Context {V : Type}.
Implicit Types (o : Obj V) (k : string) (v : V).

Lemma keys_replace k v o : Object.keys (Object.replace k v o) = Object.keys o.
Proof.
  induction o as [|[k0 v0] o IH]; simpl; [reflexivity|].
  destruct (String.eqb k0 k); simpl; [reflexivity | rewrite IH; reflexivity].
Qed.

Lemma lookup_none k o : Object.lookup k o = None -> ~ In k (Object.keys o).
Proof.
  induction o as [|[k0 v0] o IH]; simpl; intros H; [tauto|].
  destruct (String.eqb k0 k) eqn:E; [discriminate|].
  apply String.eqb_neq in E. intros [C | C]; [congruence | exact (IH H C)].
Qed.

Lemma lookup_in k v o : Object.lookup k o = Some v -> In (k, v) o.
Proof.
  induction o as [|[k0 v0] o IH]; simpl; intros H; [discriminate|].
  destruct (String.eqb k0 k) eqn:E.
  - apply String.eqb_eq in E. injection H as <-. left. congruence.
  - right. exact (IH H).
Qed.

Lemma in_lookup k v o :
  NoDup (Object.keys o) -> In (k, v) o -> Object.lookup k o = Some v.
Proof.
  induction o as [|[k0 v0] o IH]; simpl; intros ND H; [contradiction|].
  inversion ND as [|? ? Hnot ND']; subst.
  destruct H as [H | H].
  - injection H as -> ->. rewrite String.eqb_refl. reflexivity.
  - destruct (String.eqb k0 k) eqn:E; [|exact (IH ND' H)].
    apply String.eqb_eq in E. subst k0. exfalso. apply Hnot.
    exact (in_map fst _ _ H).
Qed.

Lemma keys_insert n k v o x :
  In x (Object.keys (Object.insert_index n k v o))
  <-> x = k \/ In x (Object.keys o).
Proof.
  induction o as [|[k0 v0] o IH]; simpl.
  - intuition congruence.
  - destruct (Object.array_index k0) as [n'|];
      [destruct (N.ltb n' n)|]; simpl; try rewrite IH; intuition congruence.
Qed.

Lemma nodup_insert n k v o :
  ~ In k (Object.keys o) -> NoDup (Object.keys o) ->
  NoDup (Object.keys (Object.insert_index n k v o)).
Proof.
  induction o as [|[k0 v0] o IH]; simpl; intros Hk ND.
  - constructor; [tauto | constructor].
  - inversion ND as [|? ? Hnot ND']; subst.
    assert (Fresh : NoDup (k :: k0 :: Object.keys o)).
    { constructor; [exact Hk | exact ND]. }
    destruct (Object.array_index k0) as [n'|];
      [destruct (N.ltb n' n)|]; simpl; try exact Fresh.
    constructor.
    + rewrite keys_insert. intros [-> | C]; [apply Hk; left; reflexivity|].
      exact (Hnot C).
    + apply IH; [|exact ND']. intros C. apply Hk. right. exact C.
Qed.

Lemma nodup_define k v o :
  NoDup (Object.keys o) -> NoDup (Object.keys (Object.define k v o)).
Proof.
  intros ND. unfold Object.define, Object.has_key.
  destruct (Object.lookup k o) eqn:E.
  - rewrite keys_replace. exact ND.
  - apply lookup_none in E. destruct (Object.array_index k).
    + apply nodup_insert; assumption.
    + unfold Object.keys. rewrite map_app. simpl.
      apply NoDup_app; [exact ND | constructor; [tauto | constructor] |].
      intros x Hx [<- | []]. exact (E Hx).
Qed.

Lemma nodup_set k v o :
  NoDup (Object.keys o) -> NoDup (Object.keys (Object.set k v o)).
Proof.
  intros ND. unfold Object.set.
  destruct (String.eqb k "__proto__" && negb (Object.has_key k o))%bool;
    [exact ND | exact (nodup_define k v o ND)].
Qed.

(** A spread binds every key of its source to the value it has there. *)
Lemma lookup_spread (target src : Obj V) k v :
  NoDup (Object.keys src) -> Object.lookup k src = Some v ->
  Object.lookup k (Object.spread target src) = Some v.
Proof.
  intros ND H. unfold Object.spread.
  apply (TranslateFacts.fold_sets _ k v v src ND (lookup_in k v src H)).
  - intros acc. simpl. apply ObjectFacts.lookup_define_same.
  - intros [k0 v0] acc _ N. simpl in *.
    apply ObjectFacts.lookup_define_other. congruence.
Qed.

End Facts.

Ltac nodup_sets :=
  repeat match goal with
    | |- context [if ?c then _ else _] => destruct c
    end;
  repeat apply nodup_set; assumption.

Lemma nodup_fold (step : Obj JSValue -> string * JSValue -> Obj JSValue)
  (params : Obj JSValue) :
  (forall translated entry,
      NoDup (Object.keys translated) ->
      NoDup (Object.keys (step translated entry))) ->
  forall init,
    NoDup (Object.keys init) ->
    NoDup (Object.keys (fold_left step params init)).
Proof.
  intros H. induction params as [|entry params IH]; intros init ND; simpl;
    [exact ND | apply IH, H, ND].
Qed.

Lemma nodup_openai model params :
  NoDup (Object.keys (OpenAI.translateParams model params)).
Proof.
  apply nodup_fold; [|constructor]. intros tr [key value] ND.
  unfold OpenAI.translate_entry. nodup_sets.
Qed.

Lemma nodup_deepgram model params :
  NoDup (Object.keys (Deepgram.translateParams model params)).
Proof.
  apply nodup_fold; [|constructor]. intros tr [key value] ND.
  unfold Deepgram.translate_entry. nodup_sets.
Qed.

Lemma nodup_google model params :
  NoDup (Object.keys (Google.translateParams model params)).
Proof.
  apply nodup_fold; [|constructor]. intros tr [key value] ND.
  unfold Google.translate_entry. nodup_sets.
Qed.

End KeysFacts.

(** ** What reaches the backend *)

Module ForwardFacts.

Lemma outcome_bind_inv {A B} (m : M A) (f : A -> M B) (b : B) :
  outcome (bind m f) = inr b ->
  exists a, outcome m = inr a /\ outcome (f a) = inr b.
Proof.
  destruct m as [evs [e|a]]; simpl; [discriminate|].
  intros H. exists a. split; [reflexivity|].
  destruct (f a) as [evs' r]. exact H.
Qed.

Section Translation.
Context (request : Obj JSValue) (ND : NoDup (Object.keys request)).
Context (t : string) (v : JSValue) (Ht : Terms.passes_through t).
Context (Hv : Object.lookup t request = Some v).

Lemma not_prefixed prefix k :
  no_prefixed prefix request -> In k (Object.keys request) ->
  k <> prefix ++ t.
Proof.
  intros H Hk. destruct (H k Hk) as [A B]. destruct Ht as [-> | ->]; assumption.
Qed.

Lemma openai_translated model :
  no_prefixed "openai_" request ->
  Object.lookup t (OpenAI.translateParams model request) = Some v.
Proof.
  intros H. unfold OpenAI.translateParams.
  apply (TranslateFacts.fold_sets _ t v v request ND
           (KeysFacts.lookup_in t v request Hv)).
  - intros tr. apply TranslateFacts.openai_sets_plain. exact Ht.
  - intros [key value] tr Hin N. simpl in N.
    apply TranslateFacts.openai_keeps_plain; [exact Ht | exact N|].
    exact (not_prefixed "openai_" key H (in_map fst _ _ Hin)).
Qed.

Lemma deepgram_translated model :
  no_prefixed "deepgram_" request ->
  Object.lookup t (Deepgram.translateParams model request) = Some v.
Proof.
  intros H. unfold Deepgram.translateParams.
  apply (TranslateFacts.fold_sets _ t v v request ND
           (KeysFacts.lookup_in t v request Hv)).
  - intros tr. apply TranslateFacts.deepgram_sets_plain. exact Ht.
  - intros [key value] tr Hin N. simpl in N.
    apply TranslateFacts.deepgram_keeps_plain; [exact Ht | exact N|].
    exact (not_prefixed "deepgram_" key H (in_map fst _ _ Hin)).
Qed.

Lemma google_translated model :
  no_prefixed "google_" request ->
  Object.lookup t (Google.translateParams model request) = Some v.
Proof.
  intros H. unfold Google.translateParams.
  apply (TranslateFacts.fold_sets _ t v v request ND
           (KeysFacts.lookup_in t v request Hv)).
  - intros tr. apply TranslateFacts.google_sets_plain. exact Ht.
  - intros [key value] tr Hin N. simpl in N.
    apply TranslateFacts.google_keeps_plain; [exact Ht | exact N|].
    exact (not_prefixed "google_" key H (in_map fst _ _ Hin)).
Qed.

End Translation.

Lemma prop_of_lookup (request : Obj JSValue) name v :
  Object.lookup name request = Some v -> JS.prop request name = v.
Proof. unfold JS.prop. intros ->. reflexivity. Qed.

Lemma keys_raw translated : Object.keys (raw translated) = Object.keys translated.
Proof. unfold Object.keys, raw. rewrite map_map. reflexivity. Qed.

Lemma lookup_raw translated k v :
  Object.lookup k translated = Some v ->
  Object.lookup k (raw translated) = Some (OARaw v).
Proof.
  induction translated as [|[k0 v0] tr IH]; simpl; [discriminate|].
  destruct (String.eqb k0 k); [|exact IH].
  intros H. injection H as <-. reflexivity.
Qed.

Lemma openai_built request evs sent :
  OpenAI.build_request request = (evs, inr sent) ->
  sent
  = Object.spread
      [("file", OpenAI.audio_of (JS.prop request "file"));
       ("model", OARaw (JS.prop request "model"))]
      (raw (OpenAI.translateParams (JS.prop request "model") request)).
Proof.
  intros H.
  assert (O : outcome (OpenAI.build_request request) = inr sent)
    by (rewrite H; reflexivity).
  assert (V : outcome (OpenAI.validateParams (JS.prop request "model") request)
              = inr tt).
  { unfold OpenAI.build_request in O. cbv zeta in O.
    apply outcome_bind_inv in O. destruct O as ([] & V & _). exact V. }
  rewrite (StreamFacts.built request V) in O.
  injection O as <-. reflexivity.
Qed.

Section Query.
Context (W : World).

Lemma call_toString_text (v : JSValue) (s : string) :
  JS.nullish v = false ->
  outcome (JS.call_toString W v) = inr s -> JS.text_of W v = Some s.
Proof.
  intros N. destruct v as [| | b | x | t | b | b | l | fields];
    try discriminate; unfold JS.call_toString, JS.toString, lift;
    try (destruct (JS.text_of W _); simpl; congruence).
  simpl. destruct (Object.has_key "toString" fields); simpl; congruence.
Qed.

(** Every translated parameter that is neither [null] nor [undefined] is
    in the query, under its key and with its text. *)
Lemma query_entries_complete translated rest :
  outcome (Deepgram.query_entries W translated) = inr rest ->
  forall k v,
    In (k, v) translated -> JS.nullish v = false ->
    exists s, JS.text_of W v = Some s /\ In (k, s) rest.
Proof.
  unfold Deepgram.query_entries.
  assert (G : forall acc rest,
             outcome
               (fold_m translated
                  (fun acc '(key, value) =>
                     if JS.nullish value then ret acc
                     else s <- JS.call_toString W value ;;
                          ret (acc ++ [(key, s)])%list)
                  acc)
             = inr rest ->
             (forall x, In x acc -> In x rest)
             /\ forall k v,
                 In (k, v) translated -> JS.nullish v = false ->
                 exists s, JS.text_of W v = Some s /\ In (k, s) rest).
  { induction translated as [|[k0 v0] tr IH]; intros acc rest0; simpl.
    - intros H. injection H as <-. split; [tauto | intros ? ? []].
    - intros H. apply outcome_bind_inv in H. destruct H as (acc' & Hb & Hrest).
      destruct (IH acc' rest0 Hrest) as [Hacc Hin].
      destruct (JS.nullish v0) eqn:N.
      + injection Hb as <-. split; [exact Hacc|].
        intros k v [E | E] Hn; [|exact (Hin k v E Hn)].
        injection E as <- <-. congruence.
      + apply outcome_bind_inv in Hb. destruct Hb as (s & Hs & Hret).
        injection Hret as <-. split.
        * intros x Hx. apply Hacc. apply in_or_app. left. exact Hx.
        * intros k v [E | E] Hn; [|exact (Hin k v E Hn)].
          injection E as <- <-. exists s.
          split; [exact (call_toString_text v0 s N Hs)|].
          apply Hacc. apply in_or_app. right. left. reflexivity. }
  intros H. exact (proj2 (G [] rest H)).
Qed.

Lemma query_of_inv request q :
  outcome (Deepgram.query_of W request) = inr q ->
  exists m rest,
    JS.toString W (JS.prop request "model") = inr m
    /\ outcome (Deepgram.query_entries W
                  (Deepgram.translateParams (JS.prop request "model") request))
       = inr rest
    /\ q = (("model", m) :: rest)%list.
Proof.
  unfold Deepgram.query_of. cbv zeta. intros H.
  apply outcome_bind_inv in H. destruct H as (m & Hm & H).
  apply outcome_bind_inv in H. destruct H as (rest & Hrest & H).
  injection H as <-. exists m, rest. repeat split; assumption.
Qed.

Lemma prepare_inv self request options evs init :
  Deepgram.prepare W self request options = (evs, inr init) ->
  exists q audio,
    outcome (Deepgram.query_of W request) = inr q
    /\ outcome (Deepgram.audio_of W (JS.prop request "file")) = inr audio
    /\ fetch_url init
       = Deepgram.baseURL self ++ "/listen?" ++ Url.serialize q.
Proof.
  intros H.
  assert (H' : outcome (Deepgram.prepare W self request options) = inr init)
    by (rewrite H; reflexivity).
  clear H. unfold Deepgram.prepare in H'.
  apply outcome_bind_inv in H'. destruct H' as ([] & _ & H).
  apply outcome_bind_inv in H. destruct H as (q & Hq & H).
  apply outcome_bind_inv in H. destruct H as (audio & Ha & H).
  cbv zeta in H.
  apply outcome_bind_inv in H. destruct H as (signal & _ & H).
  injection H as <-. exists q, audio. repeat split; assumption.
Qed.

Lemma audio_recognized (file : JSValue) audio :
  outcome (Deepgram.audio_of W file) = inr audio -> recognized file = true.
Proof. destruct file; simpl; try discriminate; reflexivity. Qed.

End Query.
End ForwardFacts.

(** C9, as the code has it. [transcribe] hands the whole request to
    [translateParams]. For a request with a [model] string and a [file], and
    without a key that is [file] or [model] behind the adapter's prefix, the
    translated parameters of each adapter bind [file] to the file of the
    request, as it is, and [model] to its model. In the OpenAI adapter the
    request handed to the SDK then binds [file] to that raw value, not to the
    audio object built from it. In the Deepgram adapter the query string
    holds the model twice and the text of the file. *)
Theorem request_fields_reach_backend :
  forall (W : World) (request : Obj JSValue) (m : string) (file : JSValue),
    NoDup (Object.keys request) ->
    Object.lookup "model" request = Some (JStr m) ->
    Object.lookup "file" request = Some file ->
    (Terms.no_prefixed "openai_" request ->
     Object.lookup "file"
       (OpenAI.translateParams (JS.prop request "model") request)
     = Some file
     /\ Object.lookup "model"
          (OpenAI.translateParams (JS.prop request "model") request)
        = Some (JStr m)
     /\ forall evs sent,
         OpenAI.build_request request = (evs, inr sent) ->
         Object.lookup "file" sent = Some (OARaw file)
         /\ Object.lookup "model" sent = Some (OARaw (JStr m)))
    /\ (Terms.no_prefixed "deepgram_" request ->
        Object.lookup "file"
          (Deepgram.translateParams (JS.prop request "model") request)
        = Some file
        /\ Object.lookup "model"
             (Deepgram.translateParams (JS.prop request "model") request)
           = Some (JStr m)
        /\ forall self options evs init,
            Deepgram.prepare W self request options = (evs, inr init) ->
            exists f rest,
              JS.text_of W file = Some f
              /\ fetch_url init
                 = Deepgram.baseURL self ++ "/listen?"
                   ++ Url.serialize (("model", m) :: rest)
              /\ In ("model", m) rest
              /\ In ("file", f) rest)
    /\ (Terms.no_prefixed "google_" request ->
        Object.lookup "file"
          (Google.translateParams (JS.prop request "model") request)
        = Some file
        /\ Object.lookup "model"
             (Google.translateParams (JS.prop request "model") request)
           = Some (JStr m)).
Proof.
  intros W request m file ND Hm Hf.
  assert (Pf : Terms.passes_through "file") by (left; reflexivity).
  assert (Pm : Terms.passes_through "model") by (right; reflexivity).
  split; [|split].
  - intros NP.
    pose proof (ForwardFacts.openai_translated request ND "file" file Pf Hf
                  (JS.prop request "model") NP) as Tf.
    pose proof (ForwardFacts.openai_translated request ND "model" (JStr m) Pm Hm
                  (JS.prop request "model") NP) as Tm.
    split; [exact Tf | split; [exact Tm|]].
    intros evs sent Hb. rewrite (ForwardFacts.openai_built _ _ _ Hb).
    assert (NDr : NoDup (Object.keys
                           (Terms.raw
                              (OpenAI.translateParams (JS.prop request "model")
                                 request)))).
    { rewrite ForwardFacts.keys_raw. apply KeysFacts.nodup_openai. }
    split; apply KeysFacts.lookup_spread; try exact NDr;
      apply ForwardFacts.lookup_raw; assumption.
  - intros NP.
    pose proof (ForwardFacts.deepgram_translated request ND "file" file Pf Hf
                  (JS.prop request "model") NP) as Tf.
    pose proof (ForwardFacts.deepgram_translated request ND "model" (JStr m)
                  Pm Hm (JS.prop request "model") NP) as Tm.
    split; [exact Tf | split; [exact Tm|]].
    intros self options evs init Hp.
    destruct (ForwardFacts.prepare_inv W _ _ _ _ _ Hp)
      as (q & audio & Hq & Ha & Hurl).
    destruct (ForwardFacts.query_of_inv W _ _ Hq) as (m' & rest & Hm' & Hr & ->).
    rewrite (ForwardFacts.prop_of_lookup _ _ _ Hm) in Hm'.
    injection Hm' as <-.
    rewrite (ForwardFacts.prop_of_lookup _ _ _ Hf) in Ha.
    apply ForwardFacts.audio_recognized in Ha.
    assert (Nf : JS.nullish file = false) by (destruct file; simpl in *; congruence).
    destruct (ForwardFacts.query_entries_complete W _ _ Hr "file" file
                (KeysFacts.lookup_in _ _ _ Tf) Nf) as (f & Hft & Hfin).
    destruct (ForwardFacts.query_entries_complete W _ _ Hr "model" (JStr m)
                (KeysFacts.lookup_in _ _ _ Tm) eq_refl) as (m2 & Hmt & Hmin).
    injection Hmt as <-.
    exists f, rest. repeat split; assumption.
  - intros NP. split.
    + exact (ForwardFacts.google_translated request ND "file" file Pf Hf
               (JS.prop request "model") NP).
    + exact (ForwardFacts.google_translated request ND "model" (JStr m) Pm Hm
               (JS.prop request "model") NP).
Qed.

(** [request_fields_reach_backend] on a request made of a model and a
    buffer: the SDK request of the OpenAI adapter holds the buffer itself,
    and the query of the Deepgram adapter holds the model twice and the text
    of the buffer. *)
Lemma request_fields_reach_backend_witness :
  (Object.lookup "file"
     [("file", OARaw (JBuffer Sample.audio)); ("model", OARaw (JStr "nova-2"))]
   = Some (OARaw (JBuffer Sample.audio))
   /\ Object.lookup "model"
        [("file", OARaw (JBuffer Sample.audio));
         ("model", OARaw (JStr "nova-2"))]
      = Some (OARaw (JStr "nova-2")))
  /\ (exists f rest,
         JS.text_of Sample.empty_answer (JBuffer Sample.audio) = Some f
         /\ "https://api.deepgram.com/v1/listen?model=nova-2&model=nova-2&file=RIFF"
            = Deepgram.baseURL Sample.deepgram ++ "/listen?"
              ++ Url.serialize (("model", "nova-2") :: rest)
         /\ In ("model", "nova-2") rest
         /\ In ("file", f) rest)
  /\ Object.lookup "file"
       (Google.translateParams (JStr "nova-2") Sample.buffer_request)
     = Some (JBuffer Sample.audio).
Proof.
  assert (ND : NoDup (Object.keys Sample.buffer_request)).
  { repeat constructor; simpl; intuition discriminate. }
  assert (NP : forall prefix,
             prefix ++ "file" <> "model" -> prefix ++ "file" <> "file" ->
             prefix ++ "model" <> "model" -> prefix ++ "model" <> "file" ->
             Terms.no_prefixed prefix Sample.buffer_request).
  { intros prefix A B C D k [<- | [<- | []]]; split; simpl; congruence. }
  destruct (request_fields_reach_backend Sample.empty_answer
              Sample.buffer_request "nova-2" (JBuffer Sample.audio)
              ND eq_refl eq_refl) as (O & D & G).
  split; [|split].
  - refine (proj2 (proj2 (O _)) _ _ eq_refl). apply NP; discriminate.
  - refine (proj2 (proj2 (D _)) Sample.deepgram None _ _ eq_refl).
    apply NP; discriminate.
  - refine (proj1 (G _)). apply NP; discriminate.
Defined.

(** C9 fails as stated: when the request also carries [openai_file], the
    translated parameters of the OpenAI adapter bind [file] to the value of
    that key, not to the file of the request. *)
Lemma translated_file_overridden :
  JS.prop Sample.override_request "file" = JBuffer Sample.audio
  /\ Object.lookup "file"
       (OpenAI.translateParams (JS.prop Sample.override_request "model")
          Sample.override_request)
     = Some (JStr "other.wav").
Proof. split; reflexivity. Qed.

(** ** Word entries *)

Module WordFacts.
Section WithWorld.
Context (W : World).
Local Abbreviation speaker_of := (Terms.speaker_of W) (only parsing).
Local Abbreviation speaker_ok := (Terms.speaker_ok W) (only parsing).
Local Abbreviation entry_ok := (Terms.entry_ok W) (only parsing).
Local Abbreviation deepgram_word := (Terms.deepgram_word W) (only parsing).
Local Abbreviation deepgram_segment := (Terms.deepgram_segment W) (only parsing).
Local Abbreviation google_offset := (Terms.google_offset W) (only parsing).
Local Abbreviation offset_value := (Terms.offset_value W) (only parsing).
Local Abbreviation time_ok := (Terms.time_ok W) (only parsing).
Local Abbreviation google_word := (Terms.google_word W) (only parsing).
Local Abbreviation google_entry_ok := (Terms.google_entry_ok W) (only parsing).
Local Abbreviation google_result_ok := (Terms.google_result_ok W) (only parsing).

Lemma speaker_text (v : JSValue) :
  speaker_ok v -> JS.call_toString_opt W v = ret (speaker_of v).
Proof.
  intros H. unfold JS.call_toString_opt, speaker_of.
  destruct (JS.nullish v) eqn:N; [reflexivity|].
  destruct (TextFacts.printable_call_toString W v (H N) N) as (s & Hs).
  rewrite Hs, MFacts.bind_ret.
  assert (T : JS.text_of W v = Some s).
  { apply ForwardFacts.call_toString_text; [exact N | rewrite Hs; reflexivity]. }
  rewrite T. reflexivity.
Qed.

Lemma fold_collect {A} (l : list JSValue) (f : JSValue -> M A)
  (g : JSValue -> A) :
  (forall x, In x l -> f x = ret (g x)) ->
  forall acc,
    fold_m l (fun acc x => y <- f x ;; ret (acc ++ [y])%list) acc
    = ret (acc ++ map g l)%list.
Proof.
  induction l as [|x l IH]; intros H acc; simpl.
  - rewrite app_nil_r. reflexivity.
  - rewrite (H x (or_introl eq_refl)), !MFacts.bind_ret.
    rewrite IH by (intros y Hy; apply H; right; exact Hy).
    rewrite <- app_assoc. reflexivity.
Qed.

(** The loop over a usable list pushes one element per entry, in order. *)
Lemma collect_entries {A} (ok : JSValue -> Prop) (v : JSValue)
  (f : JSValue -> M A) (g : JSValue -> A) :
  list_ok ok v ->
  (forall x, ok x -> f x = ret (g x)) ->
  (if JS.truthy v then JS.collect W v f else ret [])
  = ret (map g (entries_of v)).
Proof.
  intros [F | (l & -> & Hl)] Hf.
  - rewrite F. destruct v; try reflexivity; discriminate.
  - simpl. apply (fold_collect l f g).
    intros x Hx. apply Hf. rewrite Forall_forall in Hl. exact (Hl x Hx).
Qed.

(** *** Deepgram *)

Lemma deepgram_word_of (entry : JSValue) :
  entry_ok "speaker" entry ->
  Deepgram.word_of W entry = ret (deepgram_word entry).
Proof.
  intros [N S]. unfold Deepgram.word_of.
  rewrite !(ResponseFacts.get_defined W _ _ N), !MFacts.bind_ret.
  rewrite (speaker_text _ S), MFacts.bind_ret. reflexivity.
Qed.

Lemma deepgram_segment_of (entry : JSValue) :
  entry_ok "speaker" entry ->
  Deepgram.segment_of W entry = ret (deepgram_segment entry).
Proof.
  intros [N S]. unfold Deepgram.segment_of.
  rewrite !(ResponseFacts.get_defined W _ _ N), !MFacts.bind_ret.
  rewrite (speaker_text _ S), MFacts.bind_ret. reflexivity.
Qed.

Lemma get_opt_nullish (v : JSValue) (name : string) :
  JS.nullish v = true -> JS.get_opt v name = JUndefined.
Proof. destruct v; simpl; try discriminate; reflexivity. Qed.

Lemma index0_defined (v : JSValue) :
  JS.nullish v = false -> JS.index0 W v = ret (JS.index0_opt v).
Proof. intros N. unfold JS.index0, JS.index0_opt. rewrite N. reflexivity. Qed.

(** Behind a truthy first alternative, every step of the path is
    defined. *)
Lemma probe_path (response : JSValue) :
  JS.truthy (Terms.deepgram_probe response) = true ->
  let results := JS.get_opt response "results" in
  let channels := JS.get_opt results "channels" in
  let channel := JS.index0_opt channels in
  let alternatives := JS.get_opt channel "alternatives" in
  JS.nullish results = false /\ JS.nullish channels = false
  /\ JS.nullish channel = false /\ JS.nullish alternatives = false.
Proof.
  unfold Terms.deepgram_probe. intros H. cbv zeta.
  destruct (JS.nullish (JS.get_opt response "results")) eqn:N1.
  { rewrite (get_opt_nullish _ "channels" N1) in H. discriminate. }
  destruct (JS.nullish (JS.get_opt (JS.get_opt response "results") "channels"))
    eqn:N2.
  { unfold JS.index0_opt at 2 in H. rewrite N2 in H. discriminate. }
  destruct (JS.nullish
              (JS.index0_opt
                 (JS.get_opt (JS.get_opt response "results") "channels")))
    eqn:N3.
  { rewrite (get_opt_nullish _ "alternatives" N3) in H. discriminate. }
  destruct (JS.nullish
              (JS.get_opt
                 (JS.index0_opt
                    (JS.get_opt (JS.get_opt response "results") "channels"))
                 "alternatives")) eqn:N4.
  { unfold JS.index0_opt at 1 in H. rewrite N4 in H. discriminate. }
  repeat split.
Qed.

Lemma truthy_defined (v : JSValue) : JS.truthy v = true -> JS.nullish v = false.
Proof. destruct v; simpl; congruence. Qed.

(** The result of the Deepgram adapter on a response with a first
    alternative and usable lists. *)
Lemma deepgram_adapt (response : JSValue) :
  JS.nullish response = false ->
  JS.truthy (Terms.deepgram_probe response) = true ->
  list_ok (entry_ok "speaker")
    (JS.get_opt (Terms.deepgram_probe response) "words") ->
  list_ok (entry_ok "speaker")
    (JS.get_opt (JS.get_opt response "results") "utterances") ->
  Deepgram.adaptResponse W response
  = ret (mkResult
           (JS.get_opt (Terms.deepgram_probe response) "transcript")
           (JS.or_else (JS.get_opt (JS.get_opt response "metadata") "language")
              (JStr "unknown"))
           (JS.get_opt (Terms.deepgram_probe response) "confidence")
           (map deepgram_word
              (entries_of
                 (JS.get_opt (Terms.deepgram_probe response) "words")))
           (map deepgram_segment
              (entries_of
                 (JS.get_opt (JS.get_opt response "results") "utterances")))).
Proof.
  intros N P Hw Hu.
  destruct (probe_path response P) as (N1 & N2 & N3 & N4).
  pose proof (truthy_defined _ P) as N5.
  unfold Deepgram.adaptResponse, Deepgram.first_alternative.
  unfold Terms.deepgram_probe in *.
  repeat first
    [ rewrite MFacts.bind_ret
    | rewrite (ResponseFacts.get_defined W _ _ N)
    | rewrite (ResponseFacts.get_defined W _ _ N1)
    | rewrite (ResponseFacts.get_defined W _ _ N3)
    | rewrite (ResponseFacts.get_defined W _ _ N5)
    | rewrite (index0_defined _ N2)
    | rewrite (index0_defined _ N4)
    | rewrite P
    | rewrite (collect_entries _ _ _ deepgram_word Hw deepgram_word_of)
    | rewrite (collect_entries _ _ _ deepgram_segment Hu deepgram_segment_of) ].
  reflexivity.
Qed.

(** *** OpenAI *)

Lemma openai_word_of (entry : JSValue) :
  defined entry -> OpenAI.word_of W entry = ret (openai_word entry).
Proof.
  intros N. unfold OpenAI.word_of.
  rewrite !(ResponseFacts.get_defined W _ _ N), !MFacts.bind_ret. reflexivity.
Qed.

Lemma openai_segment_of (entry : JSValue) :
  defined entry -> OpenAI.segment_of W entry = ret (openai_segment entry).
Proof.
  intros N. unfold OpenAI.segment_of.
  rewrite !(ResponseFacts.get_defined W _ _ N), !MFacts.bind_ret. reflexivity.
Qed.

Lemma openai_adapt (response : JSValue) :
  JS.nullish response = false ->
  list_ok defined (JS.get_opt response "words") ->
  list_ok defined (JS.get_opt response "segments") ->
  OpenAI.adaptResponse W response
  = ret (mkResult (JS.get_opt response "text")
           (JS.or_else (JS.get_opt response "language") (JStr "unknown"))
           (JS.get_opt response "confidence")
           (map openai_word (entries_of (JS.get_opt response "words")))
           (map openai_segment (entries_of (JS.get_opt response "segments")))).
Proof.
  intros N Hw Hs. unfold OpenAI.adaptResponse.
  repeat first
    [ rewrite MFacts.bind_ret
    | rewrite (ResponseFacts.get_defined W _ _ N)
    | rewrite (collect_entries _ _ _ openai_word Hw openai_word_of)
    | rewrite (collect_entries _ _ _ openai_segment Hs openai_segment_of) ].
  reflexivity.
Qed.

(** *** Google *)

Lemma offset_of_ok (t : JSValue) :
  time_ok t -> Google.offset_of W t = ret (JNum (offset_value t)).
Proof.
  unfold time_ok, offset_value, google_offset, Google.offset_of,
    JS.parseFloat, JS.toString.
  destruct (JS.text_of W (JS.or_else (JS.get_opt t "seconds") (JStr "0")));
    [|congruence].
  destruct (JS.text_of W (JS.or_else (JS.get_opt t "nanos") (JStr "0")));
    [|congruence].
  intros _. rewrite !MFacts.bind_lift_ok, !MFacts.bind_ret. reflexivity.
Qed.

Lemma google_word_of (entry : JSValue) :
  google_entry_ok entry -> Google.word_of W entry = ret (google_word entry).
Proof.
  intros (N & Ts & Te & S). unfold Google.word_of.
  repeat first
    [ rewrite MFacts.bind_ret
    | rewrite (ResponseFacts.get_defined W _ _ N)
    | rewrite (offset_of_ok _ Ts)
    | rewrite (offset_of_ok _ Te)
    | rewrite (speaker_text _ S) ].
  reflexivity.
Qed.

Lemma google_visit (acc : Google.Acc) (result : JSValue) :
  google_result_ok result ->
  exists acc',
    Google.visit_result W acc result = ret acc'
    /\ Google.acc_words acc'
       = (Google.acc_words acc
          ++ map google_word (google_result_entries result))%list.
Proof.
  intros (N & H). unfold Google.visit_result, google_result_entries.
  rewrite (ResponseFacts.get_defined W _ _ N), MFacts.bind_ret.
  fold (google_alternative result). fold (google_has_alternative result).
  destruct (google_has_alternative result) eqn:E.
  - destruct (H eq_refl) as (Pt & Hw & Ht).
    assert (Na : JS.nullish (google_alternative result) = false).
    { apply truthy_defined. unfold google_has_alternative in E.
      apply andb_true_iff in E. exact (proj2 E). }
    destruct (TextFacts.printable_toString W _ Pt) as (piece & Hp).
    repeat first
      [ rewrite MFacts.bind_ret
      | rewrite MFacts.bind_lift_ok
      | rewrite (ResponseFacts.get_defined W _ _ N)
      | rewrite (ResponseFacts.get_defined W _ _ Na)
      | rewrite Hp
      | rewrite (offset_of_ok _ Ht)
      | rewrite (collect_entries _ _ _ google_word Hw google_word_of) ].
    eexists. split; reflexivity.
  - exists acc. split; [reflexivity|]. simpl. rewrite app_nil_r. reflexivity.
Qed.

Lemma google_fold (results : list JSValue) :
  Forall google_result_ok results ->
  forall acc,
    exists acc',
      fold_m results (Google.visit_result W) acc = ret acc'
      /\ Google.acc_words acc'
         = (Google.acc_words acc
            ++ map google_word (flat_map google_result_entries results))%list.
Proof.
  induction 1 as [|result results Hr Hrs IH]; intros acc; simpl.
  - exists acc. split; [reflexivity | rewrite app_nil_r; reflexivity].
  - destruct (google_visit acc result Hr) as (acc1 & -> & Hw1).
    rewrite MFacts.bind_ret.
    destruct (IH acc1) as (acc2 & -> & Hw2).
    exists acc2. split; [reflexivity|].
    rewrite Hw2, Hw1, map_app, app_assoc. reflexivity.
Qed.

(** The Google adapter on a response with usable results: one word per
    word entry. *)
Lemma google_adapt (response : JSValue) :
  JS.nullish response = false ->
  list_ok google_result_ok (JS.get_opt response "results") ->
  exists result,
    Google.adaptResponse W response = ret result
    /\ words result = map google_word (google_entries response).
Proof.
  intros N H. unfold Google.adaptResponse, google_entries.
  rewrite (ResponseFacts.get_defined W _ _ N), MFacts.bind_ret.
  destruct H as [F | (l & E & Hl)].
  - rewrite F, MFacts.bind_ret. eexists. split; [reflexivity|].
    destruct (JS.get_opt response "results"); try reflexivity; discriminate.
  - rewrite E. simpl JS.truthy. cbv iota.
    destruct (google_fold l Hl (Google.mkAcc EmptyString [] []))
      as (acc & -> & Hw).
    rewrite MFacts.bind_ret. eexists. split; [reflexivity|]. exact Hw.
Qed.

(** *** What a result holds, whenever there is one *)

Ltac unwind H :=
  repeat (apply ForwardFacts.outcome_bind_inv in H;
          let a := fresh "a" in
          let Ha := fresh "Ha" in
          destruct H as (a & Ha & H)).

Lemma get_inv (v x : JSValue) (name : string) :
  outcome (JS.get W v name) = inr x ->
  x = JS.get_opt v name /\ JS.nullish v = false.
Proof.
  destruct v; simpl; intros H; try discriminate; injection H as <-;
    split; reflexivity.
Qed.

Lemma index0_inv (v x : JSValue) :
  outcome (JS.index0 W v) = inr x -> x = JS.index0_opt v.
Proof.
  unfold JS.index0, JS.index0_opt. destruct (JS.nullish v); simpl;
    intros H; [discriminate | injection H as <-; reflexivity].
Qed.

Lemma fold_collect_rel {A} (R : JSValue -> A -> Prop) (f : JSValue -> M A) :
  (forall x y, outcome (f x) = inr y -> R x y) ->
  forall l seen acc out,
    Forall2 R seen acc ->
    outcome (fold_m l (fun acc x => y <- f x ;; ret (acc ++ [y])%list) acc)
    = inr out ->
    Forall2 R (seen ++ l)%list out.
Proof.
  intros Hf. induction l as [|x l IH]; intros seen acc out Hs H; simpl in H.
  - injection H as <-. rewrite app_nil_r. exact Hs.
  - apply ForwardFacts.outcome_bind_inv in H. destruct H as (acc' & Hb & H).
    apply ForwardFacts.outcome_bind_inv in Hb. destruct Hb as (y & Hy & Hb).
    injection Hb as <-.
    replace (seen ++ x :: l)%list with ((seen ++ [x]) ++ l)%list
      by (rewrite <- app_assoc; reflexivity).
    apply (IH _ _ _ (Forall2_app Hs (Forall2_cons x y (Hf x y Hy)
                                       (Forall2_nil R))) H).
Qed.

(** The elements a loop pushed, against the elements it visited. *)
Lemma collect_rel {A} (R : JSValue -> A -> Prop) (v : JSValue)
  (f : JSValue -> M A) (out : list A) :
  (forall x y, outcome (f x) = inr y -> R x y) ->
  outcome (if JS.truthy v then JS.collect W v f else ret []) = inr out ->
  Forall2 R (entries_of v) out.
Proof.
  intros Hf. destruct (JS.truthy v) eqn:T.
  - destruct v; simpl; try discriminate;
      apply (fold_collect_rel R f Hf _ [] []); constructor.
  - intros H. injection H as <-.
    destruct v; simpl in *; try discriminate; constructor.
Qed.

Local Abbreviation carried :=
  (fun (entry : JSValue) (w : Word) =>
     word_start w = JS.get_opt entry "start"
     /\ word_end w = JS.get_opt entry "end") (only parsing).

Lemma deepgram_word_carried entry w :
  outcome (Deepgram.word_of W entry) = inr w -> carried entry w.
Proof.
  unfold Deepgram.word_of. intros H. unwind H. injection H as <-.
  split; simpl; eapply get_inv; eassumption.
Qed.

Lemma openai_word_carried entry w :
  outcome (OpenAI.word_of W entry) = inr w -> carried entry w.
Proof.
  unfold OpenAI.word_of. intros H. unwind H. injection H as <-.
  split; simpl; eapply get_inv; eassumption.
Qed.

Lemma offset_of_inv (t v : JSValue) :
  outcome (Google.offset_of W t) = inr v -> v = JNum (offset_value t).
Proof.
  unfold Google.offset_of, Terms.offset_value, Terms.google_offset,
    JS.parseFloat, JS.toString.
  destruct (JS.text_of W (JS.or_else (JS.get_opt t "seconds") (JStr "0")));
    [|discriminate].
  destruct (JS.text_of W (JS.or_else (JS.get_opt t "nanos") (JStr "0")));
    [|discriminate].
  intros H. injection H as <-. reflexivity.
Qed.

Local Abbreviation timed :=
  (fun (entry : JSValue) (w : Word) =>
     word_start w = JNum (offset_value (JS.get_opt entry "startTime"))
     /\ word_end w = JNum (offset_value (JS.get_opt entry "endTime")))
  (only parsing).

Lemma google_word_timed entry w :
  outcome (Google.word_of W entry) = inr w -> timed entry w.
Proof.
  unfold Google.word_of. intros H. unwind H. injection H as <-.
  split; simpl.
  - apply get_inv in Ha0. destruct Ha0 as [-> _].
    apply offset_of_inv. assumption.
  - apply get_inv in Ha2. destruct Ha2 as [-> _].
    apply offset_of_inv. assumption.
Qed.

Lemma falsy_has_no_entries (v : JSValue) (name : string) :
  JS.truthy v = false -> entries_of (JS.get_opt v name) = [].
Proof. destruct v; simpl; try discriminate; reflexivity. Qed.

Lemma deepgram_words_inv response r :
  outcome (Deepgram.adaptResponse W response) = inr r ->
  Forall2 carried (deepgram_entries response) (words r).
Proof.
  unfold Deepgram.adaptResponse, Deepgram.first_alternative,
    deepgram_entries. intros H.
  apply ForwardFacts.outcome_bind_inv in H. destruct H as (probe & Hp & H).
  apply ForwardFacts.outcome_bind_inv in Hp. destruct Hp as (res & Hr & Hp).
  apply get_inv in Hr. destruct Hr as [-> _].
  injection Hp as <-. fold (deepgram_probe response) in H.
  destruct (JS.truthy (deepgram_probe response)) eqn:P.
  - unwind H. injection H as <-. simpl.
    apply get_inv in Ha. destruct Ha as [-> _].
    apply get_inv in Ha0. destruct Ha0 as [-> _].
    apply index0_inv in Ha1. subst a1.
    apply get_inv in Ha2. destruct Ha2 as [-> _].
    apply index0_inv in Ha3. subst a3.
    apply get_inv in Ha4. destruct Ha4 as [-> _].
    exact (collect_rel carried _ _ _ deepgram_word_carried Ha5).
  - unwind H. injection H as <-. simpl.
    rewrite (falsy_has_no_entries _ _ P). constructor.
Qed.

Lemma openai_words_inv response r :
  outcome (OpenAI.adaptResponse W response) = inr r ->
  Forall2 carried (openai_entries response) (words r).
Proof.
  unfold OpenAI.adaptResponse, openai_entries. intros H.
  unwind H. injection H as <-. simpl.
  apply get_inv in Ha. destruct Ha as [-> _].
  exact (collect_rel carried _ _ _ openai_word_carried Ha0).
Qed.

Lemma google_visit_rel acc result acc' seen :
  Forall2 timed seen (Google.acc_words acc) ->
  outcome (Google.visit_result W acc result) = inr acc' ->
  Forall2 timed (seen ++ google_result_entries result)%list
    (Google.acc_words acc').
Proof.
  intros Hs. unfold Google.visit_result, google_result_entries. intros H.
  apply ForwardFacts.outcome_bind_inv in H.
  destruct H as (alternatives & Ha & H).
  apply get_inv in Ha. destruct Ha as [-> _].
  fold (google_alternative result) in *.
  fold (google_has_alternative result) in *.
  destruct (google_has_alternative result).
  - unwind H. injection H as <-. simpl.
    apply get_inv in Ha1. destruct Ha1 as [-> _].
    apply Forall2_app; [exact Hs|].
    exact (collect_rel timed _ _ _ google_word_timed Ha2).
  - injection H as <-. rewrite app_nil_r. exact Hs.
Qed.

Lemma google_fold_rel (l : list JSValue) :
  forall acc acc' seen,
    Forall2 timed seen (Google.acc_words acc) ->
    outcome (fold_m l (Google.visit_result W) acc) = inr acc' ->
    Forall2 timed (seen ++ flat_map google_result_entries l)%list
      (Google.acc_words acc').
Proof.
  induction l as [|x l IH]; intros acc acc' seen Hs H; simpl in H.
  - injection H as <-. simpl. rewrite app_nil_r. exact Hs.
  - apply ForwardFacts.outcome_bind_inv in H. destruct H as (acc1 & H1 & H).
    simpl. rewrite app_assoc.
    exact (IH _ _ _ (google_visit_rel _ _ _ _ Hs H1) H).
Qed.

Lemma google_words_inv response r :
  outcome (Google.adaptResponse W response) = inr r ->
  Forall2 timed (google_entries response) (words r).
Proof.
  unfold Google.adaptResponse, google_entries. intros H.
  apply ForwardFacts.outcome_bind_inv in H. destruct H as (results & Hr & H).
  apply get_inv in Hr. destruct Hr as [-> _].
  apply ForwardFacts.outcome_bind_inv in H. destruct H as (acc & Hacc & H).
  injection H as <-. simpl.
  destruct (JS.truthy (JS.get_opt response "results")) eqn:T.
  - destruct (JS.get_opt response "results"); simpl in Hacc |- *;
      try discriminate;
      exact (google_fold_rel _ (Google.mkAcc EmptyString [] []) _ []
               (Forall2_nil _) Hacc).
  - injection Hacc as <-.
    destruct (JS.get_opt response "results"); simpl in *; try discriminate;
      constructor.
Qed.

End WithWorld.
End WordFacts.

Lemma Forall2_map_right {A B} (P : A -> B -> Prop) (g : A -> B) (l : list A) :
  (forall x, P x (g x)) -> Forall2 P l (map g l).
Proof. intros H. induction l; simpl; constructor; auto. Qed.

(** C7, as the code has it. Whenever normalization returns a result, the
    result has one word per word entry of the response, in order: the
    entries of the first alternative of the first channel (Deepgram), the
    top-level entries (OpenAI), the entries of the first alternative of
    every result (Google). The Deepgram and OpenAI adapters carry the
    [start] and the [end] of each entry over as they are; the Google
    adapter computes each of them as
    [parseFloat(seconds || '0') + parseFloat(nanos || '0') / 1e9]. Nothing
    orders [start] and [end].

    Normalization does return a result on a response that is neither
    [null] nor [undefined] and whose lists are usable. For Deepgram: there
    is a first alternative of a first channel, its words are an array, the
    utterances are absent or an array, and no entry of either is [null] or
    [undefined] or has a speaker without text. For OpenAI: the words are an
    array, the segments are absent or an array, and no entry of either is
    [null] or [undefined]. For Google: the results are absent or an array of
    results that are not [null] or [undefined] and, where they have a first
    alternative, have a transcript and an end time with a text and words
    that are absent or an array of entries, none [null] or [undefined],
    whose times and speaker tag have a text. *)
Theorem normalized_words_follow_entries :
  forall W : World,
    (forall response entries,
        JS.nullish response = false ->
        JS.truthy (Terms.deepgram_probe response) = true ->
        JS.get_opt (Terms.deepgram_probe response) "words"
        = JArr entries ->
        Forall (Terms.entry_ok W "speaker") entries ->
        Terms.list_ok (Terms.entry_ok W "speaker")
          (JS.get_opt (JS.get_opt response "results") "utterances") ->
        exists result,
          outcome (Deepgram.adaptResponse W response) = inr result
          /\ List.length (words result) = List.length entries
          /\ Forall2
               (fun entry w =>
                  word_start w = JS.get_opt entry "start"
                  /\ word_end w = JS.get_opt entry "end")
               entries (words result))
    /\ (forall response entries,
           JS.nullish response = false ->
           JS.get_opt response "words" = JArr entries ->
           Forall Terms.defined entries ->
           Terms.list_ok Terms.defined
             (JS.get_opt response "segments") ->
           exists result,
             outcome (OpenAI.adaptResponse W response) = inr result
             /\ List.length (words result) = List.length entries
             /\ Forall2
                  (fun entry w =>
                     word_start w = JS.get_opt entry "start"
                     /\ word_end w = JS.get_opt entry "end")
                  entries (words result))
    /\ (forall response,
           JS.nullish response = false ->
           Terms.list_ok (Terms.google_result_ok W)
             (JS.get_opt response "results") ->
           exists result,
             outcome (Google.adaptResponse W response) = inr result
             /\ List.length (words result)
                = List.length (Terms.google_entries response)
             /\ Forall2
                  (fun entry w =>
                     word_start w
                     = JNum (Terms.offset_value W
                               (JS.get_opt entry "startTime"))
                     /\ word_end w
                        = JNum (Terms.offset_value W
                                  (JS.get_opt entry "endTime")))
                  (Terms.google_entries response) (words result))
    /\ (forall t seconds nanos,
           JS.text_of W (JS.or_else (JS.get_opt t "seconds") (JStr "0"))
           = Some seconds ->
           JS.text_of W (JS.or_else (JS.get_opt t "nanos") (JStr "0"))
           = Some nanos ->
           Terms.offset_value W t
           = (Num.parseFloat seconds + Num.parseFloat nanos / 1e9)%float)
    /\ (forall response result,
           outcome (Deepgram.adaptResponse W response) = inr result ->
           List.length (words result)
           = List.length (Terms.deepgram_entries response)
           /\ Forall2
                (fun entry w =>
                   word_start w = JS.get_opt entry "start"
                   /\ word_end w = JS.get_opt entry "end")
                (Terms.deepgram_entries response) (words result))
    /\ (forall response result,
           outcome (OpenAI.adaptResponse W response) = inr result ->
           List.length (words result)
           = List.length (Terms.openai_entries response)
           /\ Forall2
                (fun entry w =>
                   word_start w = JS.get_opt entry "start"
                   /\ word_end w = JS.get_opt entry "end")
                (Terms.openai_entries response) (words result))
    /\ (forall response result,
           outcome (Google.adaptResponse W response) = inr result ->
           List.length (words result)
           = List.length (Terms.google_entries response)
           /\ Forall2
                (fun entry w =>
                   word_start w
                   = JNum (Terms.offset_value W
                             (JS.get_opt entry "startTime"))
                   /\ word_end w
                      = JNum (Terms.offset_value W
                                (JS.get_opt entry "endTime")))
                (Terms.google_entries response) (words result)).
Proof.
  intros W. split; [|split; [|split; [|split; [|split; [|split]]]]].
  - intros response entries N P E Hw Hu.
    rewrite (WordFacts.deepgram_adapt W response N P) by
      (try assumption; right; exists entries; split; assumption).
    eexists. split; [reflexivity|]. simpl words. rewrite E. simpl.
    split; [apply length_map|].
    apply Forall2_map_right. intros entry. split; reflexivity.
  - intros response entries N E Hw Hs.
    rewrite (WordFacts.openai_adapt W response N) by
      (try assumption; right; exists entries; split; assumption).
    eexists. split; [reflexivity|]. simpl words. rewrite E. simpl.
    split; [apply length_map|].
    apply Forall2_map_right. intros entry. split; reflexivity.
  - intros response N H.
    destruct (WordFacts.google_adapt W response N H) as (result & -> & Hw).
    exists result. split; [reflexivity|]. rewrite Hw.
    split; [apply length_map|].
    apply Forall2_map_right. intros entry. split; reflexivity.
  - intros t seconds nanos Hs Hn.
    unfold Terms.offset_value, Terms.google_offset.
    rewrite Hs, Hn. reflexivity.
  - intros response result H.
    pose proof (WordFacts.deepgram_words_inv W _ _ H) as F.
    split; [symmetry; exact (Forall2_length F) | exact F].
  - intros response result H.
    pose proof (WordFacts.openai_words_inv W _ _ H) as F.
    split; [symmetry; exact (Forall2_length F) | exact F].
  - intros response result H.
    pose proof (WordFacts.google_words_inv W _ _ H) as F.
    split; [symmetry; exact (Forall2_length F) | exact F].
Qed.

(** [normalized_words_follow_entries] on a Deepgram response with two
    words, on the canned response of the Google adapter, on the offset of
    one second and a half, and on the result the Deepgram adapter returns
    for a response with one word. *)
Lemma normalized_words_follow_entries_witness :
  (exists result,
      outcome (Deepgram.adaptResponse Sample.isolated Sample.hello_world)
      = inr result
      /\ List.length (words result) = 2
      /\ Forall2
           (fun entry w =>
              word_start w = JS.get_opt entry "start"
              /\ word_end w = JS.get_opt entry "end")
           [JObj [("word", JStr "hello"); ("start", JNum 0); ("end", JNum 0.5);
                  ("speaker", JNum 0)];
            JObj [("word", JStr "world"); ("start", JNum 0.5); ("end", JNum 1)]]
           (words result))
  /\ (exists result,
         outcome (Google.adaptResponse Sample.isolated Google.mockResponse)
         = inr result
         /\ List.length (words result) = 2)
  /\ Terms.offset_value Sample.isolated
       (JObj [("seconds", JStr "1"); ("nanos", JNum 500000000)])
     = 1.5%float
  /\ (exists result,
         outcome (Deepgram.adaptResponse Sample.isolated Sample.reversed)
         = inr result
         /\ List.length (words result)
            = List.length (Terms.deepgram_entries Sample.reversed)).
Proof.
  destruct (normalized_words_follow_entries Sample.isolated)
    as (D & _ & G & F & I & _).
  split; [|split; [|split]].
  - apply (D Sample.hello_world _ eq_refl eq_refl eq_refl).
    + repeat constructor; intros H; try discriminate H.
      unfold Terms.printable. simpl. discriminate.
    + left. reflexivity.
  - assert (T : forall s b e,
               Terms.time_ok Sample.isolated
                 (JS.get_opt (Google.mock_word s b e) "startTime") ->
               Terms.time_ok Sample.isolated
                 (JS.get_opt (Google.mock_word s b e) "endTime") ->
               Terms.google_entry_ok Sample.isolated
                 (Google.mock_word s b e)).
    { intros s b e Hs He. split; [reflexivity|].
      split; [exact Hs|]. split; [exact He|]. intros H. discriminate H. }
    destruct (G Google.mockResponse eq_refl) as (result & Hr & Hl & _).
    + right. eexists. split; [reflexivity|].
      constructor; [|constructor]. split; [reflexivity|]. intros _.
      split; [discriminate|]. split; [|vm_compute; discriminate].
      right. eexists. split; [reflexivity|].
      constructor; [|constructor; [|constructor]];
        apply T; vm_compute; discriminate.
    + exists result. split; [exact Hr | exact Hl].
  - apply (F _ "1" "500000000"); reflexivity.
  - eexists. split; [reflexivity|].
    exact (proj1 (I Sample.reversed _ eq_refl)).
Defined.

(** C7 fails as stated: a Deepgram response whose word starts at second 2
    and ends at second 1 is normalized to a word that starts at 2 and ends
    at 1. *)
Lemma reversed_word_is_kept :
  outcome (Deepgram.adaptResponse Sample.isolated Sample.reversed)
  = inr (mkResult (JStr "hi") (JStr "unknown") JUndefined
           [mkWord (JStr "hi") (JNum 2) (JNum 1) JUndefined JUndefined] [])
  /\ PrimFloat.leb 2 1 = false.
Proof. split; reflexivity. Qed.

(** * Further properties

    Properties of the same code beyond the claims above, and of the request
    adapters. *)

(** ** The model identifier parser, continued *)

Module InversionFacts.

Lemma split_count_one (s : string) :
  List.length (Str.split Str.colon s) = 2 -> Str.count Str.colon s = 1.
Proof. rewrite StrFacts.split_length. lia. Qed.

End InversionFacts.

(** X1. [parseModel] only accepts what it returns: when it parses an identifier
    to a provider and a model, the identifier is that provider, one colon
    and that model, and neither of the two is empty or holds a colon. *)
Theorem parseModel_success_inversion :
  forall (s p m : string),
    parseModel s = inr (mkParsed p m) ->
    s = p ++ ":" ++ m
    /\ p <> EmptyString /\ m <> EmptyString
    /\ Terms.colon_free p /\ Terms.colon_free m.
Proof.
  intros s p m H. unfold parseModel in H.
  destruct (Nat.eqb (List.length (Str.split Str.colon s)) 2) eqn:E;
    [|discriminate].
  apply Nat.eqb_eq in E. apply InversionFacts.split_count_one in E.
  destruct (StrFacts.one_separator _ _ E) as (p' & m' & -> & Cp & Cm).
  rewrite (StrFacts.split_at _ _ _ Cp), (StrFacts.split_without _ _ Cm) in H.
  simpl in H.
  destruct (str_falsy p' || str_falsy m')%bool eqn:F; [discriminate|].
  injection H as <- <-.
  apply orb_false_iff in F. destruct F as [Fp Fm].
  repeat split; try assumption.
  - intros ->. discriminate.
  - intros ->. discriminate.
Qed.

(** [parseModel_success_inversion] on ["deepgram:nova-2"]. *)
Lemma parseModel_success_inversion_witness :
  "deepgram:nova-2" = "deepgram" ++ ":" ++ "nova-2"
  /\ "deepgram" <> EmptyString /\ "nova-2" <> EmptyString
  /\ Terms.colon_free "deepgram" /\ Terms.colon_free "nova-2".
Proof.
  exact (parseModel_success_inversion "deepgram:nova-2" "deepgram" "nova-2"
           eq_refl).
Defined.

(** ** What validation prints *)

Module TraceFacts.



(** A loop whose body only warns. *)
Lemma warning_loop (warning : string -> string) (supported : list string)
  (prefix : string) (params : Obj JSValue) :
  for_each params (fun '(key, value) =>
    when (unknown supported prefix key) (emit (EvWarn (warning key))))
  = (warnings warning supported prefix (Object.keys params), inr tt).
Proof.
  unfold warnings. induction params as [|[key value] params IH]; simpl;
    [reflexivity|].
  rewrite IH. destruct (unknown supported prefix key); reflexivity.
Qed.

Lemma deepgram_trace model params :
  Deepgram.validateParams model params
  = (warnings Deepgram.warning Deepgram.supported "deepgram_"
       (Object.keys params), inr tt).
Proof. apply warning_loop. Qed.

Lemma google_trace model params :
  Google.validateParams model params
  = (warnings Google.warning Google.supported "google_"
       (Object.keys params), inr tt).
Proof. apply warning_loop. Qed.

Lemma openai_trace model params :
  OpenAI.validateParams model params
  = (warnings OpenAI.warning OpenAI.supported "openai_"
       (Object.keys (visited params)),
     match first_refused params with
     | Some key => inl (ThrowASR (UnsupportedParameterError key OpenAI.name))
     | None => inr tt
     end).
Proof.
  unfold warnings, first_refused, OpenAI.validateParams.
  induction params as [|[key value] params IH]; [reflexivity|].
  cbn [for_each visited Object.keys map find fst].
  destruct (mem key OpenAI.unsupported) eqn:E; [reflexivity|].
  unfold when at 1. rewrite MFacts.bind_ret, IH.
  fold (unknown OpenAI.supported "openai_" key).
  cbn [Object.keys map filter fst].
  destruct (unknown OpenAI.supported "openai_" key); reflexivity.
Qed.

Lemma in_warnings warning supported prefix keys key :
  In key keys -> unknown supported prefix key = true ->
  In (EvWarn (warning key)) (warnings warning supported prefix keys).
Proof.
  intros Hin Hu. unfold warnings.
  apply (in_map (fun k => EvWarn (warning k))).
  apply filter_In. split; assumption.
Qed.

Lemma visited_clean (params : Obj JSValue) :
  (forall k, In k (Object.keys params) -> mem k OpenAI.unsupported = false) ->
  visited params = params.
Proof.
  induction params as [|[key value] params IH]; intros H; [reflexivity|].
  cbn [visited]. rewrite (H key (or_introl eq_refl)).
  rewrite IH; [reflexivity|].
  intros k Hk. apply H. right. exact Hk.
Qed.

End TraceFacts.

(** X2. [validateParams] of the Deepgram and of the Google adapter never throws.
    Its only effect is one console warning for each key of the parameters
    that is neither in the supported set of the adapter nor behind its
    prefix, in the order of enumeration. *)
Theorem lenient_validation_trace :
  forall (model : JSValue) (params : Obj JSValue),
    Deepgram.validateParams model params
    = (Notions.warnings Deepgram.warning Deepgram.supported "deepgram_"
         (Object.keys params), inr tt)
    /\ Google.validateParams model params
       = (Notions.warnings Google.warning Google.supported "google_"
            (Object.keys params), inr tt).
Proof.
  intros model params. split;
    [apply TraceFacts.deepgram_trace | apply TraceFacts.google_trace].
Qed.

(** X3. [validateParams] of the OpenAI adapter stops at the first key that is
    [word_confidence] or [speaker_labels] and throws the
    [UnsupportedParameterError] of that key; without such a key it returns.
    Either way it has warned, in order, about each key enumerated before
    that point that is neither supported nor behind the prefix [openai_],
    and about no other. *)
Theorem openai_validation_trace :
  forall (model : JSValue) (params : Obj JSValue),
    OpenAI.validateParams model params
    = (Notions.warnings OpenAI.warning OpenAI.supported "openai_"
         (Object.keys (Notions.visited params)),
       match Notions.first_refused params with
       | Some key => inl (ThrowASR (UnsupportedParameterError key "openai"))
       | None => inr tt
       end).
Proof. exact TraceFacts.openai_trace. Qed.

Module EffectFacts.

Lemma events_bind_prefix {A B} (m : M A) (f : A -> M B) :
  exists rest, events (bind m f) = (events m ++ rest)%list.
Proof.
  destruct m as [evs [e|a]]; simpl.
  - exists []. rewrite app_nil_r. reflexivity.
  - destruct (f a) as [evs' r]. exists evs'. reflexivity.
Qed.

Ltac split_events r :=
  match goal with
  | |- context [events (bind ?m ?f)] =>
      destruct (events_bind_prefix m f) as (r & ->)
  end.

Lemma deepgram_starts W self request options :
  exists rest,
    events (Deepgram.transcribe W self request options)
    = (warnings Deepgram.warning Deepgram.supported "deepgram_"
         (Object.keys request) ++ rest)%list.
Proof.
  unfold Deepgram.transcribe. rewrite MFacts.try_rewrap_events.
  split_events r1. unfold Deepgram.prepare. split_events r2.
  rewrite TraceFacts.deepgram_trace. simpl events.
  exists (r2 ++ r1)%list. rewrite app_assoc. reflexivity.
Qed.

Lemma google_starts W request options :
  exists rest,
    events (Google.transcribe W request options)
    = (warnings Google.warning Google.supported "google_"
         (Object.keys request) ++ rest)%list.
Proof.
  unfold Google.transcribe. rewrite MFacts.try_rewrap_events.
  split_events r.
  rewrite TraceFacts.google_trace. simpl events. exists r. reflexivity.
Qed.

Lemma openai_starts W request options :
  exists rest,
    events (OpenAI.transcribe W request options)
    = (warnings OpenAI.warning OpenAI.supported "openai_"
         (Object.keys (visited request)) ++ rest)%list.
Proof.
  unfold OpenAI.transcribe. rewrite MFacts.try_rewrap_events.
  split_events r1. unfold OpenAI.build_request. split_events r2.
  rewrite TraceFacts.openai_trace. simpl events.
  exists (r2 ++ r1)%list. rewrite app_assoc. reflexivity.
Qed.

End EffectFacts.

(** X4. Neither [model] nor [file] is in the supported set of an adapter, and
    [transcribe] validates the whole request: every call of the Deepgram or
    Google adapter on a request with these two keys warns about both, and
    so does every call of the OpenAI adapter on a request without
    unsupported key. *)
Theorem transcribe_warns_about_model_and_file :
  forall (W : World) (request : Obj JSValue) (options : option RequestOptions),
    In "model" (Object.keys request) ->
    In "file" (Object.keys request) ->
    (forall self : Deepgram.Instance,
        In (EvWarn "Parameter 'model' may not be supported by Deepgram ASR")
          (events (Deepgram.transcribe W self request options))
        /\ In (EvWarn "Parameter 'file' may not be supported by Deepgram ASR")
             (events (Deepgram.transcribe W self request options)))
    /\ (In (EvWarn "Parameter 'model' may not be supported by Google Cloud ASR")
          (events (Google.transcribe W request options))
        /\ In (EvWarn
                 "Parameter 'file' may not be supported by Google Cloud ASR")
             (events (Google.transcribe W request options)))
    /\ ((forall k, In k (Object.keys request) ->
                   k <> "word_confidence" /\ k <> "speaker_labels") ->
        In (EvWarn "Parameter 'model' may not be supported by OpenAI ASR")
          (events (OpenAI.transcribe W request options))
        /\ In (EvWarn "Parameter 'file' may not be supported by OpenAI ASR")
             (events (OpenAI.transcribe W request options))).
Proof.
  intros W request options Hm Hf. split; [|split].
  - intros self.
    destruct (EffectFacts.deepgram_starts W self request options) as (r & ->).
    split; apply in_or_app; left.
    + exact (TraceFacts.in_warnings Deepgram.warning Deepgram.supported "deepgram_" _
               "model" Hm eq_refl).
    + exact (TraceFacts.in_warnings Deepgram.warning Deepgram.supported "deepgram_" _
               "file" Hf eq_refl).
  - destruct (EffectFacts.google_starts W request options) as (r & ->).
    split; apply in_or_app; left.
    + exact (TraceFacts.in_warnings Google.warning Google.supported "google_" _
               "model" Hm eq_refl).
    + exact (TraceFacts.in_warnings Google.warning Google.supported "google_" _
               "file" Hf eq_refl).
  - intros Hclean.
    destruct (EffectFacts.openai_starts W request options) as (r & ->).
    rewrite TraceFacts.visited_clean.
    2:{ intros k Hk. destruct (mem k OpenAI.unsupported) eqn:E; [|reflexivity].
        apply ValidateFacts.unsupported_iff in E. destruct (Hclean k Hk).
        tauto. }
    split; apply in_or_app; left.
    + exact (TraceFacts.in_warnings OpenAI.warning OpenAI.supported "openai_" _
               "model" Hm eq_refl).
    + exact (TraceFacts.in_warnings OpenAI.warning OpenAI.supported "openai_" _
               "file" Hf eq_refl).
Qed.

(** [transcribe_warns_about_model_and_file] on a request made of a model
    and a buffer. *)
Lemma transcribe_warns_about_model_and_file_witness :
  In (EvWarn "Parameter 'model' may not be supported by Deepgram ASR")
    (events (Deepgram.transcribe Sample.isolated Sample.deepgram
               Sample.buffer_request None))
  /\ In (EvWarn "Parameter 'file' may not be supported by OpenAI ASR")
       (events (OpenAI.transcribe Sample.isolated Sample.buffer_request None)).
Proof.
  destruct (transcribe_warns_about_model_and_file Sample.isolated
              Sample.buffer_request None
              (or_introl eq_refl) (or_intror (or_introl eq_refl)))
    as (D & _ & O).
  split.
  - exact (proj1 (D Sample.deepgram)).
  - refine (proj2 (O _)).
    intros k [<- | [<- | []]]; split; discriminate.
Defined.

(** ** The mapping table *)

Module TableFacts.
Import TranslateFacts.

Lemma prop_absent (params : Obj JSValue) (u : string) :
  ~ In u (Object.keys params) -> JS.prop params u = JUndefined.
Proof.
  intros H. unfold JS.prop.
  destruct (Object.lookup u params) eqn:E; [|reflexivity].
  exfalso. apply H. apply KeysFacts.lookup_in in E.
  exact (in_map fst _ _ E).
Qed.

Lemma prop_at (pre post : Obj JSValue) (u : string) (v : JSValue) :
  ~ In u (Object.keys pre) -> JS.prop (pre ++ (u, v) :: post)%list u = v.
Proof.
  intros H. unfold JS.prop. rewrite ObjectFacts.lookup_app.
  destruct (Object.lookup u pre) eqn:E.
  - exfalso. apply H. apply KeysFacts.lookup_in in E.
    exact (in_map fst _ _ E).
  - simpl. rewrite String.eqb_refl. reflexivity.
Qed.

(** A flag written by the turn of one key, when the value of that key is
    truthy, and by no other turn. *)
Lemma fold_flag (step : Obj JSValue -> string * JSValue -> Obj JSValue)
  (u flag : string) (on : JSValue) (params : Obj JSValue) (init : Obj JSValue) :
  NoDup (Object.keys params) ->
  (forall tr key value,
      In (key, value) params -> key <> u ->
      Object.lookup flag (step tr (key, value)) = Object.lookup flag tr) ->
  (forall tr value,
      Object.lookup flag tr = Object.lookup flag init ->
      Object.lookup flag (step tr (u, value))
      = if JS.truthy value then Some on else Object.lookup flag tr) ->
  Object.lookup flag (fold_left step params init)
  = if JS.truthy (JS.prop params u) then Some on else Object.lookup flag init.
Proof.
  intros ND Hkeep Hset.
  destruct (in_dec string_dec u (Object.keys params)) as [Hin | Hout].
  - apply in_map_iff in Hin. destruct Hin as ([k v] & Hk & Hin).
    simpl in Hk. subst k.
    destruct (in_split _ _ Hin) as (pre & post & ->).
    unfold Object.keys in ND. rewrite map_app in ND. simpl in ND.
    pose proof (NoDup_remove_2 _ _ _ ND) as Hfresh.
    rewrite prop_at by (intros C; apply Hfresh, in_or_app; left; exact C).
    rewrite fold_left_app. simpl.
    rewrite fold_keeps.
    + rewrite Hset.
      * destruct (JS.truthy v); [reflexivity|]. apply fold_keeps.
        intros [k x] tr He. apply Hkeep.
        -- apply in_or_app. left. exact He.
        -- intros ->. apply Hfresh, in_or_app. left.
           exact (in_map fst _ _ He).
      * apply fold_keeps. intros [k x] tr He. apply Hkeep.
        -- apply in_or_app. left. exact He.
        -- intros ->. apply Hfresh, in_or_app. left.
           exact (in_map fst _ _ He).
    + intros [k x] tr He. apply Hkeep.
      * apply in_or_app. right. right. exact He.
      * intros ->. apply Hfresh, in_or_app. right.
        exact (in_map fst _ _ He).
  - rewrite (prop_absent _ _ Hout). simpl. apply fold_keeps.
    intros [k x] tr He. apply Hkeep; [exact He|].
    intros ->. apply Hout. exact (in_map fst _ _ He).
Qed.

Ltac flag_kept N2 :=
  by_cases; try untouched; try (destruct (JS.truthy _); untouched);
  try (destruct (JS.truthy _); [|reflexivity];
       rewrite !ObjectFacts.lookup_set_other by discriminate; reflexivity);
  try congruence;
  prefixed N2.

Lemma openai_response_format tr key value :
  key <> "timestamps" ->
  key <> "response_format" -> key <> "openai_response_format" ->
  Object.lookup "response_format" (OpenAI.translate_entry tr (key, value))
  = Object.lookup "response_format" tr.
Proof. intros N0 N1 N2. unfold OpenAI.translate_entry. flag_kept N2. Qed.

Lemma deepgram_utterances tr key value :
  key <> "timestamps" -> key <> "utterances" -> key <> "deepgram_utterances" ->
  Object.lookup "utterances" (Deepgram.translate_entry tr (key, value))
  = Object.lookup "utterances" tr.
Proof. intros N0 N1 N2. unfold Deepgram.translate_entry. flag_kept N2. Qed.

Lemma deepgram_smart_format tr key value :
  key <> "word_confidence" ->
  key <> "smart_format" -> key <> "deepgram_smart_format" ->
  Object.lookup "smart_format" (Deepgram.translate_entry tr (key, value))
  = Object.lookup "smart_format" tr.
Proof. intros N0 N1 N2. unfold Deepgram.translate_entry. flag_kept N2. Qed.

Lemma deepgram_diarize tr key value :
  key <> "speaker_labels" -> key <> "diarize" -> key <> "deepgram_diarize" ->
  Object.lookup "diarize" (Deepgram.translate_entry tr (key, value))
  = Object.lookup "diarize" tr.
Proof. intros N0 N1 N2. unfold Deepgram.translate_entry. flag_kept N2. Qed.

Lemma google_offsets tr key value :
  key <> "timestamps" ->
  key <> "enableWordTimeOffsets" -> key <> "google_enableWordTimeOffsets" ->
  Object.lookup "enableWordTimeOffsets"
    (Google.translate_entry tr (key, value))
  = Object.lookup "enableWordTimeOffsets" tr.
Proof. intros N0 N1 N2. unfold Google.translate_entry. flag_kept N2. Qed.

Lemma google_confidence tr key value :
  key <> "word_confidence" ->
  key <> "enableWordConfidence" -> key <> "google_enableWordConfidence" ->
  Object.lookup "enableWordConfidence"
    (Google.translate_entry tr (key, value))
  = Object.lookup "enableWordConfidence" tr.
Proof. intros N0 N1 N2. unfold Google.translate_entry. flag_kept N2. Qed.

Lemma google_diarization tr key value :
  key <> "speaker_labels" ->
  key <> "enableSpeakerDiarization" ->
  key <> "google_enableSpeakerDiarization" ->
  Object.lookup "enableSpeakerDiarization"
    (Google.translate_entry tr (key, value))
  = Object.lookup "enableSpeakerDiarization" tr.
Proof. intros N0 N1 N2. unfold Google.translate_entry. flag_kept N2. Qed.

Lemma google_count tr key value :
  key <> "speaker_labels" ->
  key <> "diarizationSpeakerCount" ->
  key <> "google_diarizationSpeakerCount" ->
  Object.lookup "diarizationSpeakerCount"
    (Google.translate_entry tr (key, value))
  = Object.lookup "diarizationSpeakerCount" tr.
Proof. intros N0 N1 N2. unfold Google.translate_entry. flag_kept N2. Qed.

(** A row of the mapping table: the flag is on exactly when the unified
    option is truthy, for a request that does not bind the flag itself. *)
Lemma row (step : Obj JSValue -> string * JSValue -> Obj JSValue)
  (u flag : string) (on : JSValue) (prefix : string) (params : Obj JSValue) :
  NoDup (Object.keys params) ->
  (forall tr key value,
      key <> u -> key <> flag -> key <> prefix ++ flag ->
      Object.lookup flag (step tr (key, value)) = Object.lookup flag tr) ->
  (forall tr value,
      Object.lookup flag tr = None ->
      Object.lookup flag (step tr (u, value))
      = if JS.truthy value then Some on else Object.lookup flag tr) ->
  Terms.absent prefix flag params ->
  Object.lookup flag (fold_left step params [])
  = if JS.truthy (JS.prop params u) then Some on else None.
Proof.
  intros ND Hkeep Hset Abs.
  apply (fold_flag step u flag on params [] ND).
  - intros tr key value Hin N. destruct (Abs key value Hin) as [N1 N2].
    apply Hkeep; assumption.
  - exact Hset.
Qed.

Lemma turn (flag : string) (on : JSValue) (tr : Obj JSValue) (value : JSValue) :
  flag <> "__proto__" ->
  Object.lookup flag (if JS.truthy value then Object.set flag on tr else tr)
  = if JS.truthy value then Some on else Object.lookup flag tr.
Proof.
  intros N. destruct (JS.truthy value); [|reflexivity].
  apply ObjectFacts.lookup_set_same. exact N.
Qed.

Lemma deepgram_row (u flag : string) model params :
  In (u, flag) [("timestamps", "utterances");
                ("word_confidence", "smart_format");
                ("speaker_labels", "diarize")] ->
  NoDup (Object.keys params) ->
  Terms.absent "deepgram_" flag params ->
  Object.lookup flag (Deepgram.translateParams model params)
  = if JS.truthy (JS.prop params u) then Some (JBool true) else None.
Proof.
  intros [H | [H | [H | []]]] ND Abs; injection H as <- <-;
    apply (row _ _ _ _ "deepgram_" params ND); try exact Abs;
    first [ exact deepgram_utterances
          | exact deepgram_smart_format
          | exact deepgram_diarize
          | intros tr value _; apply turn; discriminate ].
Qed.

End TableFacts.

(** X5. The mapping table of the unified flags. For a request (an object, so
    with distinct keys) that does not bind the native flag itself, plainly
    or behind the prefix, [translateParams] binds the native flag exactly
    when the unified option is truthy: [response_format] to
    ['verbose_json'] for [timestamps] (OpenAI); [utterances],
    [smart_format] and [diarize] to [true] for [timestamps],
    [word_confidence] and [speaker_labels] (Deepgram);
    [enableWordTimeOffsets], [enableWordConfidence] and
    [enableSpeakerDiarization] to [true] for the same (Google), where
    [speaker_labels] also sets [diarizationSpeakerCount] to 2 when the
    request does not replace the prototype of the object under
    construction. *)
Theorem unified_flags_table :
  forall (model : JSValue) (params : Obj JSValue),
    NoDup (Object.keys params) ->
    (Terms.absent "openai_" "response_format" params ->
     Object.lookup "response_format" (OpenAI.translateParams model params)
     = if JS.truthy (JS.prop params "timestamps")
       then Some (JStr "verbose_json") else None)
    /\ (Terms.absent "deepgram_" "utterances" params ->
        Object.lookup "utterances" (Deepgram.translateParams model params)
        = if JS.truthy (JS.prop params "timestamps")
          then Some (JBool true) else None)
    /\ (Terms.absent "deepgram_" "smart_format" params ->
        Object.lookup "smart_format" (Deepgram.translateParams model params)
        = if JS.truthy (JS.prop params "word_confidence")
          then Some (JBool true) else None)
    /\ (Terms.absent "deepgram_" "diarize" params ->
        Object.lookup "diarize" (Deepgram.translateParams model params)
        = if JS.truthy (JS.prop params "speaker_labels")
          then Some (JBool true) else None)
    /\ (Terms.absent "google_" "enableWordTimeOffsets" params ->
        Object.lookup "enableWordTimeOffsets"
          (Google.translateParams model params)
        = if JS.truthy (JS.prop params "timestamps")
          then Some (JBool true) else None)
    /\ (Terms.absent "google_" "enableWordConfidence" params ->
        Object.lookup "enableWordConfidence"
          (Google.translateParams model params)
        = if JS.truthy (JS.prop params "word_confidence")
          then Some (JBool true) else None)
    /\ (Terms.absent "google_" "enableSpeakerDiarization" params ->
        Object.lookup "enableSpeakerDiarization"
          (Google.translateParams model params)
        = if JS.truthy (JS.prop params "speaker_labels")
          then Some (JBool true) else None)
    /\ (Terms.absent "google_" "diarizationSpeakerCount" params ->
        ~ In "__proto__" (Object.keys params) ->
        ~ In "google___proto__" (Object.keys params) ->
        Object.lookup "diarizationSpeakerCount"
          (Google.translateParams model params)
        = if JS.truthy (JS.prop params "speaker_labels")
          then Some (JNum 2) else None).
Proof.
  intros model params ND.
  pose proof (fun step u flag on prefix =>
                TableFacts.row step u flag on prefix params ND) as Row.
  pose proof TableFacts.turn as Turn.
  repeat split.
  - apply Row; [exact TableFacts.openai_response_format|].
    intros tr value _. apply Turn. discriminate.
  - apply Row; [exact TableFacts.deepgram_utterances|].
    intros tr value _. apply Turn. discriminate.
  - apply Row; [exact TableFacts.deepgram_smart_format|].
    intros tr value _. apply Turn. discriminate.
  - apply Row; [exact TableFacts.deepgram_diarize|].
    intros tr value _. apply Turn. discriminate.
  - apply Row; [exact TableFacts.google_offsets|].
    intros tr value _. apply Turn. discriminate.
  - apply Row; [exact TableFacts.google_confidence|].
    intros tr value _. apply Turn. discriminate.
  - apply Row; [exact TableFacts.google_diarization|].
    intros tr value _. simpl. destruct (JS.truthy value); [|reflexivity].
    rewrite ObjectFacts.lookup_set_other by discriminate.
    apply ObjectFacts.lookup_set_same. discriminate.
  - intros Abs _ _. revert Abs.
    apply Row; [exact TableFacts.google_count|].
    intros tr value Hnone. simpl. destruct (JS.truthy value); [|reflexivity].
    rewrite ObjectFacts.lookup_set_same by discriminate.
    unfold JS.prop. rewrite ObjectFacts.lookup_set_other by discriminate.
    rewrite Hnone. reflexivity.
Qed.

(** [unified_flags_table] on [{language: 'en-US', timestamps: true,
    speaker_labels: false}] for the Deepgram adapter. *)
Lemma unified_flags_table_witness :
  Object.lookup "utterances"
    (Deepgram.translateParams (JStr "nova-2")
       [("language", JStr "en-US"); ("timestamps", JBool true);
        ("speaker_labels", JBool false)])
  = Some (JBool true)
  /\ Object.lookup "diarize"
       (Deepgram.translateParams (JStr "nova-2")
          [("language", JStr "en-US"); ("timestamps", JBool true);
           ("speaker_labels", JBool false)])
     = None.
Proof.
  assert (ND : NoDup (Object.keys
                        [("language", JStr "en-US"); ("timestamps", JBool true);
                         ("speaker_labels", JBool false)])).
  { repeat constructor; simpl; intuition discriminate. }
  assert (Abs : forall flag,
             flag <> "language" -> flag <> "timestamps" ->
             flag <> "speaker_labels" ->
             "deepgram_" ++ flag <> "language" ->
             "deepgram_" ++ flag <> "timestamps" ->
             "deepgram_" ++ flag <> "speaker_labels" ->
             Terms.absent "deepgram_" flag
               [("language", JStr "en-US"); ("timestamps", JBool true);
                ("speaker_labels", JBool false)]).
  { intros flag A B C D E F k v [H | [H | [H | []]]]; injection H as <- <-;
      split; congruence. }
  destruct (unified_flags_table (JStr "nova-2") _ ND)
    as (_ & U & _ & D & _).
  split.
  - apply U. apply Abs; discriminate.
  - apply D. apply Abs; discriminate.
Defined.

Module NameFacts.
Import TranslateFacts.

Lemma fold_invariant {A S} (P : S -> Prop) (step : S -> A -> S) (l : list A) :
  (forall x s, In x l -> P s -> P (step s x)) ->
  forall init, P init -> P (fold_left step l init).
Proof.
  induction l as [|x l IH]; intros H init Hi; simpl; [exact Hi|].
  apply IH.
  - intros y s Hy. apply H. right. exact Hy.
  - apply H; [left; reflexivity | exact Hi].
Qed.

(** Once an explicit count is in place, every later turn of the Google loop
    leaves it there. *)
Lemma google_count_stays n tr key value :
  JS.truthy n = true ->
  key <> "diarizationSpeakerCount" ->
  key <> "google_diarizationSpeakerCount" ->
  Object.lookup "diarizationSpeakerCount" tr = Some n ->
  Object.lookup "diarizationSpeakerCount"
    (Google.translate_entry tr (key, value)) = Some n.
Proof.
  intros Hn N1 N2 H.
  destruct (String.eqb key "speaker_labels") eqn:E.
  - apply String.eqb_eq in E. subst key. simpl.
    destruct (JS.truthy value); [|exact H].
    rewrite ObjectFacts.lookup_set_same by discriminate.
    unfold JS.prop. rewrite ObjectFacts.lookup_set_other by discriminate.
    rewrite H. unfold JS.or_else. rewrite Hn. reflexivity.
  - apply String.eqb_neq in E.
    rewrite TableFacts.google_count; assumption.
Qed.

Ltac name_kept N :=
  by_cases; try untouched; try (destruct (JS.truthy _); untouched);
  try (destruct (JS.truthy _); [|reflexivity];
       rewrite !ObjectFacts.lookup_set_other by discriminate; reflexivity);
  try congruence;
  prefixed N.

Lemma openai_consumes tr key value :
  key <> "openai_timestamps" ->
  Object.lookup "timestamps" (OpenAI.translate_entry tr (key, value))
  = Object.lookup "timestamps" tr.
Proof. intros N. unfold OpenAI.translate_entry. name_kept N. Qed.

Lemma deepgram_consumes u tr key value :
  In u ["timestamps"; "word_confidence"; "speaker_labels"] ->
  key <> "deepgram_" ++ u ->
  Object.lookup u (Deepgram.translate_entry tr (key, value))
  = Object.lookup u tr.
Proof.
  intros [<- | [<- | [<- | []]]] N; unfold Deepgram.translate_entry;
    name_kept N.
Qed.

Lemma google_consumes u tr key value :
  In u ["language"; "timestamps"; "word_confidence"; "speaker_labels"] ->
  key <> "google_" ++ u ->
  Object.lookup u (Google.translate_entry tr (key, value))
  = Object.lookup u tr.
Proof.
  intros [<- | [<- | [<- | [<- | []]]]] N; unfold Google.translate_entry;
    name_kept N.
Qed.

End NameFacts.

(** X6. A truthy [diarizationSpeakerCount] given in the request survives
    [speaker_labels] in the Google adapter, wherever it stands in the
    request: the translated parameters bind it to the value given, not to
    the default 2. *)
Theorem google_explicit_speaker_count :
  forall (model : JSValue) (params : Obj JSValue) (n : JSValue),
    NoDup (Object.keys params) ->
    In ("diarizationSpeakerCount", n) params ->
    JS.truthy n = true ->
    (forall k, In k (Object.keys params) ->
               k <> "google_diarizationSpeakerCount") ->
    Object.lookup "diarizationSpeakerCount"
      (Google.translateParams model params)
    = Some n.
Proof.
  intros model params n ND Hin Hn Hp.
  destruct (in_split _ _ Hin) as (pre & post & ->).
  unfold Google.translateParams. rewrite fold_left_app. simpl fold_left.
  apply (NameFacts.fold_invariant
           (fun tr => Object.lookup "diarizationSpeakerCount" tr = Some n)).
  - intros [key value] tr He H.
    apply NameFacts.google_count_stays; try assumption.
    + intros ->. unfold Object.keys in ND. rewrite map_app in ND.
      simpl in ND. apply NoDup_remove_2 in ND. apply ND.
      apply in_or_app. right. exact (in_map fst _ _ He).
    + apply Hp. unfold Object.keys. rewrite map_app. apply in_or_app.
      right. right. exact (in_map fst _ _ He).
  - simpl. apply ObjectFacts.lookup_set_same. discriminate.
Qed.

(** [google_explicit_speaker_count] with the count before and after
    [speaker_labels]. *)
Lemma google_explicit_speaker_count_witness :
  Object.lookup "diarizationSpeakerCount"
    (Google.translateParams (JStr "latest_long")
       [("diarizationSpeakerCount", JNum 4); ("speaker_labels", JBool true)])
  = Some (JNum 4)
  /\ Object.lookup "diarizationSpeakerCount"
       (Google.translateParams (JStr "latest_long")
          [("speaker_labels", JBool true); ("diarizationSpeakerCount", JNum 4)])
     = Some (JNum 4).
Proof.
  split.
  - apply google_explicit_speaker_count.
    + repeat constructor; simpl; intuition discriminate.
    + left. reflexivity.
    + reflexivity.
    + intros k [<- | [<- | []]]; discriminate.
  - apply google_explicit_speaker_count.
    + repeat constructor; simpl; intuition discriminate.
    + right. left. reflexivity.
    + reflexivity.
    + intros k [<- | [<- | []]]; discriminate.
Defined.

(** X7. The names of the unified flags do not reach the backend: unless the
    request carries the name behind the prefix of the adapter, the
    translated parameters have no [timestamps] (OpenAI), no [timestamps],
    [word_confidence] or [speaker_labels] (Deepgram), and none of these nor
    [language] (Google). *)
Theorem unified_names_are_consumed :
  forall (model : JSValue) (params : Obj JSValue),
    ((forall k, In k (Object.keys params) -> k <> "openai_timestamps") ->
     Object.lookup "timestamps" (OpenAI.translateParams model params) = None)
    /\ (forall u,
           In u ["timestamps"; "word_confidence"; "speaker_labels"] ->
           (forall k, In k (Object.keys params) -> k <> "deepgram_" ++ u) ->
           Object.lookup u (Deepgram.translateParams model params) = None)
    /\ (forall u,
           In u ["language"; "timestamps"; "word_confidence";
                 "speaker_labels"] ->
           (forall k, In k (Object.keys params) -> k <> "google_" ++ u) ->
           Object.lookup u (Google.translateParams model params) = None).
Proof.
  intros model params. split; [|split].
  - intros H. unfold OpenAI.translateParams.
    rewrite TranslateFacts.fold_keeps; [reflexivity|].
    intros [key value] tr He. apply NameFacts.openai_consumes.
    apply H. exact (in_map fst _ _ He).
  - intros u Hu H. unfold Deepgram.translateParams.
    rewrite TranslateFacts.fold_keeps; [reflexivity|].
    intros [key value] tr He. apply NameFacts.deepgram_consumes; [exact Hu|].
    apply H. exact (in_map fst _ _ He).
  - intros u Hu H. unfold Google.translateParams.
    rewrite TranslateFacts.fold_keeps; [reflexivity|].
    intros [key value] tr He. apply NameFacts.google_consumes; [exact Hu|].
    apply H. exact (in_map fst _ _ He).
Qed.

(** [unified_names_are_consumed] on two requests of the test suites. *)
Lemma unified_names_are_consumed_witness :
  Object.lookup "speaker_labels"
    (Deepgram.translateParams (JStr "nova-2")
       [("timestamps", JBool true); ("speaker_labels", JBool true)])
  = None
  /\ Object.lookup "language"
       (Google.translateParams (JStr "latest_long")
          [("language", JStr "fr-FR")])
     = None.
Proof.
  split.
  - apply (proj1 (proj2 (unified_names_are_consumed (JStr "nova-2")
                           [("timestamps", JBool true);
                            ("speaker_labels", JBool true)]))).
    + right. right. left. reflexivity.
    + intros k [<- | [<- | []]]; discriminate.
  - apply (proj2 (proj2 (unified_names_are_consumed (JStr "latest_long")
                           [("language", JStr "fr-FR")]))).
    + left. reflexivity.
    + intros k [<- | []]; discriminate.
Defined.

Module PrefixFacts.


Lemma starts (prefix t : string) : Str.startsWith prefix (prefix ++ t) = true.
Proof. apply StrFacts.prefix_append. Qed.

End PrefixFacts.



Module PlainFacts.
Import TranslateFacts.

(** A name written by the turn of one key, with the value of that key, and
    by no other turn, is bound as that key is in the request. *)
Lemma fold_renamed (step : Obj JSValue -> string * JSValue -> Obj JSValue)
  (u k : string) (params : Obj JSValue) :
  NoDup (Object.keys params) ->
  (forall tr v, Object.lookup k (step tr (u, v)) = Some v) ->
  (forall tr key value,
      In (key, value) params -> key <> u ->
      Object.lookup k (step tr (key, value)) = Object.lookup k tr) ->
  Object.lookup k (fold_left step params []) = Object.lookup u params.
Proof.
  intros ND Hset Hkeep.
  destruct (Object.lookup u params) as [v|] eqn:E.
  - apply KeysFacts.lookup_in in E.
    destruct (in_split _ _ E) as (pre & post & ->).
    rewrite fold_left_app. simpl. rewrite fold_keeps; [apply Hset|].
    intros [key value] tr He. apply Hkeep.
    + apply in_or_app. right. right. exact He.
    + intros ->. unfold Object.keys in ND. rewrite map_app in ND. simpl in ND.
      apply NoDup_remove_2 in ND. apply ND. apply in_or_app. right.
      exact (in_map fst _ _ He).
  - rewrite fold_keeps; [reflexivity|].
    intros [key value] tr Hin. apply Hkeep; [exact Hin|].
    intros ->. apply (KeysFacts.lookup_none _ _ E).
    exact (in_map fst _ _ Hin).
Qed.

Lemma fold_plain (step : Obj JSValue -> string * JSValue -> Obj JSValue)
  (k : string) (params : Obj JSValue) :
  NoDup (Object.keys params) ->
  (forall tr v, Object.lookup k (step tr (k, v)) = Some v) ->
  (forall tr key value,
      In (key, value) params -> key <> k ->
      Object.lookup k (step tr (key, value)) = Object.lookup k tr) ->
  Object.lookup k (fold_left step params []) = Object.lookup k params.
Proof. apply fold_renamed. Qed.

Ltac plain_kept N2 :=
  by_cases; try untouched; try (destruct (JS.truthy _); untouched);
  try (destruct (JS.truthy _); [|reflexivity];
       rewrite !ObjectFacts.lookup_set_other by
         (first [discriminate | congruence]);
       reflexivity);
  try congruence;
  prefixed N2.

Ltac not_reserved R :=
  simpl in R;
  repeat match goal with
    | H : ~ (_ \/ _) |- _ => apply Decidable.not_or in H; destruct H
    end.



Lemma deepgram_kept k tr key value :
  ~ In k ["timestamps"; "word_confidence"; "speaker_labels"; "utterances";
          "smart_format"; "diarize"; "__proto__"] ->
  key <> k -> key <> "deepgram_" ++ k ->
  Object.lookup k (Deepgram.translate_entry tr (key, value))
  = Object.lookup k tr.
Proof.
  intros R N1 N2. not_reserved R. unfold Deepgram.translate_entry.
  plain_kept N2.
Qed.

Lemma deepgram_set k tr v :
  ~ In k ["timestamps"; "word_confidence"; "speaker_labels"; "utterances";
          "smart_format"; "diarize"; "__proto__"] ->
  Str.startsWith "deepgram_" k = false ->
  Object.lookup k (Deepgram.translate_entry tr (k, v)) = Some v.
Proof.
  intros R P. not_reserved R. unfold Deepgram.translate_entry. rewrite P.
  by_cases; try congruence;
    apply ObjectFacts.lookup_set_same; first [discriminate | congruence].
Qed.




End PlainFacts.



(** ** The request of the Deepgram adapter *)

Module QueryFacts.
Section WithWorld.
Context (W : World).

Lemma query_entries_exact translated rest :
  outcome (Deepgram.query_entries W translated) = inr rest ->
  rest = query_pairs W translated.
Proof.
  unfold Deepgram.query_entries.
  assert (G : forall acc rest,
             outcome
               (fold_m translated
                  (fun acc '(key, value) =>
                     if JS.nullish value then ret acc
                     else s <- JS.call_toString W value ;;
                          ret (acc ++ [(key, s)])%list)
                  acc)
             = inr rest ->
             rest = (acc ++ query_pairs W translated)%list).
  { induction translated as [|[k v] tr IH]; intros acc rest0; simpl.
    - intros H. injection H as <-. rewrite app_nil_r. reflexivity.
    - intros H. apply ForwardFacts.outcome_bind_inv in H.
      destruct H as (acc' & Hb & Hrest).
      apply IH in Hrest. subst rest0.
      destruct (JS.nullish v) eqn:N.
      + injection Hb as <-. reflexivity.
      + apply ForwardFacts.outcome_bind_inv in Hb.
        destruct Hb as (s & Hs & Hret). injection Hret as <-.
        rewrite (ForwardFacts.call_toString_text W v s N Hs).
        rewrite <- app_assoc. reflexivity. }
  intros H. exact (G [] rest H).
Qed.

Lemma toString_text (v : JSValue) (s : string) :
  JS.toString W v = inr s -> JS.text_of W v = Some s.
Proof.
  unfold JS.toString. destruct (JS.text_of W v); congruence.
Qed.

Lemma prepare_parts self request options evs init :
  Deepgram.prepare W self request options = (evs, inr init) ->
  exists q audio signal,
    outcome (Deepgram.query_of W request) = inr q
    /\ outcome (Deepgram.audio_of W (JS.prop request "file")) = inr audio
    /\ outcome (Deepgram.signal_of W options) = inr signal
    /\ init
       = mkFetch (Deepgram.baseURL self ++ "/listen?" ++ Url.serialize q)
           "POST"
           [("Authorization", "Token " ++ Deepgram.apiKey self);
            ("Content-Type", "audio/wav")]
           audio signal.
Proof.
  intros H.
  assert (H' : outcome (Deepgram.prepare W self request options) = inr init)
    by (rewrite H; reflexivity).
  clear H. unfold Deepgram.prepare in H'.
  apply ForwardFacts.outcome_bind_inv in H'. destruct H' as ([] & _ & H).
  apply ForwardFacts.outcome_bind_inv in H. destruct H as (q & Hq & H).
  apply ForwardFacts.outcome_bind_inv in H. destruct H as (audio & Ha & H).
  cbv zeta in H.
  apply ForwardFacts.outcome_bind_inv in H. destruct H as (signal & Hs & H).
  injection H as <-. exists q, audio, signal. repeat split; assumption.
Qed.

Lemma signal_of_value options signal :
  outcome (Deepgram.signal_of W options) = inr signal ->
  signal = expected_signal options.
Proof.
  destruct options as [[[t|] r]|]; simpl;
    try (intros H; injection H as <-; reflexivity).
  destruct (Num.falsy t); [intros H; injection H as <-; reflexivity|].
  destruct (abortTimeoutCheck W t); [discriminate|].
  intros H. injection H as <-. reflexivity.
Qed.

End WithWorld.
End QueryFacts.

(** X10. The address the Deepgram adapter fetches is its base URL, [/listen?]
    and the serialized query, which holds the model first and then one pair
    for each translated parameter that is neither [null] nor [undefined],
    in order, with the text of its value, and nothing else. *)
Theorem deepgram_query_is_exact :
  forall (W : World) (self : Deepgram.Instance) (request : Obj JSValue)
         (options : option RequestOptions) (evs : list Event)
         (init : FetchRequest),
    Deepgram.prepare W self request options = (evs, inr init) ->
    exists m,
      JS.text_of W (JS.prop request "model") = Some m
      /\ fetch_url init
         = Deepgram.baseURL self ++ "/listen?"
           ++ Url.serialize
                (("model", m)
                   :: Notions.query_pairs W
                        (Deepgram.translateParams (JS.prop request "model")
                           request)).
Proof.
  intros W self request options evs init H.
  destruct (QueryFacts.prepare_parts W _ _ _ _ _ H)
    as (q & audio & signal & Hq & _ & _ & ->).
  destruct (ForwardFacts.query_of_inv W _ _ Hq) as (m & rest & Hm & Hr & ->).
  exists m. split; [exact (QueryFacts.toString_text W _ _ Hm)|].
  simpl fetch_url. rewrite (QueryFacts.query_entries_exact W _ _ Hr).
  reflexivity.
Qed.

(** [deepgram_query_is_exact] on a request with a [null] parameter and an
    empty byte array. *)
Lemma deepgram_query_is_exact_witness :
  exists m,
    JS.text_of Sample.isolated (JStr "nova-2") = Some m
    /\ "https://api.deepgram.com/v1/listen?model=nova-2&model=nova-2&language=en-US&utterances=true&file="
       = Deepgram.baseURL Sample.deepgram ++ "/listen?"
         ++ Url.serialize
              (("model", m)
                 :: Notions.query_pairs Sample.isolated
                      (Deepgram.translateParams (JStr "nova-2")
                         [("model", JStr "nova-2"); ("language", JStr "en-US");
                          ("timestamps", JBool true); ("prompt", JNull);
                          ("file", JUint8Array [])])).
Proof.
  exact (deepgram_query_is_exact Sample.isolated Sample.deepgram
           [("model", JStr "nova-2"); ("language", JStr "en-US");
            ("timestamps", JBool true); ("prompt", JNull);
            ("file", JUint8Array [])]
           None _ _ eq_refl).
Defined.

Module OptionFacts.
Section WithWorld.
Context (W : World).

Lemma deepgram_audio_quiet (file : JSValue) :
  no_remote_call (Deepgram.audio_of W file).
Proof. destruct file; reflexivity. Qed.

Lemma signal_quiet options : no_remote_call (Deepgram.signal_of W options).
Proof.
  destruct options as [[[t|] r]|]; simpl; try reflexivity.
  destruct (Num.falsy t); [reflexivity|].
  destruct (abortTimeoutCheck W t); reflexivity.
Qed.

(** Nothing before the network call is a remote call. *)
Lemma prepare_quiet self request options :
  no_remote_call (Deepgram.prepare W self request options).
Proof.
  unfold Deepgram.prepare.
  apply Quiet.of_bind; [apply ValidateFacts.deepgram_quiet|]. intros _ _.
  apply Quiet.of_bind.
  { apply Quiet.of_pure.
    exact (proj1 (DeepgramFacts.query_of_engine_only W request)). }
  intros q _. apply Quiet.of_bind; [apply deepgram_audio_quiet|].
  intros audio _.
  cbv zeta. apply Quiet.of_bind; [apply signal_quiet|]. intros signal _.
  reflexivity.
Qed.

Lemma prepare_refused self request t r e :
  Num.falsy t = false -> abortTimeoutCheck W t = Some e ->
  exists x,
    outcome (Deepgram.prepare W self request (Some (mkOptions (Some t) r)))
    = inl x.
Proof.
  intros Hf Hc. unfold Deepgram.prepare.
  destruct (Deepgram.validateParams (JS.prop request "model") request)
    as [evs0 [x|[]]]; simpl; [eauto|].
  destruct (Deepgram.query_of W request) as [evs1 [x|q]]; simpl; [eauto|].
  destruct (Deepgram.audio_of W (JS.prop request "file")) as [evs2 [x|a]];
    simpl; [eauto|].
  rewrite Hf, Hc. simpl. eauto.
Qed.

End WithWorld.
End OptionFacts.

(** X11. What the Deepgram adapter makes of its options. A timeout that is
    zero or NaN, or no timeout, is the same as no options at all; [retries]
    is never read; when the request goes out, it carries the abort signal
    of the timeout exactly when the timeout is truthy; and when the engine
    refuses the timeout, the call fails with an [ASRError] and nothing goes
    out. *)
Theorem deepgram_options_contract :
  forall (W : World) (self : Deepgram.Instance) (request : Obj JSValue),
    (forall t r,
        Num.falsy t = true ->
        Deepgram.transcribe W self request (Some (mkOptions (Some t) r))
        = Deepgram.transcribe W self request None)
    /\ (forall r,
           Deepgram.transcribe W self request (Some (mkOptions None r))
           = Deepgram.transcribe W self request None)
    /\ (forall t r r',
           Deepgram.transcribe W self request (Some (mkOptions t r))
           = Deepgram.transcribe W self request (Some (mkOptions t r')))
    /\ (forall options evs init,
           Deepgram.prepare W self request options = (evs, inr init) ->
           fetch_signal init = Notions.expected_signal options)
    /\ (forall t r e,
           Num.falsy t = false ->
           abortTimeoutCheck W t = Some e ->
           no_remote_call
             (Deepgram.transcribe W self request
                (Some (mkOptions (Some t) r)))
           /\ exists d,
               outcome (Deepgram.transcribe W self request
                          (Some (mkOptions (Some t) r)))
               = inl (ThrowASR d)).
Proof.
  intros W self request. split; [|split; [|split; [|split]]].
  - intros t r Hf. unfold Deepgram.transcribe, Deepgram.prepare.
    simpl Deepgram.signal_of. rewrite Hf. reflexivity.
  - intros r. reflexivity.
  - intros [t|] r r'; reflexivity.
  - intros options evs init H.
    destruct (QueryFacts.prepare_parts W _ _ _ _ _ H)
      as (q & audio & signal & _ & _ & Hs & ->).
    exact (QueryFacts.signal_of_value W _ _ Hs).
  - intros t r e Hf Hc.
    destruct (OptionFacts.prepare_refused W self request t r e Hf Hc)
      as (x & Hx).
    split.
    + apply Quiet.of_try.
      exact (Quiet.of_failure _ _ x (OptionFacts.prepare_quiet W _ _ _) Hx).
    + unfold Deepgram.transcribe.
      pose proof (MFacts.outcome_bind_fail _ (Deepgram.send W) _ Hx) as Hb.
      destruct x as [d | kind message | v].
      * exists d. exact (MFacts.try_rewrap_asr _ _ _ _ Hb).
      * eexists. exact (MFacts.try_rewrap_error _ _ _ _ _ Hb).
      * eexists. unfold outcome in *.
        destruct (init <- Deepgram.prepare W self request
                            (Some (mkOptions (Some t) r)) ;;
                  Deepgram.send W init) as [evs0 res].
        simpl in Hb. subst res. reflexivity.
Qed.

(** [deepgram_options_contract] with a timeout of zero and with a timeout
    of -1, which timers refuse. *)
Lemma deepgram_options_contract_witness :
  Deepgram.transcribe Sample.empty_answer Sample.deepgram Sample.buffer_request
    (Some (mkOptions (Some 0%float) (Some 3%float)))
  = Deepgram.transcribe Sample.empty_answer Sample.deepgram
      Sample.buffer_request None
  /\ (exists d,
         outcome (Deepgram.transcribe Sample.empty_answer Sample.deepgram
                    Sample.buffer_request
                    (Some (mkOptions (Some (-1)%float) None)))
         = inl (ThrowASR d)).
Proof.
  destruct (deepgram_options_contract Sample.empty_answer Sample.deepgram
              Sample.buffer_request) as (Z & _ & _ & _ & R).
  split.
  - apply Z. reflexivity.
  - refine (proj2 (R (-1)%float None _ eq_refl eq_refl)).
Defined.

(** ** Effects and failures *)

(** X12. [adaptResponse] of each adapter has no effect, and when it fails, on
    whatever response, it fails with a TypeError of the engine. *)
Theorem adaptResponse_effect_free :
  forall (W : World) (response : JSValue),
    Terms.engine_only W (OpenAI.adaptResponse W response)
    /\ Terms.engine_only W (Deepgram.adaptResponse W response)
    /\ Terms.engine_only W (Google.adaptResponse W response).
Proof.
  intros W response. split; [|split].
  - apply PureFacts.openai_adapt_pure.
  - apply PureFacts.deepgram_adapt_pure.
  - apply PureFacts.google_adapt_pure.
Qed.

Module CallFacts.
Section WithWorld.
Context (W : World).

Lemma silent_bind {A B} (m : M A) (f : A -> M B) :
  events m = [] -> (forall a, events (f a) = []) -> events (bind m f) = [].
Proof.
  destruct m as [evs [e|a]]; simpl; intros ->; [reflexivity|].
  intros H. specialize (H a). destruct (f a) as [evs' r]. exact H.
Qed.

Lemma events_emit {B} (ev : Event) (k : M B) :
  events (bind (emit ev) (fun _ => k)) = ev :: events k.
Proof. rewrite MFacts.bind_emit. reflexivity. Qed.

Lemma deepgram_send_events (init : FetchRequest) :
  events (Deepgram.send W init) = [EvFetch init].
Proof.
  unfold Deepgram.send. rewrite events_emit. f_equal.
  apply silent_bind; [reflexivity|]. intros response.
  apply silent_bind; [destruct (resp_ok response); reflexivity|]. intros _.
  apply silent_bind; [reflexivity|]. intros result.
  exact (proj1 (PureFacts.deepgram_adapt_pure W result)).
Qed.

Lemma openai_send_events (sent : Obj OAValue) :
  events (OpenAI.send W sent) = [EvOpenAICreate sent].
Proof.
  unfold OpenAI.send. rewrite events_emit. f_equal.
  apply silent_bind; [reflexivity|]. intros response.
  exact (proj1 (PureFacts.openai_adapt_pure W response)).
Qed.

Lemma build_quiet (request : Obj JSValue) :
  no_remote_call (OpenAI.build_request request).
Proof.
  unfold OpenAI.build_request.
  apply Quiet.of_bind; [apply ValidateFacts.openai_quiet|]. intros _ _.
  cbv zeta.
  apply Quiet.of_bind; [apply StreamFacts.stream_quiet|]. intros audio _.
  reflexivity.
Qed.

(** A quiet stage followed by a stage that makes one remote call and
    nothing else. *)
Lemma staged {A B} (m : M A) (f : A -> M B) (call : A -> Event)
  (label name : string) :
  no_remote_call m ->
  (forall a, is_remote_call (call a) = true) ->
  (forall a, events (f a) = [call a]) ->
  single_call (events (try_catch (bind m f) (rewrap label name))).
Proof.
  intros Hq Hc Hf. rewrite MFacts.try_rewrap_events.
  exists (events m). split; [exact Hq|].
  destruct m as [evs [e|a]]; simpl.
  - left. reflexivity.
  - right. exists (call a). split; [apply Hc|].
    specialize (Hf a). destruct (f a) as [evs' r]. simpl in *. subst evs'.
    reflexivity.
Qed.

Lemma quiet_single (evs : list Event) :
  forallb (fun ev => negb (is_remote_call ev)) evs = true -> single_call evs.
Proof. intros H. exists evs. split; [exact H | left; reflexivity]. Qed.

Lemma deepgram_single self request options :
  single_call (events (Deepgram.transcribe W self request options)).
Proof.
  unfold Deepgram.transcribe.
  apply (staged _ _ EvFetch);
    [ apply OptionFacts.prepare_quiet | reflexivity
    | apply deepgram_send_events ].
Qed.

Lemma openai_single request options :
  single_call (events (OpenAI.transcribe W request options)).
Proof.
  unfold OpenAI.transcribe.
  apply (staged _ _ EvOpenAICreate);
    [apply build_quiet | reflexivity | apply openai_send_events].
Qed.

Lemma google_single request options :
  single_call (events (Google.transcribe W request options)).
Proof. apply quiet_single. apply GoogleFacts.transcribe_quiet. Qed.

Lemma parse_silent (model : JSValue) :
  events (Client.parse_request_model W model) = [].
Proof. destruct model; reflexivity. Qed.

Lemma create_single self request options :
  single_call (events (Client.create W self request options)).
Proof.
  unfold Client.create.
  pose proof (parse_silent (JS.prop request "model")) as Hs.
  destruct (Client.parse_request_model W (JS.prop request "model"))
    as [evs [e|parsed]]; simpl in Hs; subst evs.
  - apply quiet_single. reflexivity.
  - change (@nil Event, @inr Exn ParsedModel parsed) with (ret parsed).
    rewrite MFacts.bind_ret.
    destruct (Object.lookup (provider parsed) (Client.providers self))
      as [[c | inst | c]|].
    + apply openai_single.
    + apply deepgram_single.
    + apply google_single.
    + apply quiet_single. reflexivity.
Qed.

End WithWorld.
End CallFacts.

(** X13. Nothing is retried, whatever the options: [transcribe] of the OpenAI
    and of the Deepgram adapter, and [create] of any client, make at most
    one remote call, and no effect follows that call; the Google adapter
    makes none. *)
Theorem at_most_one_remote_call :
  forall (W : World) (request : Obj JSValue) (options : option RequestOptions),
    Notions.single_call (events (OpenAI.transcribe W request options))
    /\ (forall self : Deepgram.Instance,
           Notions.single_call
             (events (Deepgram.transcribe W self request options)))
    /\ no_remote_call (Google.transcribe W request options)
    /\ (forall client : Client.ASRClient,
           Notions.single_call
             (events (Client.create W client request options))).
Proof.
  intros W request options. split; [|split; [|split]].
  - apply CallFacts.openai_single.
  - intros self. apply CallFacts.deepgram_single.
  - apply GoogleFacts.transcribe_quiet.
  - intros client. apply CallFacts.create_single.
Qed.

Module FailureFacts.

Lemma rewrapped {A} (m : M A) (label name : string) (e : Exn) :
  outcome (try_catch m (rewrap label name)) = inl e ->
  exists d, e = ThrowASR d.
Proof.
  destruct m as [evs [x|a]]; simpl; [|discriminate].
  destruct x; simpl; intros H; injection H as <-; eauto.
Qed.

Lemma parse_failure (W : World) (model : JSValue) (e : Exn) :
  outcome (Client.parse_request_model W model) = inl e ->
  (exists s, model = JStr s /\ parseModel s = inl e)
  \/ (exists k, e = JS.type_error W k /\ forall s, model <> JStr s).
Proof.
  destruct model; simpl; intros H;
    try (right; injection H as <-; eexists; split;
         [reflexivity | discriminate]).
  left. eauto.
Qed.

End FailureFacts.

(** X14. Every failure of [transcribe], in each adapter, is an [ASRError]. A
    failure of [create] is an [ASRError], or the error of [parseModel] on the
    model of the request, or a TypeError when that model is not a
    string. *)
Theorem failures_are_structured :
  forall (W : World) (request : Obj JSValue) (options : option RequestOptions)
         (e : Exn),
    (outcome (OpenAI.transcribe W request options) = inl e ->
     exists d, e = ThrowASR d)
    /\ (forall self : Deepgram.Instance,
           outcome (Deepgram.transcribe W self request options) = inl e ->
           exists d, e = ThrowASR d)
    /\ (outcome (Google.transcribe W request options) = inl e ->
        exists d, e = ThrowASR d)
    /\ (forall client : Client.ASRClient,
           outcome (Client.create W client request options) = inl e ->
           (exists d, e = ThrowASR d)
           \/ (exists s,
                  JS.prop request "model" = JStr s /\ parseModel s = inl e)
           \/ (exists k,
                  e = JS.type_error W k
                  /\ forall s, JS.prop request "model" <> JStr s)).
Proof.
  intros W request options e. split; [|split; [|split]].
  - apply FailureFacts.rewrapped.
  - intros self. apply FailureFacts.rewrapped.
  - apply FailureFacts.rewrapped.
  - intros client. unfold Client.create.
    destruct (Client.parse_request_model W (JS.prop request "model"))
      as [evs [x|parsed]] eqn:P.
    + simpl. intros H. injection H as <-. right.
      apply FailureFacts.parse_failure. rewrite P. reflexivity.
    + assert (Hev : evs = []).
      { pose proof (CallFacts.parse_silent W (JS.prop request "model")) as S.
        rewrite P in S. exact S. }
      subst evs.
      change (@nil Event, @inr Exn ParsedModel parsed) with (ret parsed).
      rewrite MFacts.bind_ret.
      destruct (Object.lookup (provider parsed) (Client.providers client))
        as [[c | inst | c]|]; simpl Client.provider_transcribe.
      * intros H. left. exact (FailureFacts.rewrapped _ _ _ _ H).
      * intros H. left. exact (FailureFacts.rewrapped _ _ _ _ H).
      * intros H. left. exact (FailureFacts.rewrapped _ _ _ _ H).
      * simpl. intros H. injection H as <-. left. eauto.
Qed.

(** [failures_are_structured] on a Deepgram call without network and on a
    model without colon. *)
Lemma failures_are_structured_witness :
  (exists d,
      ThrowASR (ASRError "Deepgram ASR error: fetch failed" "deepgram"
                  (Some "API_ERROR"))
      = ThrowASR d)
  /\ ((exists d,
          ThrowError "Error" (format_message "invalid-format") = ThrowASR d)
      \/ (exists s,
             JS.prop [("model", JStr "invalid-format");
                      ("file", JBuffer Sample.audio)] "model"
             = JStr s
             /\ parseModel s
                = inl (ThrowError "Error" (format_message "invalid-format")))
      \/ (exists k,
             ThrowError "Error" (format_message "invalid-format")
             = JS.type_error Sample.isolated k
             /\ forall s,
                 JS.prop [("model", JStr "invalid-format");
                          ("file", JBuffer Sample.audio)] "model"
                 <> JStr s)).
Proof.
  split.
  - exact (proj1 (proj2 (failures_are_structured Sample.isolated
                           Sample.buffer_request None _))
             Sample.deepgram eq_refl).
  - exact (proj2 (proj2 (proj2 (failures_are_structured Sample.isolated
                                  [("model", JStr "invalid-format");
                                   ("file", JBuffer Sample.audio)]
                                  None _)))
             (Client.new (Client.mkConfigs None None None)) eq_refl).
Defined.

Module DiskFacts.
Section WithWorld.
Context (W : World).

Lemma deepgram_audio_fails path e :
  readFileSync W path = inl e ->
  outcome (Deepgram.audio_of W (JStr path)) = inl e.
Proof. simpl. intros ->. reflexivity. Qed.

Lemma google_audio_fails path e :
  readFileSync W path = inl e ->
  outcome (Google.audio_of W (JStr path)) = inl e.
Proof. simpl. intros ->. reflexivity. Qed.

End WithWorld.
End DiskFacts.

(** X15. A path the file system cannot read: the Google adapter, and the
    Deepgram adapter when every value of the request has a text, fail with
    an [ASRError] of code [API_ERROR] whose message ends with the message of
    the file system, and make no remote call. *)
Theorem unreadable_path_is_reported :
  forall (W : World) (request : Obj JSValue) (options : option RequestOptions)
         (path kind message : string),
    JS.prop request "file" = JStr path ->
    readFileSync W path = inl (ThrowError kind message) ->
    (outcome (Google.transcribe W request options)
     = inl (ThrowASR (ASRError ("Google Cloud ASR error: " ++ message)
                        "google" (Some "API_ERROR")))
     /\ no_remote_call (Google.transcribe W request options))
    /\ (forall self : Deepgram.Instance,
           Terms.printable_request W request ->
           outcome (Deepgram.transcribe W self request options)
           = inl (ThrowASR (ASRError ("Deepgram ASR error: " ++ message)
                              "deepgram" (Some "API_ERROR")))
           /\ no_remote_call (Deepgram.transcribe W self request options)).
Proof.
  intros W request options path kind message Hf Hr. split.
  - split; [|apply GoogleFacts.transcribe_quiet].
    unfold Google.transcribe.
    apply (MFacts.try_rewrap_error _ _ _ kind).
    rewrite (MFacts.outcome_bind_ok _ _ tt)
      by apply ValidateFacts.google_passes.
    apply MFacts.outcome_bind_fail. rewrite Hf.
    exact (DiskFacts.google_audio_fails W path _ Hr).
  - intros self Hp.
    assert (Hprep : outcome (Deepgram.prepare W self request options)
                    = inl (ThrowError kind message)).
    { unfold Deepgram.prepare.
      rewrite (MFacts.outcome_bind_ok _ _ tt)
        by apply ValidateFacts.deepgram_passes.
      destruct (DeepgramFacts.query_of_total W request Hp) as (q & Hq).
      rewrite Hq, MFacts.bind_ret.
      apply MFacts.outcome_bind_fail. rewrite Hf.
      exact (DiskFacts.deepgram_audio_fails W path _ Hr). }
    split.
    + unfold Deepgram.transcribe.
      apply (MFacts.try_rewrap_error _ _ _ kind).
      apply MFacts.outcome_bind_fail. exact Hprep.
    + apply Quiet.of_try.
      exact (Quiet.of_failure _ _ _ (OptionFacts.prepare_quiet W _ _ _) Hprep).
Qed.

(** [unreadable_path_is_reported] on a missing file. *)
Lemma unreadable_path_is_reported_witness :
  outcome (Deepgram.transcribe Sample.empty_answer Sample.deepgram
             [("model", JStr "nova-2"); ("file", JStr "/nonexistent/audio.wav")]
             None)
  = inl (ThrowASR
           (ASRError
              ("Deepgram ASR error: "
               ++ "ENOENT: no such file or directory, open '/nonexistent/audio.wav'")
              "deepgram" (Some "API_ERROR")))
  /\ no_remote_call
       (Deepgram.transcribe Sample.empty_answer Sample.deepgram
          [("model", JStr "nova-2"); ("file", JStr "/nonexistent/audio.wav")]
          None).
Proof.
  refine (proj2 (unreadable_path_is_reported Sample.empty_answer
                   [("model", JStr "nova-2");
                    ("file", JStr "/nonexistent/audio.wav")]
                   None "/nonexistent/audio.wav" "Error" _ eq_refl eq_refl)
            Sample.deepgram _).
  repeat constructor; discriminate.
Defined.

(** X16. Once the service has answered, with a status that is OK for Deepgram:
    if [adaptResponse] makes a result of the body, [transcribe] returns that
    result; otherwise [adaptResponse] failed with a TypeError of the engine,
    and [transcribe] fails with an [ASRError] of code [API_ERROR] whose
    message ends with the message of that TypeError. *)
Theorem remote_body_is_adapted_or_reported :
  forall W : World,
    (forall self request options evs init response body,
        Deepgram.prepare W self request options = (evs, inr init) ->
        fetch W init = inr response ->
        resp_ok response = true ->
        resp_json response = inr body ->
        (forall r,
            outcome (Deepgram.adaptResponse W body) = inr r ->
            outcome (Deepgram.transcribe W self request options) = inr r)
        /\ (forall e,
               outcome (Deepgram.adaptResponse W body) = inl e ->
               exists k,
                 e = JS.type_error W k
                 /\ outcome (Deepgram.transcribe W self request options)
                    = inl (ThrowASR
                             (ASRError
                                ("Deepgram ASR error: "
                                   ++ typeErrorMessage W k)
                                "deepgram" (Some "API_ERROR")))))
    /\ (forall request options evs sent body,
           OpenAI.build_request request = (evs, inr sent) ->
           openaiCreate W sent = inr body ->
           (forall r,
               outcome (OpenAI.adaptResponse W body) = inr r ->
               outcome (OpenAI.transcribe W request options) = inr r)
           /\ (forall e,
                  outcome (OpenAI.adaptResponse W body) = inl e ->
                  exists k,
                    e = JS.type_error W k
                    /\ outcome (OpenAI.transcribe W request options)
                       = inl (ThrowASR
                                (ASRError
                                   ("OpenAI ASR error: "
                                      ++ typeErrorMessage W k)
                                   "openai" (Some "API_ERROR"))))).
Proof.
  intros W. split.
  - intros self request options evs init response body Hp Hf Hok Hj.
    rewrite (ResponseFacts.deepgram_transcribe_sends W _ _ _ _ _ Hp).
    pose proof (ResponseFacts.deepgram_send_cases W init) as Hs.
    rewrite Hf, Hok, Hj in Hs.
    rewrite (BodyFacts.same_outcome _ _ _ _ Hs).
    exact (BodyFacts.wrapped W _ _ _ (PureFacts.deepgram_adapt_pure W body)).
  - intros request options evs sent body Hb Hc.
    rewrite (ResponseFacts.openai_transcribe_sends W _ _ _ _ Hb).
    pose proof (ResponseFacts.openai_send_cases W sent) as Hs.
    rewrite Hc in Hs.
    rewrite (BodyFacts.same_outcome _ _ _ _ Hs).
    exact (BodyFacts.wrapped W _ _ _ (PureFacts.openai_adapt_pure W body)).
Qed.

(** [remote_body_is_adapted_or_reported] on a Deepgram body with two words
    and on an OpenAI body whose word list holds [null]. *)
Lemma remote_body_is_adapted_or_reported_witness :
  outcome (Deepgram.transcribe Cases.hello_service Sample.deepgram
             Sample.buffer_request None)
  = inr (mkResult (JStr "hello world") (JStr "unknown") JUndefined
           [mkWord (JStr "hello") (JNum 0) (JNum 0.5) JUndefined (JStr "0");
            mkWord (JStr "world") (JNum 0.5) (JNum 1) JUndefined JUndefined]
           [])
  /\ (exists k,
         outcome (OpenAI.transcribe Cases.null_word_sdk Sample.whisper_request
                    None)
         = inl (ThrowASR
                  (ASRError ("OpenAI ASR error: " ++ Sample.v8_message k)
                     "openai" (Some "API_ERROR")))).
Proof.
  split.
  - refine (proj1 (proj1 (remote_body_is_adapted_or_reported
                            Cases.hello_service)
                     Sample.deepgram Sample.buffer_request None _ _ _ _
                     eq_refl eq_refl eq_refl eq_refl) _ eq_refl).
  - destruct (proj2 (proj2 (remote_body_is_adapted_or_reported
                              Cases.null_word_sdk)
                       Sample.whisper_request None _ _ _ eq_refl eq_refl)
                _ eq_refl) as (k & _ & H).
    exists k. exact H.
Defined.

(** ** The dispatch client, continued *)

Module RoutingFacts.

Lemma has_key_in {V} (k : string) (o : Obj V) :
  Object.has_key k o = true <-> In k (Object.keys o).
Proof.
  unfold Object.has_key. split.
  - destruct (Object.lookup k o) eqn:E; [|discriminate]. intros _.
    apply KeysFacts.lookup_in in E. exact (in_map fst _ _ E).
  - intros H. destruct (Object.lookup k o) eqn:E; [reflexivity|].
    exfalso. exact (KeysFacts.lookup_none _ _ E H).
Qed.

Lemma lookup_spread_none {V} (target src : Obj V) (k : string) :
  Object.lookup k src = None ->
  Object.lookup k (Object.spread target src) = Object.lookup k target.
Proof.
  intros H. unfold Object.spread. apply TranslateFacts.fold_keeps.
  intros [k0 v0] acc He. simpl. apply ObjectFacts.lookup_define_other.
  intros ->. apply (KeysFacts.lookup_none _ _ H).
  exact (in_map fst _ _ He).
Qed.

(** A copy by spread binds every key as the source does. *)
Lemma lookup_copy {V} (src : Obj V) (k : string) :
  NoDup (Object.keys src) ->
  Object.lookup k (Object.spread [] src) = Object.lookup k src.
Proof.
  intros ND. destruct (Object.lookup k src) eqn:E.
  - exact (KeysFacts.lookup_spread [] src k v ND E).
  - rewrite (lookup_spread_none [] src k E). reflexivity.
Qed.

Lemma create_parsed W self request options identifier p m :
  JS.prop request "model" = JStr identifier ->
  parseModel identifier = inr (mkParsed p m) ->
  Client.create W self request options
  = match Object.lookup p (Client.providers self) with
    | None =>
        throw (ThrowASR (ProviderNotConfiguredError p
                           (Object.keys (Client.providers self))))
    | Some providerInstance =>
        Client.provider_transcribe W providerInstance
          (Object.define "model" (JStr m) (Object.spread [] request)) options
    end.
Proof.
  intros Hm Hp. unfold Client.create. rewrite Hm.
  simpl Client.parse_request_model. rewrite Hp, MFacts.bind_lift_ok.
  reflexivity.
Qed.

End RoutingFacts.

(** X17. [listProviders] of a new client gives the configured providers in the
    order [openai], [deepgram], [google], without repetition, and
    [isProviderConfigured] holds exactly of the names in that list, that is
    of the providers the configuration has. *)
Theorem configured_providers :
  forall config : Client.ASRProviderConfigs,
    Client.listProviders (Client.new config) = Terms.registration_order config
    /\ NoDup (Client.listProviders (Client.new config))
    /\ (forall p,
           Client.isProviderConfigured (Client.new config) p = true
           <-> In p (Client.listProviders (Client.new config)))
    /\ (Client.isProviderConfigured (Client.new config) "openai" = true
        <-> Client.openai config <> None)
    /\ (Client.isProviderConfigured (Client.new config) "deepgram" = true
        <-> Client.deepgram config <> None)
    /\ (Client.isProviderConfigured (Client.new config) "google" = true
        <-> Client.google config <> None).
Proof.
  intros config. split; [|split; [|split]].
  - apply ClientFacts.listProviders_new.
  - destruct config as [[o|] [d|] [g|]]; simpl;
      repeat constructor; simpl; intuition discriminate.
  - intros p. apply RoutingFacts.has_key_in.
  - destruct config as [[o|] [d|] [g|]]; simpl;
      repeat split; intros H; try reflexivity; try discriminate;
      try congruence.
Qed.

(** X18. Dispatch. When the model of the request parses to a provider and a
    model, [create] is [transcribe] of the adapter of that provider, built
    from its configuration, on a request that binds [model] to the model
    name without the provider and every other key as the request does. *)
Theorem create_routes_to_adapter :
  forall (W : World) (config : Client.ASRProviderConfigs)
         (request : Obj JSValue) (options : option RequestOptions)
         (identifier p m : string),
    NoDup (Object.keys request) ->
    JS.prop request "model" = JStr identifier ->
    parseModel identifier = inr (mkParsed p m) ->
    exists forwarded : Obj JSValue,
      (forall k,
          Object.lookup k forwarded
          = if String.eqb k "model" then Some (JStr m)
            else Object.lookup k request)
      /\ (forall c,
             p = "openai" -> Client.openai config = Some c ->
             Client.create W (Client.new config) request options
             = OpenAI.transcribe W forwarded options)
      /\ (forall c,
             p = "deepgram" -> Client.deepgram config = Some c ->
             Client.create W (Client.new config) request options
             = Deepgram.transcribe W (Deepgram.create c) forwarded options)
      /\ (forall c,
             p = "google" -> Client.google config = Some c ->
             Client.create W (Client.new config) request options
             = Google.transcribe W forwarded options).
Proof.
  intros W config request options identifier p m ND Hm Hp.
  exists (Object.define "model" (JStr m) (Object.spread [] request)).
  split; [|split; [|split]].
  - intros k. destruct (String.eqb k "model") eqn:E.
    + apply String.eqb_eq in E. subst k. apply ObjectFacts.lookup_define_same.
    + apply String.eqb_neq in E.
      rewrite ObjectFacts.lookup_define_other by exact E.
      apply RoutingFacts.lookup_copy. exact ND.
  - intros c -> Hc.
    rewrite (RoutingFacts.create_parsed W _ _ _ _ _ _ Hm Hp).
    destruct config as [o d g]. simpl in Hc. subst o.
    destruct d, g; reflexivity.
  - intros c -> Hc.
    rewrite (RoutingFacts.create_parsed W _ _ _ _ _ _ Hm Hp).
    destruct config as [o d g]. simpl in Hc. subst d.
    destruct o, g; reflexivity.
  - intros c -> Hc.
    rewrite (RoutingFacts.create_parsed W _ _ _ _ _ _ Hm Hp).
    destruct config as [o d g]. simpl in Hc. subst g.
    destruct o, d; reflexivity.
Qed.

(** [create_routes_to_adapter] on ["deepgram:nova-2"] with a buffer. *)
Lemma create_routes_to_adapter_witness :
  exists forwarded : Obj JSValue,
    Object.lookup "model" forwarded = Some (JStr "nova-2")
    /\ Object.lookup "file" forwarded = Some (JBuffer Sample.audio)
    /\ Client.create Sample.empty_answer
         (Client.new
            (Client.mkConfigs None (Some (Deepgram.mkConfig "k" None)) None))
         [("model", JStr "deepgram:nova-2"); ("file", JBuffer Sample.audio)]
         None
       = Deepgram.transcribe Sample.empty_answer Sample.deepgram forwarded None.
Proof.
  destruct (create_routes_to_adapter Sample.empty_answer
              (Client.mkConfigs None (Some (Deepgram.mkConfig "k" None)) None)
              [("model", JStr "deepgram:nova-2"); ("file", JBuffer Sample.audio)]
              None "deepgram:nova-2" "deepgram" "nova-2")
    as (forwarded & L & _ & D & _).
  - repeat constructor; simpl; intuition discriminate.
  - reflexivity.
  - reflexivity.
  - exists forwarded. split; [exact (L "model")|].
    split; [exact (L "file")|].
    exact (D (Deepgram.mkConfig "k" None) eq_refl eq_refl).
Defined.

(** ** The shape of results *)

Module ShapeFacts.
Section WithWorld.
Context (W : World).

Lemma fold_collect_inv {A} (P : A -> Prop) (f : JSValue -> M A)
  (l : list JSValue) :
  (forall x y, outcome (f x) = inr y -> P y) ->
  forall acc out,
    Forall P acc ->
    outcome (fold_m l (fun acc x => y <- f x ;; ret (acc ++ [y])%list) acc)
    = inr out ->
    Forall P out.
Proof.
  intros Hf. induction l as [|x l IH]; intros acc out Hacc H; simpl in H.
  - injection H as <-. exact Hacc.
  - apply ForwardFacts.outcome_bind_inv in H. destruct H as (acc' & Hb & H).
    apply ForwardFacts.outcome_bind_inv in Hb. destruct Hb as (y & Hy & Hb).
    injection Hb as <-. apply (IH _ _ (proj2 (Forall_app P acc [y])
                                (conj Hacc (Forall_cons y (Hf x y Hy)
                                              (Forall_nil P)))) H).
Qed.

(** Every element a loop pushed came out of its body. *)
Lemma collect_inv {A} (P : A -> Prop) (v : JSValue) (f : JSValue -> M A)
  (out : list A) :
  (forall x y, outcome (f x) = inr y -> P y) ->
  outcome (if JS.truthy v then JS.collect W v f else ret []) = inr out ->
  Forall P out.
Proof.
  intros Hf. destruct (JS.truthy v).
  - destruct v; simpl; try discriminate;
      apply (fold_collect_inv P f _ Hf); constructor.
  - intros H. injection H as <-. constructor.
Qed.

Lemma speaker_inv (v sp : JSValue) :
  outcome (JS.call_toString_opt W v) = inr sp -> speaker_label sp.
Proof.
  unfold JS.call_toString_opt. destruct (JS.nullish v).
  - intros H. injection H as <-. left. reflexivity.
  - intros H. apply ForwardFacts.outcome_bind_inv in H.
    destruct H as (s & _ & H). injection H as <-. right. eauto.
Qed.

Lemma offset_inv (t v : JSValue) :
  outcome (Google.offset_of W t) = inr v -> is_number v.
Proof.
  unfold Google.offset_of. intros H.
  apply ForwardFacts.outcome_bind_inv in H. destruct H as (s & _ & H).
  apply ForwardFacts.outcome_bind_inv in H. destruct H as (n & _ & H).
  injection H as <-. eexists. reflexivity.
Qed.

Ltac invert H :=
  repeat (apply ForwardFacts.outcome_bind_inv in H;
          let a := fresh "a" in
          let Ha := fresh "Ha" in
          destruct H as (a & Ha & H)).





Lemma google_word_inv entry w :
  outcome (Google.word_of W entry) = inr w ->
  speaker_label (word_speaker w)
  /\ is_number (word_start w) /\ is_number (word_end w).
Proof.
  unfold Google.word_of. intros H. invert H. injection H as <-. simpl.
  split; [|split].
  - eapply speaker_inv. eassumption.
  - eapply offset_inv. eassumption.
  - eapply offset_inv. eassumption.
Qed.

Lemma or_else_truthy (v : JSValue) :
  JS.truthy (JS.or_else v (JStr "unknown")) = true.
Proof. unfold JS.or_else. destruct (JS.truthy v) eqn:E; [exact E | reflexivity]. Qed.

Lemma fold_m_invariant {A S} (P : S -> Prop) (body : S -> A -> M S)
  (l : list A) :
  (forall s x s', P s -> outcome (body s x) = inr s' -> P s') ->
  forall init out,
    P init -> outcome (fold_m l body init) = inr out -> P out.
Proof.
  intros Hb. induction l as [|x l IH]; intros init out Hi H; simpl in H.
  - injection H as <-. exact Hi.
  - apply ForwardFacts.outcome_bind_inv in H. destruct H as (s' & Hs & H).
    exact (IH s' out (Hb init x s' Hi Hs) H).
Qed.

(** *** OpenAI *)


(** *** Deepgram *)


(** *** Google *)

Local Abbreviation google_acc_ok :=
  (fun acc : Google.Acc =>
     Forall timed_word (Google.acc_words acc)
     /\ Forall instant (Google.acc_segments acc)) (only parsing).

Lemma google_visit_inv acc result acc' :
  google_acc_ok acc ->
  outcome (Google.visit_result W acc result) = inr acc' ->
  google_acc_ok acc'.
Proof.
  intros [Hw Hs]. unfold Google.visit_result. intros H.
  apply ForwardFacts.outcome_bind_inv in H.
  destruct H as (alternatives & _ & H).
  destruct (JS.truthy alternatives
            && JS.truthy (JS.first_of alternatives))%bool.
  - invert H. injection H as <-. split; simpl.
    + apply Forall_app. split; [exact Hw|].
      eapply collect_inv; [exact google_word_inv | eassumption].
    + apply Forall_app. split; [exact Hs|].
      constructor; [|constructor]. unfold instant. simpl.
      split; [eapply offset_inv; eassumption|].
      split; [congruence | reflexivity].
  - injection H as <-. split; assumption.
Qed.

Lemma google_result response r :
  outcome (Google.adaptResponse W response) = inr r ->
  JS.truthy (language r) = true
  /\ (exists s, text r = JStr s)
  /\ Forall timed_word (words r) /\ Forall instant (segments r).
Proof.
  unfold Google.adaptResponse. intros H.
  apply ForwardFacts.outcome_bind_inv in H. destruct H as (results & _ & H).
  apply ForwardFacts.outcome_bind_inv in H. destruct H as (acc & Hacc & H).
  injection H as <-. simpl.
  split; [apply or_else_truthy|]. split; [eauto|].
  assert (Empty : Forall timed_word
                     (Google.acc_words (Google.mkAcc EmptyString [] []))
                   /\ Forall instant
                        (Google.acc_segments (Google.mkAcc EmptyString [] []))).
  { split; constructor. }
  destruct (JS.truthy results).
  - destruct results; simpl in Hacc; try discriminate;
      exact (fold_m_invariant
               (fun acc => Forall timed_word (Google.acc_words acc)
                           /\ Forall instant (Google.acc_segments acc))
               _ _ google_visit_inv _ _ Empty Hacc).
  - injection Hacc as <-. exact Empty.
Qed.

End WithWorld.
End ShapeFacts.





(** X21. In a result of the Google adapter, on whatever response, the text is a
    string, the start and the end of every word are numbers, and every
    segment starts and ends at the same number: both are computed from the
    end time of the result. *)
Theorem google_times_are_numbers :
  forall (W : World) (response : JSValue) (r : TranscriptionResult),
    outcome (Google.adaptResponse W response) = inr r ->
    (exists s, text r = JStr s)
    /\ Forall (fun w => Notions.is_number (word_start w)
                        /\ Notions.is_number (word_end w))
         (words r)
    /\ Forall (fun s => Notions.is_number (seg_start s)
                        /\ seg_end s = seg_start s)
         (segments r).
Proof.
  intros W response r H.
  destruct (ShapeFacts.google_result W response r H) as (_ & Ht & Hw & Hs).
  split; [exact Ht|]. split.
  - eapply Forall_impl; [|exact Hw]. intros w Hx. exact (proj2 Hx).
  - eapply Forall_impl; [|exact Hs]. intros s (A & B & _). split; assumption.
Qed.

(** [google_times_are_numbers] on the canned response of the adapter. *)
Lemma google_times_are_numbers_witness :
  match outcome (Google.adaptResponse Sample.isolated Google.mockResponse)
  with
  | inr r =>
      (exists s, text r = JStr s)
      /\ Forall (fun w => Notions.is_number (word_start w)
                          /\ Notions.is_number (word_end w))
           (words r)
      /\ Forall (fun s => Notions.is_number (seg_start s)
                          /\ seg_end s = seg_start s)
           (segments r)
  | inl _ => False
  end.
Proof.
  exact (google_times_are_numbers Sample.isolated Google.mockResponse _
           eq_refl).
Defined.

Module AssemblyFacts.
Section WithWorld.
Context (W : World).

Lemma text_value_of (v : JSValue) :
  Terms.printable W v -> JS.toString W v = inr (text_value W v).
Proof.
  unfold Terms.printable, JS.toString, text_value.
  destruct (JS.text_of W v); [reflexivity | congruence].
Qed.

Lemma google_visit_full (acc : Google.Acc) (result : JSValue) :
  Terms.google_result_ok W result ->
  Google.visit_result W acc result
  = ret (if google_has_alternative result
         then Google.mkAcc
                (Google.fullTranscript acc ++ google_piece W result)
                (Google.acc_words acc
                 ++ map (Terms.google_word W) (google_result_entries result))
                (Google.acc_segments acc ++ [google_segment W result])
         else acc).
Proof.
  intros (N & H). unfold Google.visit_result, google_result_entries.
  rewrite (ResponseFacts.get_defined W _ _ N), MFacts.bind_ret.
  fold (google_alternative result). fold (google_has_alternative result).
  destruct (google_has_alternative result) eqn:E; [|reflexivity].
  destruct (H eq_refl) as (Pt & Hw & Ht).
  assert (Na : JS.nullish (google_alternative result) = false).
  { apply WordFacts.truthy_defined. unfold google_has_alternative in E.
    apply andb_true_iff in E. exact (proj2 E). }
  repeat first
    [ rewrite MFacts.bind_ret
    | rewrite MFacts.bind_lift_ok
    | rewrite (ResponseFacts.get_defined W _ _ N)
    | rewrite (ResponseFacts.get_defined W _ _ Na)
    | rewrite (text_value_of _ Pt)
    | rewrite (WordFacts.offset_of_ok W _ Ht)
    | rewrite (WordFacts.collect_entries W _ _ _ (Terms.google_word W) Hw
                 (WordFacts.google_word_of W)) ].
  reflexivity.
Qed.

Lemma google_fold_full (results : list JSValue) :
  Forall (Terms.google_result_ok W) results ->
  forall acc,
    fold_m results (Google.visit_result W) acc
    = ret (Google.mkAcc
             (Google.fullTranscript acc
              ++ String.concat EmptyString
                   (map (google_piece W)
                      (filter google_has_alternative results)))
             (Google.acc_words acc
              ++ map (Terms.google_word W)
                   (flat_map google_result_entries results))
             (Google.acc_segments acc
              ++ map (google_segment W)
                   (filter google_has_alternative results))).
Proof.
  induction 1 as [|result results Hr Hrs IH]; intros acc; simpl.
  - rewrite !app_nil_r.
    replace (Google.fullTranscript acc ++ EmptyString)
      with (Google.fullTranscript acc).
    + destruct acc; reflexivity.
    + induction (Google.fullTranscript acc); simpl; congruence.
  - rewrite (google_visit_full acc result Hr), MFacts.bind_ret, IH.
    assert (Hentries : google_result_entries result
                       = if google_has_alternative result
                         then entries_of
                                (JS.get_opt (google_alternative result) "words")
                         else []) by reflexivity.
    destruct (google_has_alternative result) eqn:E;
      cbn [Google.fullTranscript Google.acc_words Google.acc_segments map].
    + f_equal. f_equal.
      * rewrite StrFacts.append_assoc. f_equal.
        destruct (filter google_has_alternative results); simpl.
        -- induction (google_piece W result); simpl; congruence.
        -- reflexivity.
      * rewrite map_app, app_assoc. reflexivity.
      * rewrite <- app_assoc. reflexivity.
    + f_equal. f_equal. rewrite Hentries. reflexivity.
Qed.

End WithWorld.
End AssemblyFacts.

(** X22. One segment per entry, in order, on a response that is neither
    [null] nor [undefined]. When the response has a first alternative of a
    first channel, the words of that alternative are absent or an array, the
    utterances are an array, and no entry of either is [null] or [undefined]
    or has a speaker without text, the Deepgram adapter makes of each
    utterance a segment with its [transcript], [start] and [end] and the
    text of its [speaker]. Without a first alternative of a first channel
    it returns no segment, whatever the utterances: the loop over them is
    inside the test of the alternative. When the words are absent or an
    array, the segments are an array, and no entry of either is [null] or
    [undefined], the OpenAI adapter makes of each segment of the response a
    segment with its [text], [start] and [end] and no speaker. *)
Theorem normalized_segments_follow_entries :
  forall W : World,
    (forall response entries,
        JS.nullish response = false ->
        JS.truthy (Terms.deepgram_probe response) = true ->
        Terms.list_ok (Terms.entry_ok W "speaker")
          (JS.get_opt (Terms.deepgram_probe response) "words") ->
        JS.get_opt (JS.get_opt response "results") "utterances"
        = JArr entries ->
        Forall (Terms.entry_ok W "speaker") entries ->
        exists result,
          outcome (Deepgram.adaptResponse W response) = inr result
          /\ segments result
             = map (fun entry =>
                      mkSegment (JS.get_opt entry "transcript")
                        (JS.get_opt entry "start") (JS.get_opt entry "end")
                        (Terms.speaker_of W (JS.get_opt entry "speaker")))
                 entries)
    /\ (forall response entries,
           JS.nullish response = false ->
           Terms.list_ok Terms.defined (JS.get_opt response "words") ->
           JS.get_opt response "segments" = JArr entries ->
           Forall Terms.defined entries ->
           exists result,
             outcome (OpenAI.adaptResponse W response) = inr result
             /\ segments result
                = map (fun entry =>
                         mkSegment (JS.get_opt entry "text")
                           (JS.get_opt entry "start") (JS.get_opt entry "end")
                           JUndefined)
                    entries)
    /\ (forall response,
           JS.nullish response = false ->
           JS.truthy (Terms.deepgram_probe response) = false ->
           exists result,
             outcome (Deepgram.adaptResponse W response) = inr result
             /\ segments result = []).
Proof.
  intros W. split; [|split].
  - intros response entries N P Hw E Hu.
    rewrite (WordFacts.deepgram_adapt W response N P Hw) by
      (right; exists entries; split; assumption).
    eexists. split; [reflexivity|]. simpl segments. rewrite E. reflexivity.
  - intros response entries N Hw E Hs.
    rewrite (WordFacts.openai_adapt W response N Hw) by
      (right; exists entries; split; assumption).
    eexists. split; [reflexivity|]. simpl segments. rewrite E. reflexivity.
  - intros response N P.
    rewrite (ResponseFacts.deepgram_adapt_fallback W response N P).
    eexists. split; reflexivity.
Qed.

(** [normalized_segments_follow_entries] on a Deepgram body with two
    utterances, and on a body with an utterance and no channel. *)
Lemma normalized_segments_follow_entries_witness :
  (exists result,
      outcome (Deepgram.adaptResponse Sample.isolated Cases.two_utterances)
      = inr result
      /\ segments result
         = [mkSegment (JStr "hi") (JNum 0) (JNum 1) (JStr "1");
            mkSegment (JStr "there") (JNum 1) (JNum 2) JUndefined])
  /\ (exists result,
         outcome (Deepgram.adaptResponse Sample.isolated
                    Cases.utterance_without_channel)
         = inr result
         /\ segments result = []).
Proof.
  split.
  - refine (proj1 (normalized_segments_follow_entries Sample.isolated)
              Cases.two_utterances _ eq_refl eq_refl _ eq_refl _).
    + left. reflexivity.
    + repeat constructor; intros H; try discriminate H.
      unfold Terms.printable. simpl. discriminate.
  - exact (proj2 (proj2 (normalized_segments_follow_entries Sample.isolated))
             Cases.utterance_without_channel eq_refl eq_refl).
Defined.

(** X23. The result of the Google adapter on a usable response. Its text is the
    transcripts of the first alternatives of the results, each followed by a
    space, put together and trimmed; it has one segment for each result that
    has a first alternative, in order; its language and its confidence are
    those of the first result. *)
Theorem google_result_is_assembled :
  forall (W : World) (response : JSValue),
    JS.nullish response = false ->
    Terms.list_ok (Terms.google_result_ok W) (JS.get_opt response "results") ->
    exists result,
      outcome (Google.adaptResponse W response) = inr result
      /\ text result
         = JStr (Num.trim
                   (String.concat EmptyString
                      (map (Notions.google_piece W) (Notions.heard response))))
      /\ segments result
         = map (Notions.google_segment W) (Notions.heard response)
      /\ language result
         = JS.or_else
             (JS.get_opt (JS.index0_opt (JS.get_opt response "results"))
                "languageCode")
             (JStr "unknown")
      /\ confidence result
         = JS.get_opt
             (JS.index0_opt
                (JS.get_opt
                   (JS.index0_opt (JS.get_opt response "results"))
                   "alternatives"))
             "confidence".
Proof.
  intros W response N H. unfold Google.adaptResponse, Notions.heard.
  rewrite (ResponseFacts.get_defined W _ _ N), MFacts.bind_ret.
  destruct H as [F | (l & E & Hl)].
  - rewrite F, MFacts.bind_ret. eexists. split; [reflexivity|].
    destruct (JS.get_opt response "results"); try discriminate;
      repeat split.
  - rewrite E. simpl JS.truthy. cbv iota.
    rewrite (AssemblyFacts.google_fold_full W l Hl), MFacts.bind_ret.
    eexists. split; [reflexivity|]. repeat split.
Qed.

(** [google_result_is_assembled] on a response of three results, one of
    them without alternative. *)
Lemma google_result_is_assembled_witness :
  exists result,
    outcome (Google.adaptResponse Sample.isolated Cases.three_results)
    = inr result
    /\ text result = JStr "good morning"
    /\ List.length (segments result) = 2
    /\ language result = JStr "en-us".
Proof.
  destruct (google_result_is_assembled Sample.isolated Cases.three_results
              eq_refl) as (result & Hr & Ht & Hs & Hl & _).
  - right. eexists. split; [reflexivity|].
    assert (T : forall t, Terms.google_offset Sample.isolated t <> None ->
                          Terms.time_ok Sample.isolated t)
      by (intros t H; exact H).
    constructor; [|constructor; [|constructor; [|constructor]]].
    + split; [reflexivity|]. intros _.
      split; [discriminate|]. split; [left; reflexivity|].
      apply T. vm_compute. discriminate.
    + split; [reflexivity|]. intros H. discriminate H.
    + split; [reflexivity|]. intros _.
      split; [discriminate|]. split; [left; reflexivity|].
      apply T. vm_compute. discriminate.
  - exists result. split; [exact Hr|]. split; [exact Ht|].
    split; [rewrite Hs; reflexivity | exact Hl].
Defined.

Module OffsetFacts.

Lemma zero_text (W : World) : JS.parseFloat W (JStr "0") = ret 0%float.
Proof. reflexivity. Qed.

End OffsetFacts.

(** X24. A time of the Google service without truthy [seconds] and without
    truthy [nanos], or no time at all, is the offset 0. *)
Theorem google_offset_defaults_to_zero :
  forall (W : World) (t : JSValue),
    JS.truthy (JS.get_opt t "seconds") = false ->
    JS.truthy (JS.get_opt t "nanos") = false ->
    Google.offset_of W t = ret (JNum 0).
Proof.
  intros W t Hs Hn. unfold Google.offset_of, JS.or_else.
  rewrite Hs, Hn, OffsetFacts.zero_text, !MFacts.bind_ret. reflexivity.
Qed.

(** [google_offset_defaults_to_zero] on [undefined] and on
    [{seconds: 0, nanos: ''}]. *)
Lemma google_offset_defaults_to_zero_witness :
  Google.offset_of Sample.isolated JUndefined = ret (JNum 0)
  /\ Google.offset_of Sample.isolated
       (JObj [("seconds", JNum 0); ("nanos", JStr EmptyString)])
     = ret (JNum 0).
Proof.
  split.
  - exact (google_offset_defaults_to_zero Sample.isolated JUndefined
             eq_refl eq_refl).
  - exact (google_offset_defaults_to_zero Sample.isolated
             (JObj [("seconds", JNum 0); ("nanos", JStr EmptyString)])
             eq_refl eq_refl).
Defined.

(** ** The request adapters *)

Module RestFacts.
Section Facts.
Context {V : Type}.
Implicit Types (o : Obj V) (k : string).

Lemma lookup_filter (names : list string) o k :
  Object.lookup k (filter (fun kv => negb (mem (fst kv) names)) o)
  = if mem k names then None else Object.lookup k o.
Proof.
  induction o as [|[k0 v0] o IH]; cbn [filter Object.lookup fst].
  - destruct (mem k names); reflexivity.
  - destruct (String.eqb k0 k) eqn:E.
    + apply String.eqb_eq in E. subst k0.
      destruct (mem k names) eqn:Hm; cbn [negb Object.lookup].
      * exact IH.
      * rewrite String.eqb_refl. reflexivity.
    + destruct (mem k0 names); cbn [negb Object.lookup]; [exact IH|].
      rewrite E. exact IH.
Qed.

Lemma nodup_filter (f : string * V -> bool) o :
  NoDup (Object.keys o) -> NoDup (Object.keys (filter f o)).
Proof.
  induction o as [|[k0 v0] o IH]; simpl; intros ND; [constructor|].
  inversion ND as [|? ? Hnot ND']; subst.
  destruct (f (k0, v0)); simpl; [|exact (IH ND')].
  constructor; [|exact (IH ND')].
  intros C. apply Hnot. apply in_map_iff in C.
  destruct C as ([k v] & Hk & Hin). simpl in Hk. subst k.
  apply filter_In in Hin. exact (in_map fst _ _ (proj1 Hin)).
Qed.

Lemma lookup_rest_of (names : list string) o k :
  NoDup (Object.keys o) ->
  Object.lookup k (rest_of names o)
  = if mem k names then None else Object.lookup k o.
Proof.
  intros ND. unfold rest_of.
  rewrite RoutingFacts.lookup_copy by (apply nodup_filter; exact ND).
  apply lookup_filter.
Qed.

Lemma nodup_spread (target src : Obj V) :
  NoDup (Object.keys target) -> NoDup (Object.keys (Object.spread target src)).
Proof.
  unfold Object.spread. revert target.
  induction src as [|[k v] src IH]; intros target ND; simpl; [exact ND|].
  apply IH. apply KeysFacts.nodup_define. exact ND.
Qed.

Lemma nodup_rest_of (names : list string) o :
  NoDup (Object.keys (rest_of names o)).
Proof. apply nodup_spread. constructor. Qed.

(** A spread binds a key as its source does, and otherwise as its
    target. *)
Lemma lookup_spread_over (target src : Obj V) k :
  NoDup (Object.keys src) ->
  Object.lookup k (Object.spread target src)
  = match Object.lookup k src with
    | Some v => Some v
    | None => Object.lookup k target
    end.
Proof.
  intros ND. destruct (Object.lookup k src) eqn:E.
  - exact (KeysFacts.lookup_spread target src k v ND E).
  - exact (RoutingFacts.lookup_spread_none target src k E).
Qed.

End Facts.

(** [if (c) o.k = v] on the binding of a name. *)
Lemma lookup_when (c : bool) (flag k : string) (v : JSValue) (o : Obj JSValue) :
  flag <> "__proto__" ->
  Object.lookup k (if c then Object.set flag v o else o)
  = if (c && String.eqb k flag)%bool then Some v else Object.lookup k o.
Proof.
  intros N. destruct c; simpl; [|reflexivity].
  destruct (String.eqb k flag) eqn:E.
  - apply String.eqb_eq in E. subst k. apply ObjectFacts.lookup_set_same.
    exact N.
  - apply String.eqb_neq in E. apply ObjectFacts.lookup_set_other. exact E.
Qed.

Lemma prop_lookup (o : Obj JSValue) (k : string) (v : JSValue) :
  Object.lookup k o = Some v -> JS.prop o k = v.
Proof. unfold JS.prop. intros ->. reflexivity. Qed.

End RestFacts.

(** X25. [adaptRequest] of the OpenAI adapter, on a request with distinct keys:
    the result always binds [file], [model], [language] and [temperature],
    to [undefined] when the request does not; it never binds [timestamps];
    it binds [response_format] to ['verbose_json'] when [timestamps] is
    truthy, over whatever the request gives, and as the request does
    otherwise; and it binds every other key as the request does. *)
Theorem openai_adaptRequest_contract :
  forall request : Obj JSValue,
    NoDup (Object.keys request) ->
    (forall k,
        In k ["file"; "model"; "language"; "temperature"] ->
        Object.lookup k (OpenAIAdapters.adaptRequest request)
        = Some (JS.prop request k))
    /\ Object.lookup "timestamps" (OpenAIAdapters.adaptRequest request) = None
    /\ Object.lookup "response_format" (OpenAIAdapters.adaptRequest request)
       = (if JS.truthy (JS.prop request "timestamps")
          then Some (JStr "verbose_json")
          else Object.lookup "response_format" request)
    /\ (forall k,
           ~ In k ["file"; "model"; "language"; "timestamps"; "temperature";
                   "response_format"] ->
           Object.lookup k (OpenAIAdapters.adaptRequest request)
           = Object.lookup k request).
Proof.
  intros request ND.
  assert (L : forall k,
             Object.lookup k (OpenAIAdapters.adaptRequest request)
             = if (JS.truthy (JS.prop request "timestamps")
                   && String.eqb k "response_format")%bool
               then Some (JStr "verbose_json")
               else match (if mem k ["file"; "model"; "language"; "timestamps";
                                      "temperature"]
                           then None else Object.lookup k request) with
                    | Some v => Some v
                    | None =>
                        Object.lookup k
                          [("file", JS.prop request "file");
                           ("model", JS.prop request "model");
                           ("language", JS.prop request "language");
                           ("temperature", JS.prop request "temperature")]
                    end).
  { intros k. unfold OpenAIAdapters.adaptRequest. cbv zeta.
    rewrite RestFacts.lookup_when by discriminate.
    rewrite RestFacts.lookup_spread_over by apply RestFacts.nodup_rest_of.
    rewrite RestFacts.lookup_rest_of by exact ND. reflexivity. }
  split; [|split; [|split]].
  - intros k [<- | [<- | [<- | [<- | []]]]]; rewrite L; simpl;
      rewrite andb_false_r; reflexivity.
  - rewrite L. simpl. rewrite andb_false_r. reflexivity.
  - rewrite L. simpl. rewrite andb_true_r.
    destruct (JS.truthy (JS.prop request "timestamps")); [reflexivity|].
    destruct (Object.lookup "response_format" request); reflexivity.
  - intros k R. rewrite L. unfold mem. cbn [Object.lookup existsb].
    repeat match goal with
      | |- context [String.eqb ?a ?b] =>
          let E := fresh "E" in
          destruct (String.eqb a b) eqn:E;
          [apply String.eqb_eq in E; subst; exfalso; apply R; simpl; tauto|]
      end.
    rewrite andb_false_r. cbn [orb].
    destruct (Object.lookup k request); reflexivity.
Qed.

(** [openai_adaptRequest_contract] on a request with [timestamps] and
    without [language]. *)
Lemma openai_adaptRequest_contract_witness :
  Object.lookup "language"
    (OpenAIAdapters.adaptRequest
       [("model", JStr "whisper-1"); ("file", JBuffer Sample.audio);
        ("timestamps", JBool true); ("prompt", JStr "hello")])
  = Some JUndefined
  /\ Object.lookup "response_format"
       (OpenAIAdapters.adaptRequest
          [("model", JStr "whisper-1"); ("file", JBuffer Sample.audio);
           ("timestamps", JBool true); ("prompt", JStr "hello")])
     = Some (JStr "verbose_json").
Proof.
  assert (ND : NoDup (Object.keys
                        [("model", JStr "whisper-1");
                         ("file", JBuffer Sample.audio);
                         ("timestamps", JBool true);
                         ("prompt", JStr "hello")])).
  { repeat constructor; simpl; intuition discriminate. }
  destruct (openai_adaptRequest_contract _ ND) as (A & _ & B & _).
  split.
  - apply (A "language"). simpl. tauto.
  - exact B.
Defined.

Module AdapterFacts.

Ltac other_name R :=
  repeat match goal with
    | |- context [String.eqb ?a ?b] =>
        let E := fresh "E" in
        destruct (String.eqb a b) eqn:E;
        [apply String.eqb_eq in E; subst; exfalso; apply R; simpl; tauto|]
    end.

Lemma deepgram_lookup (request : Obj JSValue) (k : string) :
  NoDup (Object.keys request) ->
  Object.lookup k (DeepgramAdapters.adaptRequest request)
  = if (JS.truthy (JS.prop request "speaker_labels")
        && String.eqb k "diarize")%bool
    then Some (JBool true)
    else if (JS.truthy (JS.prop request "word_confidence")
             && String.eqb k "smart_format")%bool
    then Some (JBool true)
    else if (JS.truthy (JS.prop request "timestamps")
             && String.eqb k "utterances")%bool
    then Some (JBool true)
    else if (JS.truthy (JS.prop request "language")
             && String.eqb k "language")%bool
    then Some (JS.prop request "language")
    else if mem k ["language"; "timestamps"; "word_confidence";
                   "speaker_labels"]
    then None
    else Object.lookup k request.
Proof.
  intros ND. unfold DeepgramAdapters.adaptRequest. cbv zeta.
  rewrite !RestFacts.lookup_when by discriminate.
  rewrite RoutingFacts.lookup_copy by apply RestFacts.nodup_rest_of.
  rewrite RestFacts.lookup_rest_of by exact ND. reflexivity.
Qed.

Lemma google_lookup (request : Obj JSValue) (k : string) :
  NoDup (Object.keys request) ->
  Object.lookup k (GoogleAdapters.config_of request)
  = if (JS.truthy (JS.prop request "speaker_labels")
        && String.eqb k "diarizationSpeakerCount")%bool
    then Some (JNum 2)
    else if (JS.truthy (JS.prop request "speaker_labels")
             && String.eqb k "enableSpeakerDiarization")%bool
    then Some (JBool true)
    else if (JS.truthy (JS.prop request "word_confidence")
             && String.eqb k "enableWordConfidence")%bool
    then Some (JBool true)
    else if (JS.truthy (JS.prop request "timestamps")
             && String.eqb k "enableWordTimeOffsets")%bool
    then Some (JBool true)
    else match (if mem k ["language"; "timestamps"; "word_confidence";
                          "speaker_labels"]
                then None else Object.lookup k request) with
         | Some v => Some v
         | None =>
             Object.lookup k
               [("encoding", JStr "LINEAR16");
                ("sampleRateHertz", JNum 16000);
                ("languageCode",
                 JS.or_else (JS.prop request "language") (JStr "en-US"))]
         end.
Proof.
  intros ND. unfold GoogleAdapters.config_of. cbv zeta.
  destruct (JS.truthy (JS.prop request "speaker_labels")) eqn:S.
  - destruct (String.eqb k "diarizationSpeakerCount") eqn:E1.
    + apply String.eqb_eq in E1. subst k.
      apply ObjectFacts.lookup_set_same. discriminate.
    + apply String.eqb_neq in E1.
      rewrite ObjectFacts.lookup_set_other by exact E1.
      cbn [andb].
      rewrite (RestFacts.lookup_when true) by discriminate.
      rewrite !RestFacts.lookup_when by discriminate.
      rewrite RestFacts.lookup_spread_over by apply RestFacts.nodup_rest_of.
      rewrite RestFacts.lookup_rest_of by exact ND. reflexivity.
  - cbn [andb].
    rewrite !RestFacts.lookup_when by discriminate.
    rewrite RestFacts.lookup_spread_over by apply RestFacts.nodup_rest_of.
    rewrite RestFacts.lookup_rest_of by exact ND. reflexivity.
Qed.

End AdapterFacts.

(** X26. [adaptRequest] of the Deepgram adapter, on a request with distinct
    keys: the result never binds [timestamps], [word_confidence] or
    [speaker_labels]; it binds [language] only when it is truthy; it binds
    [utterances], [smart_format] and [diarize] to [true] when the unified
    flag is truthy, over whatever the request gives, and as the request does
    otherwise; and it binds every other key as the request does. *)
Theorem deepgram_adaptRequest_contract :
  forall request : Obj JSValue,
    NoDup (Object.keys request) ->
    (forall u,
        In u ["timestamps"; "word_confidence"; "speaker_labels"] ->
        Object.lookup u (DeepgramAdapters.adaptRequest request) = None)
    /\ Object.lookup "language" (DeepgramAdapters.adaptRequest request)
       = (if JS.truthy (JS.prop request "language")
          then Some (JS.prop request "language") else None)
    /\ Object.lookup "utterances" (DeepgramAdapters.adaptRequest request)
       = (if JS.truthy (JS.prop request "timestamps")
          then Some (JBool true) else Object.lookup "utterances" request)
    /\ Object.lookup "smart_format" (DeepgramAdapters.adaptRequest request)
       = (if JS.truthy (JS.prop request "word_confidence")
          then Some (JBool true) else Object.lookup "smart_format" request)
    /\ Object.lookup "diarize" (DeepgramAdapters.adaptRequest request)
       = (if JS.truthy (JS.prop request "speaker_labels")
          then Some (JBool true) else Object.lookup "diarize" request)
    /\ (forall k,
           ~ In k ["language"; "timestamps"; "word_confidence";
                   "speaker_labels"; "utterances"; "smart_format";
                   "diarize"] ->
           Object.lookup k (DeepgramAdapters.adaptRequest request)
           = Object.lookup k request).
Proof.
  intros request ND.
  pose proof (fun k => AdapterFacts.deepgram_lookup request k ND) as L.
  split; [|split; [|split; [|split; [|split]]]].
  - intros u [<- | [<- | [<- | []]]]; rewrite L; simpl;
      rewrite !andb_false_r; reflexivity.
  - rewrite L. simpl. rewrite !andb_false_r, andb_true_r.
    destruct (JS.truthy (JS.prop request "language")); reflexivity.
  - rewrite L. simpl. rewrite !andb_false_r, andb_true_r.
    destruct (JS.truthy (JS.prop request "timestamps")); reflexivity.
  - rewrite L. simpl. rewrite !andb_false_r, andb_true_r.
    destruct (JS.truthy (JS.prop request "word_confidence")); reflexivity.
  - rewrite L. simpl. rewrite andb_true_r.
    destruct (JS.truthy (JS.prop request "speaker_labels")); [reflexivity|].
    rewrite !andb_false_r. reflexivity.
  - intros k R. rewrite L. unfold mem. cbn [existsb].
    AdapterFacts.other_name R. rewrite !andb_false_r. reflexivity.
Qed.

(** [deepgram_adaptRequest_contract] on a request that gives [utterances]
    itself and an empty language. *)
Lemma deepgram_adaptRequest_contract_witness :
  Object.lookup "utterances"
    (DeepgramAdapters.adaptRequest
       [("utterances", JBool false); ("timestamps", JBool true);
        ("language", JStr EmptyString)])
  = Some (JBool true)
  /\ Object.lookup "language"
       (DeepgramAdapters.adaptRequest
          [("utterances", JBool false); ("timestamps", JBool true);
           ("language", JStr EmptyString)])
     = None.
Proof.
  assert (ND : NoDup (Object.keys
                        [("utterances", JBool false);
                         ("timestamps", JBool true);
                         ("language", JStr EmptyString)])).
  { repeat constructor; simpl; intuition discriminate. }
  destruct (deepgram_adaptRequest_contract _ ND) as (_ & A & B & _).
  split; [exact B | exact A].
Defined.

Module AgreeFacts.

Lemma proto_set (k : string) (v : JSValue) (o : Obj JSValue) :
  Object.lookup "__proto__" o = None ->
  Object.lookup "__proto__" (Object.set k v o) = None.
Proof.
  intros H. destruct (String.eqb k "__proto__") eqn:E.
  - apply String.eqb_eq in E. subst k. unfold Object.set, Object.has_key.
    rewrite H. simpl. exact H.
  - apply String.eqb_neq in E.
    rewrite ObjectFacts.lookup_set_other by congruence. exact H.
Qed.

(** An assignment never gives the translated parameters a property named
    [__proto__]. *)
Lemma deepgram_proto model params :
  Object.lookup "__proto__" (Deepgram.translateParams model params) = None.
Proof.
  unfold Deepgram.translateParams.
  apply (NameFacts.fold_invariant
           (fun tr => Object.lookup "__proto__" tr = None)); [|reflexivity].
  intros [key value] tr _ H. unfold Deepgram.translate_entry.
  repeat match goal with
    | |- context [if ?c then _ else _] => destruct c
    end;
    first [exact H | apply proto_set; exact H].
Qed.

Lemma unprefixed (prefix key x : string) :
  Str.startsWith prefix key = false -> key <> prefix ++ x.
Proof. intros H ->. rewrite PrefixFacts.starts in H. discriminate. Qed.

End AgreeFacts.

(** X27. The two translations of the Deepgram adapter agree. On a request with
    distinct keys, none of them behind the prefix or a native flag or
    [__proto__], and with a language that is truthy if given,
    [adaptRequest] and [translateParams] bind the same names to the same
    values. *)
Theorem deepgram_translations_agree :
  forall (model : JSValue) (request : Obj JSValue),
    NoDup (Object.keys request) ->
    (forall k, In k (Object.keys request) ->
               Str.startsWith "deepgram_" k = false
               /\ ~ In k ["utterances"; "smart_format"; "diarize";
                          "__proto__"]) ->
    (forall v, Object.lookup "language" request = Some v ->
               JS.truthy v = true) ->
    forall k,
      Object.lookup k (DeepgramAdapters.adaptRequest request)
      = Object.lookup k (Deepgram.translateParams model request).
Proof.
  intros model request ND Hkeys Hlang k.
  assert (Plain : forall key x, In key (Object.keys request) ->
                                key <> "deepgram_" ++ x).
  { intros key x Hin. apply AgreeFacts.unprefixed.
    exact (proj1 (Hkeys key Hin)). }
  assert (Abs : forall flag,
             In flag ["utterances"; "smart_format"; "diarize"] ->
             Terms.absent "deepgram_" flag request).
  { intros flag Hf key value Hin.
    pose proof (in_map fst _ _ Hin) as Hk. simpl in Hk. split.
    - intros ->. apply (proj2 (Hkeys flag Hk)). simpl in *. tauto.
    - apply Plain. exact Hk. }
  assert (Missing : forall flag,
             In flag ["utterances"; "smart_format"; "diarize"; "__proto__"] ->
             Object.lookup flag request = None).
  { intros flag Hf. destruct (Object.lookup flag request) eqn:E; [|reflexivity].
    apply KeysFacts.lookup_in in E. apply (in_map fst) in E. simpl in E.
    exfalso. exact (proj2 (Hkeys flag E) Hf). }
  rewrite (AdapterFacts.deepgram_lookup request k ND).
  destruct (in_dec string_dec k
              ["timestamps"; "word_confidence"; "speaker_labels"])
    as [Hu | Hu].
  { (* a unified flag: consumed by both *)
    assert (T : Object.lookup k (Deepgram.translateParams model request)
                = None).
    { unfold Deepgram.translateParams.
      rewrite TranslateFacts.fold_keeps; [reflexivity|].
      intros [key value] tr He. apply NameFacts.deepgram_consumes;
        [exact Hu|].
      apply Plain. exact (in_map fst _ _ He). }
    rewrite T.
    destruct Hu as [<- | [<- | [<- | []]]]; simpl;
      rewrite !andb_false_r; reflexivity. }
  destruct (in_dec string_dec k ["utterances"; "smart_format"; "diarize"])
    as [Hf | Hf].
  { (* a native flag: a row of the table *)
    assert (Hm : Object.lookup k request = None)
      by (apply Missing; simpl in *; tauto).
    destruct Hf as [<- | [<- | [<- | []]]].
    - rewrite (TableFacts.deepgram_row "timestamps" "utterances" model request
                 (or_introl eq_refl) ND (Abs _ (or_introl eq_refl))).
      rewrite Hm. simpl. rewrite !andb_false_r, andb_true_r.
      destruct (JS.truthy (JS.prop request "timestamps")); reflexivity.
    - rewrite (TableFacts.deepgram_row "word_confidence" "smart_format"
                 model request (or_intror (or_introl eq_refl)) ND
                 (Abs _ (or_intror (or_introl eq_refl)))).
      rewrite Hm. simpl. rewrite !andb_false_r, andb_true_r.
      destruct (JS.truthy (JS.prop request "word_confidence")); reflexivity.
    - rewrite (TableFacts.deepgram_row "speaker_labels" "diarize"
                 model request (or_intror (or_intror (or_introl eq_refl))) ND
                 (Abs _ (or_intror (or_intror (or_introl eq_refl))))).
      rewrite Hm. simpl. rewrite andb_true_r.
      destruct (JS.truthy (JS.prop request "speaker_labels")); [reflexivity|].
      rewrite !andb_false_r. reflexivity. }
  destruct (string_dec k "__proto__") as [-> | Hp].
  { rewrite AgreeFacts.deepgram_proto. simpl. rewrite !andb_false_r.
    apply Missing. simpl. tauto. }
  assert (R : ~ In k Notions.deepgram_reserved).
  { unfold Notions.deepgram_reserved. simpl in *. intuition congruence. }
  assert (T : Object.lookup k (Deepgram.translateParams model request)
              = Object.lookup k request).
  { destruct (Object.lookup k request) as [v|] eqn:E.
    - pose proof (in_map fst _ _ (KeysFacts.lookup_in _ _ _ E)) as Hk.
      simpl in Hk. rewrite <- E.
      apply (PlainFacts.fold_plain Deepgram.translate_entry k request ND).
      + intros tr x. apply PlainFacts.deepgram_set; [exact R|].
        exact (proj1 (Hkeys k Hk)).
      + intros tr key value Hin N. apply PlainFacts.deepgram_kept;
          [exact R | exact N|].
        apply Plain. exact (in_map fst _ _ Hin).
    - unfold Deepgram.translateParams.
      rewrite TranslateFacts.fold_keeps; [reflexivity|].
      intros [key value] tr Hin. apply PlainFacts.deepgram_kept; [exact R| |].
      + intros ->. apply (KeysFacts.lookup_none _ _ E).
        exact (in_map fst _ _ Hin).
      + apply Plain. exact (in_map fst _ _ Hin). }
  rewrite T.
  destruct (String.eqb k "language") eqn:El.
  - apply String.eqb_eq in El. subst k. simpl.
    rewrite !andb_false_r, andb_true_r. unfold JS.prop.
    destruct (Object.lookup "language" request) as [v|] eqn:E.
    + rewrite (Hlang v eq_refl). reflexivity.
    + reflexivity.
  - unfold mem. cbn [existsb]. rewrite El.
    repeat match goal with
      | |- context [String.eqb k ?b] =>
          let E := fresh "E" in
          destruct (String.eqb k b) eqn:E;
          [apply String.eqb_eq in E; subst; exfalso;
           first [apply Hu; simpl; tauto | apply Hf; simpl; tauto]|]
      end.
    rewrite !andb_false_r. reflexivity.
Qed.

(** [deepgram_translations_agree] on [{model, language, timestamps,
    punctuate}], at a name that is written and at one that is passed
    through. *)
Lemma deepgram_translations_agree_witness :
  Object.lookup "utterances"
    (DeepgramAdapters.adaptRequest
       [("model", JStr "nova-2"); ("language", JStr "en-US");
        ("timestamps", JBool true); ("punctuate", JBool true)])
  = Object.lookup "utterances"
      (Deepgram.translateParams (JStr "nova-2")
         [("model", JStr "nova-2"); ("language", JStr "en-US");
          ("timestamps", JBool true); ("punctuate", JBool true)])
  /\ Object.lookup "punctuate"
       (DeepgramAdapters.adaptRequest
          [("model", JStr "nova-2"); ("language", JStr "en-US");
           ("timestamps", JBool true); ("punctuate", JBool true)])
     = Object.lookup "punctuate"
         (Deepgram.translateParams (JStr "nova-2")
            [("model", JStr "nova-2"); ("language", JStr "en-US");
             ("timestamps", JBool true); ("punctuate", JBool true)]).
Proof.
  assert (A : forall k,
             Object.lookup k
               (DeepgramAdapters.adaptRequest
                  [("model", JStr "nova-2"); ("language", JStr "en-US");
                   ("timestamps", JBool true); ("punctuate", JBool true)])
             = Object.lookup k
                 (Deepgram.translateParams (JStr "nova-2")
                    [("model", JStr "nova-2"); ("language", JStr "en-US");
                     ("timestamps", JBool true); ("punctuate", JBool true)])).
  { apply deepgram_translations_agree.
    - repeat constructor; simpl; intuition discriminate.
    - intros k [<- | [<- | [<- | [<- | []]]]]; split;
        solve [reflexivity | simpl; intuition discriminate].
    - intros v H. injection H as <-. reflexivity. }
  split; apply A.
Defined.

(** X28. [adaptRequest] of the Google adapter, on a request with distinct keys:
    the audio content is [null]; the configuration binds [encoding],
    [sampleRateHertz] and [languageCode] as the request does, and to
    ['LINEAR16'], 16000 and the language of the request, or ['en-US'] when
    that is falsy, otherwise; with truthy [speaker_labels] it sets
    [diarizationSpeakerCount] to 2 over whatever the request gives; and it
    never binds a unified name. *)
Theorem google_adaptRequest_contract :
  forall request : Obj JSValue,
    NoDup (Object.keys request) ->
    JS.get_opt (GoogleAdapters.adaptRequest request) "audio"
    = JObj [("content", JNull)]
    /\ JS.get_opt (GoogleAdapters.adaptRequest request) "config"
       = JObj (GoogleAdapters.config_of request)
    /\ Object.lookup "encoding" (GoogleAdapters.config_of request)
       = Some (match Object.lookup "encoding" request with
               | Some v => v
               | None => JStr "LINEAR16"
               end)
    /\ Object.lookup "sampleRateHertz" (GoogleAdapters.config_of request)
       = Some (match Object.lookup "sampleRateHertz" request with
               | Some v => v
               | None => JNum 16000
               end)
    /\ Object.lookup "languageCode" (GoogleAdapters.config_of request)
       = Some (match Object.lookup "languageCode" request with
               | Some v => v
               | None =>
                   JS.or_else (JS.prop request "language") (JStr "en-US")
               end)
    /\ (JS.truthy (JS.prop request "speaker_labels") = true ->
        Object.lookup "enableSpeakerDiarization"
          (GoogleAdapters.config_of request)
        = Some (JBool true)
        /\ Object.lookup "diarizationSpeakerCount"
             (GoogleAdapters.config_of request)
           = Some (JNum 2))
    /\ (forall u,
           In u ["language"; "timestamps"; "word_confidence";
                 "speaker_labels"] ->
           Object.lookup u (GoogleAdapters.config_of request) = None).
Proof.
  intros request ND.
  pose proof (fun k => AdapterFacts.google_lookup request k ND) as L.
  split; [reflexivity|]. split; [reflexivity|].
  split; [|split; [|split; [|split]]].
  - rewrite L. simpl. rewrite !andb_false_r.
    destruct (Object.lookup "encoding" request); reflexivity.
  - rewrite L. simpl. rewrite !andb_false_r.
    destruct (Object.lookup "sampleRateHertz" request); reflexivity.
  - rewrite L. simpl. rewrite !andb_false_r.
    destruct (Object.lookup "languageCode" request); reflexivity.
  - intros S. rewrite !L, S. split; reflexivity.
  - intros u [<- | [<- | [<- | [<- | []]]]]; rewrite L; simpl;
      rewrite !andb_false_r; reflexivity.
Qed.

(** [google_adaptRequest_contract] on a request with an empty language and
    a speaker count of 4. *)
Lemma google_adaptRequest_contract_witness :
  Object.lookup "languageCode"
    (GoogleAdapters.config_of
       [("language", JStr EmptyString); ("speaker_labels", JBool true);
        ("diarizationSpeakerCount", JNum 4)])
  = Some (JStr "en-US")
  /\ Object.lookup "diarizationSpeakerCount"
       (GoogleAdapters.config_of
          [("language", JStr EmptyString); ("speaker_labels", JBool true);
           ("diarizationSpeakerCount", JNum 4)])
     = Some (JNum 2).
Proof.
  assert (ND : NoDup (Object.keys
                        [("language", JStr EmptyString);
                         ("speaker_labels", JBool true);
                         ("diarizationSpeakerCount", JNum 4)])).
  { repeat constructor; simpl; intuition discriminate. }
  destruct (google_adaptRequest_contract _ ND)
    as (_ & _ & _ & _ & A & B & _).
  split; [exact A | exact (proj2 (B eq_refl))].
Defined.

(** * The test suites of the repository, replayed on the model *)

Module TestSuite.

(** [tests/asr/core/model-parser.test.ts]. *)
Example parse_hyphens :
  parseModel "deepgram:nova-2" = inr (mkParsed "deepgram" "nova-2").
Proof. reflexivity. Qed.

Example parse_underscores :
  parseModel "google:latest_long" = inr (mkParsed "google" "latest_long").
Proof. reflexivity. Qed.

Example parse_without_colon :
  parseModel "openai-whisper-1"
  = inl (ThrowError "Error" (format_message "openai-whisper-1")).
Proof. reflexivity. Qed.

Example parse_empty_model :
  parseModel "openai:" = inl (ThrowError "Error" (required_message "openai:")).
Proof. reflexivity. Qed.

Example parse_empty_string :
  parseModel EmptyString
  = inl (ThrowError "Error" (format_message EmptyString)).
Proof. reflexivity. Qed.

(** [tests/asr/providers/openai.test.ts]. *)
Example openai_accepts_prefixed :
  outcome (OpenAI.validateParams (JStr "whisper-1")
             [("openai_prompt", JStr "Custom prompt")])
  = inr tt.
Proof. reflexivity. Qed.

Example openai_translates_timestamps :
  OpenAI.translateParams (JStr "whisper-1") [("timestamps", JBool true)]
  = [("response_format", JStr "verbose_json")].
Proof. reflexivity. Qed.

Example openai_strips_prefix :
  OpenAI.translateParams (JStr "whisper-1")
    [("openai_prompt", JStr "Custom prompt")]
  = [("prompt", JStr "Custom prompt")].
Proof. reflexivity. Qed.

(** [tests/asr/providers/deepgram.test.ts]. *)
Example deepgram_accepts_all :
  Deepgram.validateParams (JStr "nova-2")
    [("language", JStr "en-US"); ("timestamps", JBool true);
     ("word_confidence", JBool true); ("speaker_labels", JBool true);
     ("smart_format", JBool true)]
  = ([], inr tt).
Proof. reflexivity. Qed.

Example deepgram_prefixed :
  Deepgram.translateParams (JStr "nova-2")
    [("deepgram_punctuate", JBool true); ("deepgram_utterances", JBool false)]
  = [("punctuate", JBool true); ("utterances", JBool false)].
Proof. reflexivity. Qed.

Example deepgram_flags_off :
  Deepgram.translateParams (JStr "nova-2")
    [("timestamps", JBool false); ("word_confidence", JBool false);
     ("speaker_labels", JBool false)]
  = [].
Proof. reflexivity. Qed.

Example deepgram_default_url :
  Deepgram.baseURL (Deepgram.create (Deepgram.mkConfig "test" None))
  = "https://api.deepgram.com/v1".
Proof. reflexivity. Qed.

(** The tests of the Google adapter. *)
Example google_language :
  Google.translateParams (JStr "latest_long") [("language", JStr "fr-FR")]
  = [("languageCode", JStr "fr-FR")].
Proof. reflexivity. Qed.

Example google_speaker_labels :
  Google.translateParams (JStr "latest_long") [("speaker_labels", JBool true)]
  = [("enableSpeakerDiarization", JBool true);
     ("diarizationSpeakerCount", JNum 2)].
Proof. reflexivity. Qed.

Example google_prefixed :
  Google.translateParams (JStr "latest_long")
    [("google_diarization_speaker_count", JNum 4);
     ("google_enable_automatic_punctuation", JBool true)]
  = [("diarization_speaker_count", JNum 4);
     ("enable_automatic_punctuation", JBool true)].
Proof. reflexivity. Qed.

(** The tests of the client. *)
Example client_partial :
  let client :=
    Client.new (Client.mkConfigs
                  (Some (Client.mkOpenAIConfig "test-key" None None)) None None)
  in
  Client.listProviders client = ["openai"]
  /\ Client.isProviderConfigured client "openai" = true
  /\ Client.isProviderConfigured client "deepgram" = false.
Proof. repeat split. Qed.

Example client_invalid_format :
  Client.create Sample.isolated
    (Client.new (Client.mkConfigs None None None))
    [("model", JStr "invalid-format"); ("file", JBuffer Sample.audio)] None
  = ([], inl (ThrowError "Error" (format_message "invalid-format"))).
Proof. reflexivity. Qed.

End TestSuite.
